(** * Verification model of the data-analysis core of Projeto-Django-SFM

    Shallow embedding of [src/backend/myapp/data_analysis.py]:
    - [CleanData.clean_data]                     (module [Cleaning]);
    - [InfoIHMJoin.join_data] after the as-of merge (module [Timeline]);
    - [join_qual_prod]                           (module [QualProd]);
    - [ProductionIndicators.create_indicators]   (module [Indicators]).

    A pandas table is a list of records, one per row, in frame order.
    Numeric columns are pandas [float64] columns; their finite values are
    modelled by exact rationals [Q], and a division whose result may be
    [inf], [-inf] or [NaN] returns a value of type [flt] below.
    Missing values ([None] / [NaN]) of object columns are [None]. *)

From Stdlib Require Import ZArith QArith Qround List String Ascii Bool Lia.
Import ListNotations.
Open Scope string_scope.

(** ** Shared numeric helpers *)

(** A float64 value as produced by a pandas division: finite, infinite or NaN. *)
Inductive flt : Type :=
| Fin (q : Q)
| PInf
| NInf
| NaN.

(** [a / b] in float64: division by (positive) zero gives [inf], [-inf] or [NaN]. *)
Definition fdiv (a b : Q) : flt :=
  if Qeq_bool b 0 then
    if Qeq_bool a 0 then NaN
    else if Qlt_le_dec 0 a then PInf else NInf
  else Fin (a / b).

(** [x < c] on float64: every comparison with NaN is false. *)
Definition flt_ltb (x : flt) (c : Q) : bool :=
  match x with
  | Fin q => negb (Qle_bool c q)
  | NInf => true
  | PInf => false
  | NaN => false
  end.

(** [Series.replace([np.inf, -np.inf], 0).fillna(0)]. *)
Definition fix_inf_nan (x : flt) : Q :=
  match x with
  | Fin q => q
  | _ => 0
  end.

(** numpy rounding to an integer: round half to even. *)
Definition round_half_even (q : Q) : Z :=
  let f := Qfloor q in
  let r := q - inject_Z f in
  if Qlt_le_dec r (1 # 2) then f
  else if Qeq_bool r (1 # 2) then (if Z.even f then f else f + 1)
  else f + 1.

(** [Series.round(3)]. *)
Definition round3 (q : Q) : Q := inject_Z (round_half_even (q * 1000)) / 1000.

(** [astype(int)] on a float: truncation toward zero. *)
Definition trunc (q : Q) : Z :=
  if Qle_bool 0 q then Qfloor q else - Qfloor (- q).

(** [Series.clip(lo, hi)]. *)
Definition clipQ (lo hi x : Q) : Q :=
  if Qlt_le_dec x lo then lo else if Qlt_le_dec hi x then hi else x.

(** ** [join_qual_prod] *)
Module QualProd.

(** A row of the production table after the left merge with the aggregated
    quality table and [df.fillna(0)]; only the columns the reconciliation
    reads are kept. *)
Record merged_row : Type := {
  total_ciclos : Q;
  total_produzido_sensor : Q;
  bdj_vazias : Q;
  bdj_retrabalho : Q;
}.

(** The same row after reconciliation and the final [astype(int)] casts. *)
Record out_row : Type := {
  o_total_ciclos : Q;
  o_total_produzido_sensor : Z;
  o_bdj_vazias : Z;
  o_bdj_retrabalho : Z;
  o_total_produzido : Z;
}.

(** [mask = (df.total_ciclos - df.total_produzido_sensor) / df.total_ciclos < 0.05] *)
Definition sensor_mask (r : merged_row) : bool :=
  flt_ltb (fdiv (total_ciclos r - total_produzido_sensor r) (total_ciclos r)) (5 # 100).

(** Lines 497-510: [np.where(mask, sensor, ciclos)] and the integer casts. *)
Definition reconcile (r : merged_row) : out_row :=
  let ciclos := total_ciclos r - bdj_vazias r - bdj_retrabalho r in
  let sensor := total_produzido_sensor r - bdj_retrabalho r in
  {| o_total_ciclos := total_ciclos r;
     o_total_produzido_sensor := trunc (total_produzido_sensor r);
     o_bdj_vazias := trunc (bdj_vazias r);
     o_bdj_retrabalho := trunc (bdj_retrabalho r);
     o_total_produzido := trunc (if sensor_mask r then sensor else ciclos) |}.

(** A production row with integer counts. *)
Definition int_row (tc s v rw : Z) : merged_row :=
  {| total_ciclos := inject_Z tc; total_produzido_sensor := inject_Z s;
     bdj_vazias := inject_Z v; bdj_retrabalho := inject_Z rw |}.

End QualProd.

(** ** [InfoIHMJoin.join_data], from the output of [__clean_merge] on *)
Module Timeline.

(** [Series.ne] on an object column: a missing value is never equal. *)
Definition ne_opt {A} (eqb : A -> A -> bool) (x y : option A) : bool :=
  match x, y with
  | Some a, Some b => negb (eqb a b)
  | _, _ => true
  end.

Definition notnull {A} (x : option A) : bool :=
  match x with Some _ => true | None => false end.

(** First non-missing value, else the second. *)
Definition or_opt {A} (x y : option A) : option A :=
  match x with Some _ => x | None => y end.

(** The columns filled per group in [__fill_occ] ([fill_cols]). *)
Record occ : Type := {
  motivo : option string;
  equipamento : option string;
  problema : option string;
  causa : option string;
  os_numero : option string;
  operador_id : option string;
  s_backup : option string;
  data_registro_ihm : option Z;
  hora_registro_ihm : option Z;
  afeta_eff : option Z;
}.

Definition occ_none : occ :=
  {| motivo := None; equipamento := None; problema := None; causa := None;
     os_numero := None; operador_id := None; s_backup := None;
     data_registro_ihm := None; hora_registro_ihm := None; afeta_eff := None |}.

(** A row of the frame returned by [__clean_merge] (dates as day numbers,
    times of day as seconds). *)
Record mrow : Type := {
  fabrica : option Z;
  linha : option Z;
  maquina_id : option string;
  turno : option string;
  status : option string;
  data_registro : Z;
  hora_registro : Z;
  occ_of : occ;
}.

(** The change columns added by [__status_change] and [__motivo_change]. *)
Record flags : Type := {
  status_change : bool;
  maquina_id_change : bool;
  turno_change : bool;
  change : bool;
  motivo_change : bool;
}.

Definition prow : Type := (flags * mrow)%type.

Definition set_occ (r : mrow) (o : occ) : mrow :=
  {| fabrica := fabrica r; linha := linha r; maquina_id := maquina_id r;
     turno := turno r; status := status r; data_registro := data_registro r;
     hora_registro := hora_registro r; occ_of := o |}.

(** [__status_change]: compare with the previous row ([shift()] is
    missing on the first row). *)
Fixpoint status_change_aux (prev : option mrow) (rows : list mrow) : list prow :=
  match rows with
  | [] => []
  | r :: rs =>
      let pst := match prev with Some p => status p | None => None end in
      let pmq := match prev with Some p => maquina_id p | None => None end in
      let ptu := match prev with Some p => turno p | None => None end in
      let sc := ne_opt String.eqb (status r) pst in
      let mc := ne_opt String.eqb (maquina_id r) pmq in
      let tc := ne_opt String.eqb (turno r) ptu in
      ({| status_change := sc; maquina_id_change := mc; turno_change := tc;
          change := sc || mc || tc; motivo_change := false |}, r)
        :: status_change_aux (Some r) rs
  end.

Definition status_change_step (rows : list mrow) : list prow :=
  status_change_aux None rows.

(** [df["group"] = df.change.cumsum()] followed by a [groupby("group")]:
    consecutive runs, a new run starting at every row whose [change] is
    set. *)
Fixpoint split_aux (cur : list prow) (xs : list prow) : list (list prow) :=
  match xs with
  | [] => match cur with [] => [] | _ => [rev cur] end
  | x :: xs' =>
      if change (fst x)
      then (match cur with [] => [] | _ => [rev cur] end) ++ split_aux [x] xs'
      else split_aux (x :: cur) xs'
  end.

Definition split_groups (xs : list prow) : list (list prow) := split_aux [] xs.

(** Column-wise forward fill: every column carries its last non-missing
    value. *)
Definition occ_or (x y : occ) : occ :=
  {| motivo := or_opt (motivo x) (motivo y);
     equipamento := or_opt (equipamento x) (equipamento y);
     problema := or_opt (problema x) (problema y);
     causa := or_opt (causa x) (causa y);
     os_numero := or_opt (os_numero x) (os_numero y);
     operador_id := or_opt (operador_id x) (operador_id y);
     s_backup := or_opt (s_backup x) (s_backup y);
     data_registro_ihm := or_opt (data_registro_ihm x) (data_registro_ihm y);
     hora_registro_ihm := or_opt (hora_registro_ihm x) (hora_registro_ihm y);
     afeta_eff := or_opt (afeta_eff x) (afeta_eff y) |}.

Fixpoint ffill (last : occ) (g : list prow) : list prow :=
  match g with
  | [] => []
  | (f, r) :: g' =>
      let o := occ_or (occ_of r) last in
      (f, set_occ r o) :: ffill o g'
  end.

Definition bfill (g : list prow) : list prow := rev (ffill occ_none (rev g)).

(** [df.replace(r"^s*$", None, regex=True)]: a string made only of the
    letter [s] (the empty string included) becomes missing. *)
Definition blank (s : string) : bool :=
  forallb (fun c => Ascii.eqb c "s"%char) (list_ascii_of_string s).

Definition repl (x : option string) : option string :=
  match x with Some s => if blank s then None else x | None => None end.

Definition repl_occ (o : occ) : occ :=
  {| motivo := repl (motivo o); equipamento := repl (equipamento o);
     problema := repl (problema o); causa := repl (causa o);
     os_numero := repl (os_numero o); operador_id := repl (operador_id o);
     s_backup := repl (s_backup o);
     data_registro_ihm := data_registro_ihm o;
     hora_registro_ihm := hora_registro_ihm o; afeta_eff := afeta_eff o |}.

Definition repl_row (r : mrow) : mrow :=
  {| fabrica := fabrica r; linha := linha r; maquina_id := repl (maquina_id r);
     turno := repl (turno r); status := repl (status r);
     data_registro := data_registro r; hora_registro := hora_registro r;
     occ_of := repl_occ (occ_of r) |}.

Definition is_rodando (r : mrow) : bool :=
  match status r with Some s => String.eqb s "rodando" | None => false end.

(** Replacement, running rows cleared, [afeta_eff.fillna(0)]. *)
Definition fill_post (x : prow) : prow :=
  let r := repl_row (snd x) in
  let o := if is_rodando r then occ_none else occ_of r in
  let o' := {| motivo := motivo o; equipamento := equipamento o;
               problema := problema o; causa := causa o;
               os_numero := os_numero o; operador_id := operador_id o;
               s_backup := s_backup o; data_registro_ihm := data_registro_ihm o;
               hora_registro_ihm := hora_registro_ihm o;
               afeta_eff := Some (match afeta_eff o with Some a => a | None => 0%Z end) |} in
  (fst x, set_occ r o').

(** [__fill_occ]. *)
Definition fill_occ (xs : list prow) : list prow :=
  map fill_post (List.concat (map (fun g => bfill (ffill occ_none g)) (split_groups xs))).

(** [__motivo_change]. *)
Fixpoint motivo_change_aux (prev : option prow) (xs : list prow) : list prow :=
  match xs with
  | [] => []
  | (f, r) :: xs' =>
      let po := match prev with Some p => occ_of (snd p) | None => occ_none end in
      let o := occ_of r in
      let m := (ne_opt String.eqb (motivo o) (motivo po) && notnull (motivo o))
               || ((ne_opt String.eqb (causa o) (causa po) && notnull (causa o))
                   || ne_opt Z.eqb (afeta_eff o) (afeta_eff po)
                   || (ne_opt Z.eqb (hora_registro_ihm o) (hora_registro_ihm po)
                       && notnull (hora_registro_ihm o))) in
      let f' := {| status_change := status_change f;
                   maquina_id_change := maquina_id_change f;
                   turno_change := turno_change f;
                   change := change f || m; motivo_change := m |} in
      (f', r) :: motivo_change_aux (Some (f, r)) xs'
  end.

Definition motivo_change_step (xs : list prow) : list prow :=
  motivo_change_aux None xs.

(** A row of [__calculate_time_difference]'s [groupby("group").agg(...)]. *)
Record arow : Type := {
  a_fabrica : option Z;
  a_linha : option Z;
  a_maquina_id : option string;
  a_turno : option string;
  a_status : option string;
  a_data_registro : Z;
  a_hora_registro : Z;
  a_occ : occ;
  a_data_hora : Z;
  a_change : bool;
  a_maquina_id_change : bool;
  a_motivo_change : bool;
}.

(** [GroupBy.first]: the first non-missing value of the group. *)
Fixpoint first_nonnull {A} (xs : list (option A)) : option A :=
  match xs with
  | [] => None
  | x :: xs' => or_opt x (first_nonnull xs')
  end.

(** [data_hora]: the timestamp in seconds. *)
Definition data_hora (r : mrow) : Z := (data_registro r * 86400 + hora_registro r)%Z.

Definition first_occ (rs : list mrow) : occ :=
  {| motivo := first_nonnull (map (fun r => motivo (occ_of r)) rs);
     equipamento := first_nonnull (map (fun r => equipamento (occ_of r)) rs);
     problema := first_nonnull (map (fun r => problema (occ_of r)) rs);
     causa := first_nonnull (map (fun r => causa (occ_of r)) rs);
     os_numero := first_nonnull (map (fun r => os_numero (occ_of r)) rs);
     operador_id := first_nonnull (map (fun r => operador_id (occ_of r)) rs);
     s_backup := first_nonnull (map (fun r => s_backup (occ_of r)) rs);
     data_registro_ihm := first_nonnull (map (fun r => data_registro_ihm (occ_of r)) rs);
     hora_registro_ihm := first_nonnull (map (fun r => hora_registro_ihm (occ_of r)) rs);
     afeta_eff := first_nonnull (map (fun r => afeta_eff (occ_of r)) rs) |}.

(** Aggregation of one group; the date, time and flag columns are never
    missing, so their first value is the first row's. *)
Definition agg_group (g : list prow) : list arow :=
  match g with
  | [] => []
  | (f, r) :: _ =>
      let rs := map snd g in
      [{| a_fabrica := first_nonnull (map fabrica rs);
          a_linha := first_nonnull (map linha rs);
          a_maquina_id := first_nonnull (map maquina_id rs);
          a_turno := first_nonnull (map turno rs);
          a_status := first_nonnull (map status rs);
          a_data_registro := data_registro r;
          a_hora_registro := hora_registro r;
          a_occ := first_occ rs;
          a_data_hora := data_hora r;
          a_change := change f;
          a_maquina_id_change := maquina_id_change f;
          a_motivo_change := motivo_change f |}]
  end.

(** A row with its [data_hora_final] and [tempo] columns. *)
Record trow : Type := {
  t_row : arow;
  data_hora_final : Z;
  tempo : Z;
}.

(** [tempo.clip(0, 480)], then [478] set to [480]. *)
Definition clip_tempo (raw : Z) : Z :=
  let c := Z.max 0 (Z.min raw 480) in
  if (c =? 478)%Z then 480%Z else c.

(** [((final - start).dt.total_seconds() / 60).round().astype(int)]. *)
Definition raw_tempo (start final : Z) : Z :=
  round_half_even (inject_Z (final - start) / 60).

(** [data_hora.shift(-1).where((~maquina_id_change).shift(-1))], missing
    values filled with [now]. *)
Fixpoint with_final (now : Z) (xs : list arow) : list trow :=
  match xs with
  | [] => []
  | a :: xs' =>
      let fin := match xs' with
                 | b :: _ => if a_maquina_id_change b then now else a_data_hora b
                 | [] => now
                 end in
      {| t_row := a; data_hora_final := fin;
         tempo := clip_tempo (raw_tempo (a_data_hora a) fin) |} :: with_final now xs'
  end.

(** [__calculate_time_difference], with [now] the clock reading
    [pd.to_datetime("now").floor("s")] in seconds. *)
Definition calculate_time_difference (now : Z) (xs : list prow) : list trow :=
  with_final now (List.concat (map agg_group (split_groups xs))).

(** A row of the frame returned by [join_data]. *)
Record urow : Type := {
  u_fabrica : Z;
  u_linha : option Z;
  u_maquina_id : option string;
  u_turno : option string;
  u_status : option string;
  u_data_registro : Z;
  u_hora_registro : Z;
  u_motivo : option string;
  u_equipamento : option string;
  u_problema : option string;
  u_causa : option string;
  u_os_numero : option string;
  u_operador_id : option string;
  u_data_registro_ihm : Z;
  u_hora_registro_ihm : Z;
  u_s_backup : option string;
  u_data_hora : Z;
  u_afeta_eff : Z;
  u_data_hora_final : Z;
  u_tempo : Z;
}.

Definition is_saida_backup (x : option string) : bool :=
  match x with Some s => String.eqb s "Saída para Backup" | None => false end.

(** The column adjustments at the end of [join_data]. *)
Definition post_row (t : trow) : urow :=
  let a := t_row t in
  let o := a_occ a in
  let mask := is_saida_backup (motivo o) in
  {| u_fabrica := Z.max 0 (match a_fabrica a with Some f => f | None => 0%Z end);
     u_linha := a_linha a; u_maquina_id := a_maquina_id a; u_turno := a_turno a;
     u_status := a_status a; u_data_registro := a_data_registro a;
     u_hora_registro := a_hora_registro a;
     u_motivo := motivo o; u_equipamento := equipamento o;
     u_problema := if mask then Some "Parada Planejada" else problema o;
     u_causa := if mask then Some "Backup" else causa o;
     u_os_numero := os_numero o; u_operador_id := operador_id o;
     u_data_registro_ihm := match data_registro_ihm o with Some d => d | None => a_data_registro a end;
     u_hora_registro_ihm := match hora_registro_ihm o with Some h => h | None => a_hora_registro a end;
     u_s_backup := if mask then s_backup o else None;
     u_data_hora := a_data_hora a;
     u_afeta_eff := match afeta_eff o with Some e => e | None => 0%Z end;
     u_data_hora_final := data_hora_final t; u_tempo := tempo t |}.

(** [df[df.fabrica.isin(range(1, 15))]]. *)
Definition fabrica_ok (u : urow) : bool := (1 <=? u_fabrica u)%Z && (u_fabrica u <=? 14)%Z.

(** [InfoIHMJoin.join_data] applied to the frame built by [__clean_merge]. *)
Definition join_data (now : Z) (rows : list mrow) : list urow :=
  filter fabrica_ok
    (map post_row
       (calculate_time_difference now
          (motivo_change_step (fill_occ (status_change_step rows))))).

(** A small frame: machine [M1] of line 3 stopped for a meal at 08:00,
    running from 15:58 (478 minutes later), on day 10. *)
Definition sample_occ : occ :=
  {| motivo := Some "Refeição"; equipamento := None; problema := None;
     causa := Some "Refeição"; os_numero := None; operador_id := Some "000123";
     s_backup := None; data_registro_ihm := Some 10%Z;
     hora_registro_ihm := Some 28800%Z; afeta_eff := Some 0%Z |}.

Definition sample_row (st : string) (h : Z) (o : occ) : mrow :=
  {| fabrica := Some 1%Z; linha := Some 3%Z; maquina_id := Some "M1";
     turno := Some "MAT"; status := Some st; data_registro := 10%Z;
     hora_registro := h; occ_of := o |}.

Definition sample_rows : list mrow :=
  [sample_row "parada" 28800 sample_occ; sample_row "parada" 28860 occ_none;
   sample_row "rodando" 57480 sample_occ].

Definition sample_now : Z := (10 * 86400 + 57600)%Z.

(** A placeholder row, used as the default of [hd]. *)
Definition urow_default : urow :=
  {| u_fabrica := 0; u_linha := None; u_maquina_id := None; u_turno := None;
     u_status := None; u_data_registro := 0; u_hora_registro := 0;
     u_motivo := None; u_equipamento := None; u_problema := None; u_causa := None;
     u_os_numero := None; u_operador_id := None; u_data_registro_ihm := 0;
     u_hora_registro_ihm := 0; u_s_backup := None; u_data_hora := 0;
     u_afeta_eff := 0; u_data_hora_final := 0; u_tempo := 0 |}.

(** Auxiliary notions for the proofs: the [change] flag and status of a
    row, and the property, checked row by row, that a row whose [change]
    is unset has the status of the row before it. *)
Definition keyp (x : prow) : bool * option string := (change (fst x), status (snd x)).

Fixpoint chainK (prev : option (option string)) (ks : list (bool * option string)) : Prop :=
  match ks with
  | [] => True
  | (c, st) :: ks' => (c = false -> prev = Some st) /\ chainK (Some st) ks'
  end.

(** The annotation columns the running-state rule is about. *)
Definition no_annotation (o : occ) : Prop :=
  motivo o = None /\ equipamento o = None /\ problema o = None /\ causa o = None
  /\ os_numero o = None /\ operador_id o = None /\ s_backup o = None.

(** A row without its two clock-dependent columns. *)
Definition erase_times (u : urow) : urow :=
  {| u_fabrica := u_fabrica u; u_linha := u_linha u; u_maquina_id := u_maquina_id u;
     u_turno := u_turno u; u_status := u_status u; u_data_registro := u_data_registro u;
     u_hora_registro := u_hora_registro u; u_motivo := u_motivo u;
     u_equipamento := u_equipamento u; u_problema := u_problema u; u_causa := u_causa u;
     u_os_numero := u_os_numero u; u_operador_id := u_operador_id u;
     u_data_registro_ihm := u_data_registro_ihm u;
     u_hora_registro_ihm := u_hora_registro_ihm u; u_s_backup := u_s_backup u;
     u_data_hora := u_data_hora u; u_afeta_eff := u_afeta_eff u;
     u_data_hora_final := 0; u_tempo := 0 |}.

End Timeline.

(** ** [ProductionIndicators.create_indicators] *)
Module Indicators.

(** [utils.IndicatorType]. *)
Inductive IndicatorType : Type := EFFICIENCY | PERFORMANCE | REPAIR.

Definition IndicatorType_eqb (a b : IndicatorType) : bool :=
  match a, b with
  | EFFICIENCY, EFFICIENCY | PERFORMANCE, PERFORMANCE | REPAIR, REPAIR => true
  | _, _ => false
  end.

(** The discount tables and skip lists of [utils.py], in dictionary order. *)
Definition DESC_EFF : list (string * Z) :=
  [("Troca de Sabor", 15); ("Troca de Produto", 35); ("Refeição", 65);
   ("Café e Ginástica Laboral", 10); ("Treinamento", 60)]%Z.
Definition DESC_PERF : list (string * Z) :=
  [("Troca de Sabor", 15); ("Troca de Produto", 35); ("Refeição", 65);
   ("Café e Ginástica Laboral", 10); ("Treinamento", 60)]%Z.
Definition DESC_REP : list (string * Z) :=
  [("Troca de Produto", 35); ("Manutenção Preventiva", 480);
   ("Manutenção Corretiva Programada", 480)]%Z.
Definition NOT_EFF : list string :=
  ["Sem Produção"; "Backup"; "Limpeza para parada de Fábrica"; "Saída para backup";
   "Revezamento"; "Manutenção Preventiva"; "Manutenção Corretiva Programada"].
Definition NOT_PERF : list string :=
  ["Sem Produção"; "Backup"; "Limpeza para parada de Fábrica"; "Risco de Contaminação";
   "Parâmetros de Qualidade"; "Manutenção"; "Saída para backup"; "Revezamento";
   "Manutenção Preventiva"; "Manutenção Corretiva Programada"].
Definition AF_REP : list string := ["Manutenção"; "Troca de Produtos"].
Definition CICLOS_ESPERADOS : Q := 23 # 2.
Definition CICLOS_BOLINHA : Q := 7.

(** A row of the interval table [info] (the persisted output of
    [join_data]); dates are day numbers. *)
Record info_row : Type := {
  i_maquina_id : string;
  i_linha : Z;
  i_data_registro : Z;
  i_turno : string;
  i_status : option string;
  i_motivo : option string;
  i_problema : option string;
  i_causa : option string;
  i_tempo : Z;
  i_afeta_eff : Z;
}.

(** A row of the production table [prod] (output of [join_qual_prod]). *)
Record prod_row : Type := {
  p_maquina_id : string;
  p_linha : Z;
  p_data_registro : Z;
  p_turno : string;
  p_produto : string;
  p_total_produzido : Z;
}.

(** A stop with its [desconto] and [excedente] columns. *)
Record disc_row : Type := {
  d_info : info_row;
  desconto : Z;
  excedente : Z;
}.

(** [isin(lst)] on one cell: exact match, missing cells never match. *)
Definition isin (x : option string) (lst : list string) : bool :=
  match x with Some s => existsb (String.eqb s) lst | None => false end.

(** ASCII lower case (the case folding of [str.contains(..., case=False)]
    is modelled on ASCII letters). *)
Definition lower (s : string) : string :=
  string_of_list_ascii
    (map (fun c => let n := nat_of_ascii c in
                   if (65 <=? n)%nat && (n <=? 90)%nat then ascii_of_nat (n + 32) else c)
         (list_ascii_of_string s)).

Fixpoint is_substring (k s : string) : bool :=
  match s with
  | EmptyString => String.eqb k EmptyString
  | String _ s' => String.prefix k s || is_substring k s'
  end.

(** [x.str.contains(key, case=False, na=False)] (the keys contain no
    regular-expression metacharacter). *)
Definition contains_ci (key : string) (x : option string) : bool :=
  match x with Some s => is_substring (lower key) (lower s) | None => false end.

Definition set_desconto (r : disc_row) (v : Z) : disc_row :=
  {| d_info := d_info r; desconto := v; excedente := excedente r |}.

(** Steps of [__calculate_discount_time]: the skip mask ... *)
Definition skip_mask (skip : list string) (r : info_row) : bool :=
  isin (i_motivo r) skip || isin (i_problema r) skip || isin (i_causa r) skip.

(** ... the table lookup, one dictionary entry after the other ... *)
Definition apply_desc (desc : list (string * Z)) (r : disc_row) : disc_row :=
  fold_left (fun r kv =>
               let i := d_info r in
               if contains_ci (fst kv) (i_motivo i) || contains_ci (fst kv) (i_problema i)
                  || contains_ci (fst kv) (i_causa i)
               then set_desconto r (snd kv) else r) desc r.

(** ... the cap by the duration, [afeta_eff] and the excess. *)
Definition finish_discount (r : disc_row) : disc_row :=
  let t := i_tempo (d_info r) in
  let d := Z.min (desconto r) t in
  let d := if (i_afeta_eff (d_info r) =? 1)%Z then t else d in
  {| d_info := d_info r; desconto := d; excedente := Z.max (t - d) 0 |}.

Definition calculate_discount_time (rows : list info_row) (desc : list (string * Z))
    (skip : list string) (ind : IndicatorType) : list disc_row :=
  let init := map (fun r =>
                     {| d_info := r;
                        desconto := if skip_mask skip r
                                    then (match ind with REPAIR => 0 | _ => i_tempo r end)
                                    else 0;
                        excedente := 0 |}) rows in
  let sub := match ind with
             | EFFICIENCY => init
             | PERFORMANCE => filter (fun d => negb (skip_mask skip (d_info d))) init
             | REPAIR => filter (fun d => skip_mask skip (d_info d)) init
             end in
  map (fun d => finish_discount (apply_desc desc d)) sub.

(** A production row after the left merge with the stops summed by
    (machine, line, date, shift), [fillna(0)] and the expected time. *)
Record merged : Type := {
  m_prod : prod_row;
  m_tempo : Z;
  m_desconto : Z;
  m_excedente : Z;
  tempo_esperado : Q;
}.

Definition same_key (p : prod_row) (i : info_row) : bool :=
  String.eqb (p_maquina_id p) (i_maquina_id i) && (p_linha p =? i_linha i)%Z
  && (p_data_registro p =? i_data_registro i)%Z && String.eqb (p_turno p) (i_turno i).

(** Sum of one column over the stops of the production row's key: the
    [groupby(...).agg(sum)] row it is merged with, or [0] when there is
    none ([fillna(0)]). *)
Definition sum_key (f : disc_row -> Z) (ds : list disc_row) (p : prod_row) : Z :=
  fold_right (fun d acc => (f d + acc)%Z) 0%Z (filter (fun d => same_key p (d_info d)) ds).

(** [__get_elapsed_time], the clock being [now_sec] seconds after
    midnight. *)
Definition get_elapsed_time (now_sec : Z) (turno : string) : Q :=
  let h := (now_sec / 3600)%Z in
  if String.eqb turno "MAT" && (8 <=? h)%Z && (h <? 16)%Z then inject_Z (now_sec - 28800) / 60
  else if String.eqb turno "VES" && (16 <=? h)%Z && (h <? 24)%Z then inject_Z (now_sec - 57600) / 60
  else if String.eqb turno "NOT" && (0 <=? h)%Z && (h <? 8)%Z then inject_Z now_sec / 60
  else 480.

(** [__get_expected_production_time] on one row; [today] is the day number
    of the clock. *)
Definition expected_time (today now_sec : Z) (p : prod_row) (desc : Z) : Q :=
  let v := if (p_data_registro p =? today)%Z
           then inject_Z (Qfloor (get_elapsed_time now_sec (p_turno p) - inject_Z desc))
           else 480 - inject_Z desc in
  if Qlt_le_dec 1 v then v else 1.

Definition merge_stops (today now_sec : Z) (ds : list disc_row) (p : prod_row) : merged :=
  let d := sum_key desconto ds p in
  {| m_prod := p; m_tempo := sum_key (fun x => i_tempo (d_info x)) ds p;
     m_desconto := d; m_excedente := sum_key excedente ds p;
     tempo_esperado := expected_time today now_sec p d |}.

(** A row of the frame returned by [create_indicators]; the columns
    [total_produzido] and [producao_esperada] exist for efficiency only. *)
Record ind_out : Type := {
  o_fabrica : Z;
  o_linha : Z;
  o_maquina_id : string;
  o_turno : string;
  o_data_registro : Z;
  o_tempo : Z;
  o_desconto : Z;
  o_excedente : Z;
  o_tempo_esperado : Z;
  o_total_produzido : option Z;
  o_producao_esperada : option Z;
  value : Q;
}.

Definition fabrica_of (linha : Z) : Z := if (1 <=? linha)%Z && (linha <=? 9)%Z then 1%Z else 2%Z.

Definition Qeqb (a b : Q) : bool := Qeq_bool a b.
Definition Qltb (a b : Q) : bool := negb (Qle_bool b a).

(** [(a / b).round(3)] followed by [.replace([np.inf, -np.inf], 0).fillna(0)]. *)
Definition ratio3 (a b : Q) : Q :=
  match fdiv a b with Fin q => round3 q | _ => 0 end.

(** [__eff_adjust] on one row. *)
Definition eff_adjust (m : merged) : ind_out :=
  let p := m_prod m in
  let tot := p_total_produzido p in
  let te := tempo_esperado m in
  let bol : Q := if is_substring " BOL" (p_produto p) then 1 else 0 in
  let pe := inject_Z (round_half_even (te * (CICLOS_BOLINHA * 2) * bol
                                       + te * (CICLOS_ESPERADOS * 2) * (1 - bol))) in
  let v := ratio3 (inject_Z tot) pe in
  let v := if Qeqb pe 0 && Qeqb v 0 then 0 else v in
  let v := if Qltb v 0 then 0 else v in
  let '(v, pe, te) := if Qle_bool te 10 then (0, 0, 0) else (v, pe, te) in
  let '(v, pe, te) := if (m_desconto m =? 480)%Z then (0, 0, 0) else (v, pe, te) in
  let v := if Qltb (6 # 5) v && Qltb te 15 then 6 # 5 else v in
  let v := clipQ 0 (3 # 2) v in
  let v := if (m_desconto m <? 5)%Z && (tot <? 20)%Z && Qeqb v 0 then 1 # 100 else v in
  {| o_fabrica := fabrica_of (p_linha p); o_linha := p_linha p;
     o_maquina_id := p_maquina_id p; o_turno := p_turno p;
     o_data_registro := p_data_registro p; o_tempo := m_tempo m;
     o_desconto := m_desconto m; o_excedente := m_excedente m;
     o_tempo_esperado := trunc te; o_total_produzido := Some tot;
     o_producao_esperada := Some (trunc pe); value := v |}.

(** A planned stop: (date, shift, line). *)
Definition pkey : Type := (Z * string * Z)%type.

Definition pkey_eqb (k : pkey) (p : prod_row) : bool :=
  let '(d, t, l) := k in
  (d =? p_data_registro p)%Z && String.eqb t (p_turno p) && (l =? p_linha p)%Z.

(** [__adjust]: the ratio, the left merge with [paradas_programadas] (one
    copy of the row per matching planned stop, the [programada] flag set),
    the planned stops set to [0] and the clip to [0, 1]. *)
Definition adjust (paradas : list pkey) (ms : list merged) : list ind_out :=
  flat_map (fun m =>
    let p := m_prod m in
    let v := ratio3 (inject_Z (m_excedente m)) (tempo_esperado m) in
    let c := List.length (filter (fun k => pkey_eqb k p) paradas) in
    let rows := if (c =? 0)%nat then [(v, tempo_esperado m, false)]
                else repeat (v, tempo_esperado m, true) c in
    map (fun (x : Q * Q * bool) =>
           let '(v, te, programada) := x in
           let '(v, te) := if programada then (0, 0) else (v, te) in
           {| o_fabrica := fabrica_of (p_linha p); o_linha := p_linha p;
              o_maquina_id := p_maquina_id p; o_turno := p_turno p;
              o_data_registro := p_data_registro p; o_tempo := m_tempo m;
              o_desconto := m_desconto m; o_excedente := m_excedente m;
              o_tempo_esperado := trunc te; o_total_produzido := None;
              o_producao_esperada := None; value := clipQ 0 1 v |}) rows) ms.

Definition desc_of (ind : IndicatorType) : list (string * Z) :=
  match ind with EFFICIENCY => DESC_EFF | PERFORMANCE => DESC_PERF | REPAIR => DESC_REP end.

Definition skip_of (ind : IndicatorType) : list string :=
  match ind with EFFICIENCY => NOT_EFF | PERFORMANCE => NOT_PERF | REPAIR => AF_REP end.

Definition is_parada (r : info_row) : bool :=
  match i_status r with Some s => String.eqb s "parada" | None => false end.

(** The planned-stop mask of [create_indicators]. *)
Definition planned (r : info_row) : bool :=
  isin (i_causa r) ["Sem Produção"; "Backup"] && (478 <=? i_tempo r)%Z.

(** [ProductionIndicators.create_indicators]; the clock is the day number
    [today] and [now_sec] seconds after midnight. *)
Definition create_indicators (today now_sec : Z) (info : list info_row)
    (prod : list prod_row) (ind : IndicatorType) : list ind_out :=
  let stops := filter is_parada info in
  let paradas := match ind with
                 | EFFICIENCY => []
                 | _ => map (fun r => (i_data_registro r, i_turno r, i_linha r))
                            (filter planned stops)
                 end in
  let ds := calculate_discount_time stops (desc_of ind) (skip_of ind) ind in
  let ms := map (merge_stops today now_sec ds) prod in
  match ind with
  | EFFICIENCY => map eff_adjust ms
  | _ => adjust paradas ms
  end.

(** A small data set: on day 10, shift MAT, line 3, machine [M1] stood
    still the whole shift for a backup, machine [M2] had a 10-minute
    product change and produced 9000 units. *)
Definition sample_stop (m : string) (mot cau : option string) (t a : Z) : info_row :=
  {| i_maquina_id := m; i_linha := 3; i_data_registro := 10; i_turno := "MAT";
     i_status := Some "parada"; i_motivo := mot; i_problema := None; i_causa := cau;
     i_tempo := t; i_afeta_eff := a |}.

Definition sample_info : list info_row :=
  [sample_stop "M1" (Some "Parada Planejada") (Some "Backup") 480 1;
   sample_stop "M2" (Some "Troca de Produto") None 10 0].

Definition sample_prod_row (m : string) (tot : Z) : prod_row :=
  {| p_maquina_id := m; p_linha := 3; p_data_registro := 10; p_turno := "MAT";
     p_produto := "PAO"; p_total_produzido := tot |}.

Definition sample_prod : list prod_row := [sample_prod_row "M1" 0; sample_prod_row "M2" 9000].

Definition ind_out_default : ind_out :=
  {| o_fabrica := 0; o_linha := 0; o_maquina_id := ""; o_turno := ""; o_data_registro := 0;
     o_tempo := 0; o_desconto := 0; o_excedente := 0; o_tempo_esperado := 0;
     o_total_produzido := None; o_producao_esperada := None; value := 0 |}.

(** A product change at lunch: the stop mentions two entries of the
    discount table. *)
Definition lunch_change : disc_row :=
  {| d_info := sample_stop "M2" (Some "Troca de Produto") (Some "Refeição") 70 0;
     desconto := 0; excedente := 0 |}.

(** One entry of a discount table matches a stop: the key occurs in its
    reason, problem or cause (the test of the loop of
    [__calculate_discount_time]). *)
Definition desc_hit (k : string) (i : info_row) : bool :=
  contains_ci k (i_motivo i) || contains_ci k (i_problema i) || contains_ci k (i_causa i).

End Indicators.

(** ** [CleanData.clean_data] *)
Module Cleaning.

(** A cell of an object column. *)
Inductive cell : Type :=
| CNull
| CInt (z : Z)
| CStr (s : string).

Definition cell_eqb (a b : cell) : bool :=
  match a, b with
  | CNull, CNull => true
  | CInt x, CInt y => (x =? y)%Z
  | CStr x, CStr y => String.eqb x y
  | _, _ => false
  end.

(** A table: column names and rows, each row one cell per column. *)
Record frame : Type := {
  columns : list string;
  rows : list (list cell);
}.

(** A Python exception: its class name and arguments. *)
Record py_error : Type := PyExc {
  exc_class : string;
  exc_args : list string;
}.

Inductive result (A : Type) : Type :=
| Ok (a : A)
| Err (e : py_error).
Arguments Ok {A} a.
Arguments Err {A} e.

Definition bind {A B} (m : result A) (k : A -> result B) : result B :=
  match m with Ok a => k a | Err e => Err e end.

Notation "x <- m ;; k" := (bind m (fun x => k)) (at level 61, m at next level, right associativity).

Definition mem (c : string) (cols : list string) : bool := existsb (String.eqb c) cols.

Fixpoint index_of (c : string) (cols : list string) : nat :=
  match cols with
  | [] => 0
  | c' :: cols' => if String.eqb c c' then 0 else S (index_of c cols')
  end.

Definition get (df : frame) (c : string) (row : list cell) : cell :=
  nth (index_of c (columns df)) row CNull.

Fixpoint set_nth (n : nat) (v : cell) (row : list cell) : list cell :=
  match n, row with
  | _, [] => []
  | O, _ :: r => v :: r
  | S n', x :: r => x :: set_nth n' v r
  end.

(** [df.col = f(df.col)] for an existing column. *)
Definition map_col (df : frame) (c : string) (f : cell -> cell) : frame :=
  {| columns := columns df;
     rows := map (fun row => set_nth (index_of c (columns df)) (f (get df c row)) row) (rows df) |}.

(** [df["c"] = f(row)]: replaces the column when it exists, appends it
    otherwise. *)
Definition assign_col (df : frame) (c : string) (f : list cell -> cell) : frame :=
  if mem c (columns df) then
    {| columns := columns df;
       rows := map (fun row => set_nth (index_of c (columns df)) (f row) row) (rows df) |}
  else
    {| columns := app (columns df) [c];
       rows := map (fun row => app row [f row]) (rows df) |}.

(** [df.drop_duplicates()]: the first copy of each row is kept. *)
Fixpoint dedup (seen : list (list cell)) (rs : list (list cell)) : list (list cell) :=
  match rs with
  | [] => []
  | r :: rs' =>
      if existsb (fun s => forallb (fun p => cell_eqb (fst p) (snd p)) (combine s r)
                           && (List.length s =? List.length r)%nat) seen
      then dedup seen rs'
      else r :: dedup (r :: seen) rs'
  end.

Definition drop_duplicates (df : frame) : frame :=
  {| columns := columns df; rows := dedup [] (rows df) |}.

(** [df.dropna(subset=subset)]: a [KeyError] listing the absent columns,
    else the rows with a missing value in the subset are dropped. *)
Definition dropna (df : frame) (subset : list string) : result frame :=
  let missing := filter (fun c => negb (mem c (columns df))) subset in
  match missing with
  | [] => Ok {| columns := columns df;
                rows := filter (fun row => forallb (fun c => match get df c row with
                                                              | CNull => false
                                                              | _ => true
                                                              end) subset) (rows df) |}
  | _ => Err (PyExc "KeyError" missing)
  end.

Definition digit_of (n : nat) : ascii := ascii_of_nat (48 + n).

(** Decimal writing of a natural number ([str] of an [int]). *)
Fixpoint digits_aux (fuel : nat) (n : nat) (acc : string) : string :=
  match fuel with
  | O => acc
  | S fuel' =>
      let acc' := String (digit_of (n mod 10)) acc in
      if (n <? 10)%nat then acc' else digits_aux fuel' (n / 10) acc'
  end.

Definition str_of_Z (z : Z) : string :=
  if (z <? 0)%Z then String "-" (digits_aux (S (Z.to_nat (- z))) (Z.to_nat (- z)) "")
  else digits_aux (S (Z.to_nat z)) (Z.to_nat z) "".

(** [astype(str)]. *)
Definition cell_str (c : cell) : string :=
  match c with CNull => "None" | CInt z => str_of_Z z | CStr s => s end.

(** [s.split(".")[0]]. *)
Fixpoint before_dot (s : string) : string :=
  match s with
  | EmptyString => EmptyString
  | String c s' => if Ascii.eqb c "." then EmptyString else String c (before_dot s')
  end.

(** [int(s)] on an optionally signed string of decimal digits (the
    surrounding blanks and [_] separators Python also accepts are not
    modelled). *)
Fixpoint parse_digits (s : string) (acc : Z) : option Z :=
  match s with
  | EmptyString => Some acc
  | String c s' =>
      let n := nat_of_ascii c in
      if (48 <=? n)%nat && (n <=? 57)%nat
      then parse_digits s' (acc * 10 + Z.of_nat (n - 48))%Z
      else None
  end.

Definition parse_int (s : string) : option Z :=
  match s with
  | String c s' =>
      if Ascii.eqb c "-" then (match s' with EmptyString => None
                              | _ => option_map Z.opp (parse_digits s' 0) end)
      else if Ascii.eqb c "+" then (match s' with EmptyString => None
                                   | _ => parse_digits s' 0 end)
      else parse_digits s 0
  | EmptyString => None
  end.

(** [fillna(0).astype(int)] on one cell. *)
Definition cell_to_int (c : cell) : result Z :=
  match c with
  | CNull => Ok 0%Z
  | CInt z => Ok z
  | CStr s => match parse_int s with
              | Some z => Ok z
              | None => Err (PyExc "ValueError" [s])
              end
  end.

Fixpoint all_ok {A} (xs : list (result A)) : result (list A) :=
  match xs with
  | [] => Ok []
  | x :: xs' => a <- x ;; l <- all_ok xs' ;; Ok (a :: l)
  end.

(** [df.col = df.col.fillna(0).astype(int)]. *)
Definition col_to_int (df : frame) (c : string) : result frame :=
  vals <- all_ok (map (fun row => cell_to_int (get df c row)) (rows df)) ;;
  Ok {| columns := columns df;
        rows := map (fun p => set_nth (index_of c (columns df)) (CInt (fst p)) (snd p))
                    (combine vals (rows df)) |}.

Fixpoint repeat_string (k : nat) (z : string) : string :=
  match k with O => EmptyString | S k' => String.append z (repeat_string k' z) end.

(** [str.zfill(w)]: zeros inserted after a leading sign. *)
Definition zfill (w : nat) (s : string) : string :=
  let n := String.length s in
  if (w <=? n)%nat then s
  else match s with
       | String c s' =>
           if Ascii.eqb c "-" || Ascii.eqb c "+"
           then String c (String.append (repeat_string (w - n) "0") s')
           else String.append (repeat_string (w - n) "0") s
       | EmptyString => repeat_string w "0"
       end.

(** [Series.replace(v, None)] on one cell (pandas 2.2 or later, which the
    option [future.no_silent_downcasting] set by the module requires: an
    explicit [None] value replaces the matches). *)
Definition replace_none (v : string) (c : cell) : cell :=
  match c with CStr s => if String.eqb s v then CNull else c | _ => c end.

(** The [linha] step: integer line, rows of line 0 dropped, [fabrica]
    derived. *)
Definition linha_step (df : frame) : result frame :=
  if mem "linha" (columns df) then
    df1 <- col_to_int df "linha" ;;
    let df2 := {| columns := columns df1;
                  rows := filter (fun row => negb (cell_eqb (get df1 "linha" row) (CInt 0)))
                                 (rows df1) |} in
    Ok (assign_col df2 "fabrica"
          (fun row => match get df2 "linha" row with
                      | CInt l => if (1 <=? l)%Z && (l <=? 9)%Z then CInt 1 else CInt 2
                      | _ => CInt 2
                      end))
  else Ok df.

(** The [operador_id] step; [df.os_numero] is an attribute access, an
    [AttributeError] when the column is absent. *)
Definition operador_step (df : frame) : result frame :=
  if mem "operador_id" (columns df) then
    df1 <- col_to_int df "operador_id" ;;
    let df2 := map_col df1 "operador_id" (fun c => CStr (zfill 6 (cell_str c))) in
    let df3 := map_col df2 "operador_id" (replace_none "000000") in
    if mem "os_numero" (columns df3)
    then Ok (map_col df3 "os_numero" (replace_none "0"))
    else Err (PyExc "AttributeError" ["os_numero"])
  else Ok df.

(** [CleanData.clean_data]. *)
Definition clean_data (df : frame) : result frame :=
  let df := drop_duplicates df in
  df <- dropna df ["maquina_id"; "data_registro"; "hora_registro"] ;;
  let df := map_col df "hora_registro" (fun c => CStr (before_dot (cell_str c))) in
  df <- linha_step df ;;
  operador_step df.

(** A telemetry table without its [hora_registro] column. *)
Definition sample_no_time : frame :=
  {| columns := ["maquina_id"; "data_registro"; "status"];
     rows := [[CStr "TMF001"; CStr "2024-05-10"; CStr "true"]] |}.

(** An annotation table whose columns are all present. *)
Definition sample_ihm : frame :=
  {| columns := ["linha"; "maquina_id"; "data_registro"; "hora_registro"; "operador_id"; "os_numero"];
     rows := [[CInt 3; CStr "TMF001"; CStr "2024-05-10"; CStr "08:00:00.123"; CInt 123; CStr "0"];
              [CInt 3; CStr "TMF001"; CStr "2024-05-10"; CStr "08:00:00.123"; CInt 123; CStr "0"];
              [CNull; CStr "TMF002"; CStr "2024-05-10"; CNull; CNull; CStr "7"]] |}.

(** A table whose rows all have one cell per column, as a pandas frame. *)
Definition rectangular (df : frame) : Prop :=
  Forall (fun row => List.length row = List.length (columns df)) (rows df).


(** The cleaned [sample_ihm]. *)
Definition cleaned_ihm : frame :=
  {| columns := ["linha"; "maquina_id"; "data_registro"; "hora_registro";
                 "operador_id"; "os_numero"; "fabrica"];
     rows := [[CInt 3; CStr "TMF001"; CStr "2024-05-10"; CStr "08:00:00";
               CStr "000123"; CNull; CInt 1]] |}.

End Cleaning.

(** ** [clean_hora_registro] and the grouping and merge of [join_qual_prod] *)
Module QualJoin.
Import Cleaning.

(** A character class of the compiled [strptime] pattern, on characters of
    code point below 256 (none of which is a non-ASCII decimal digit, so
    [\d] is [0-9] there). *)
Definition in_range (lo hi : ascii) (c : ascii) : bool :=
  (nat_of_ascii lo <=? nat_of_ascii c)%nat && (nat_of_ascii c <=? nat_of_ascii hi)%nat.

Definition is_char (c : ascii) : ascii -> bool := Ascii.eqb c.

Definition digit : ascii -> bool := in_range "0" "9".

(** One alternative of a group: a sequence of character classes. *)
Definition alt : Type := list (ascii -> bool).

(** The characters an alternative consumes at the start of a text, and the
    rest of the text. *)
Fixpoint match_alt (a : alt) (s : list ascii) : option (list ascii * list ascii) :=
  match a with
  | [] => Some ([], s)
  | p :: a' =>
      match s with
      | c :: s' =>
          if p c then
            match match_alt a' s' with
            | Some (m, r) => Some (c :: m, r)
            | None => None
            end
          else None
      | [] => None
      end
  end.

(** An item of a pattern: a group of alternatives, or a literal character. *)
Inductive item : Type :=
| Group (alts : list alt)
| Lit (c : ascii).

Fixpoint first_some {A B : Type} (f : A -> option B) (l : list A) : option B :=
  match l with
  | [] => None
  | x :: l' => match f x with Some b => Some b | None => first_some f l' end
  end.

(** [re.match]: the alternatives of a group are tried in order, going back
    to the next one when the rest of the pattern fails; the first match found
    gives the text of each group and the unmatched rest of the text. *)
Fixpoint re_match (p : list item) (s : list ascii) : option (list (list ascii) * list ascii) :=
  match p with
  | [] => Some ([], s)
  | Lit c :: p' =>
      match s with
      | c' :: s' => if Ascii.eqb c c' then re_match p' s' else None
      | [] => None
      end
  | Group alts :: p' =>
      first_some (fun a => match match_alt a s with
                           | Some (m, r) =>
                               match re_match p' r with
                               | Some (gs, r') => Some (m :: gs, r')
                               | None => None
                               end
                           | None => None
                           end) alts
  end.

(** The directives of [format="%H:%M:%S"], as CPython's [_strptime.TimeRE]
    writes them (pandas compiles its formats with it):
    [(?P<H>2[0-3]|[0-1]\d|\d)], [(?P<M>[0-5]\d|\d)], [(?P<S>6[0-1]|[0-5]\d|\d)]. *)
Definition H_alts : list alt :=
  [[is_char "2"; in_range "0" "3"]; [in_range "0" "1"; digit]; [digit]].

Definition M_alts : list alt := [[in_range "0" "5"; digit]; [digit]].

Definition S_alts : list alt :=
  [[is_char "6"; in_range "0" "1"]; [in_range "0" "5"; digit]; [digit]].

Definition hms_pattern : list item :=
  [Group H_alts; Lit ":"; Group M_alts; Lit ":"; Group S_alts].

(** [int] of the text of a group. *)
Definition digits_value (m : list ascii) : nat :=
  fold_left (fun acc c => acc * 10 + (nat_of_ascii c - 48))%nat m 0%nat.

(** The texts pandas reads as [NaT]. *)
Definition nat_strings : list string := ["NaT"; "nat"; "NAT"; "nan"; "NaN"; "NAN"].

(** A [datetime.time]: hour, minute, second. *)
Definition time : Type := (nat * nat * nat)%type.

(** A row of the quality table, with the columns [join_qual_prod] reads
    (the [recno] column it drops is present and not kept). The dates are
    those [pd.to_datetime] gives, written "YYYY-MM-DD": equal dates are
    equal texts. *)
Record qual_row : Type := {
  q_linha : Z;
  q_maquina_id : string;
  q_data_registro : string;
  q_hora_registro : option string;
  q_bdj_vazias : option Q;
  q_bdj_retrabalho : option Q;
}.

(** A row of the production table given to [join_qual_prod]. *)
Record prod_row : Type := {
  p_linha : Z;
  p_maquina_id : string;
  p_data_registro : string;
  p_turno : string;
  p_total_ciclos : Q;
  p_total_produzido_sensor : Q;
}.

(** The merge keys [linha], [maquina_id], [data_registro], [turno]. *)
Definition key : Type := (Z * string * string * string)%type.

Definition key_eqb (a b : key) : bool :=
  let '(l1, m1, d1, t1) := a in
  let '(l2, m2, d2, t2) := b in
  Z.eqb l1 l2 && String.eqb m1 m2 && String.eqb d1 d2 && String.eqb t1 t2.

(** A row of the result: its keys and the reconciled counts. *)
Record joined : Type := {
  j_key : key;
  j_out : QualProd.out_row;
}.

(** [(hour // 8).map({0: "NOT", 1: "MAT", 2: "VES"})]; an unmapped value is
    [NaN]. *)
Definition turno_of (h : nat) : option string :=
  match (h / 8)%nat with
  | 0%nat => Some "NOT"
  | 1%nat => Some "MAT"
  | 2%nat => Some "VES"
  | _ => None
  end.

(** A missing float in a sum: [groupby().sum()] skips [NaN]. *)
Definition opt0 (x : option Q) : Q := match x with Some q => q | None => 0 end.

Fixpoint add_to_groups (k : key) (v : Q * Q) (gs : list (key * (Q * Q))) : list (key * (Q * Q)) :=
  match gs with
  | [] => [(k, v)]
  | (k', a) :: gs' =>
      if key_eqb k k' then (k', (fst a + fst v, snd a + snd v)) :: gs'
      else (k', a) :: add_to_groups k v gs'
  end.

(** [groupby(keys).sum()] of [bdj_vazias] and [bdj_retrabalho]. *)
Definition groupby_sum (rows : list (key * (Q * Q))) : list (key * (Q * Q)) :=
  fold_left (fun gs kv => add_to_groups (fst kv) (snd kv) gs) rows [].

Fixpoint lookup_group (k : key) (gs : list (key * (Q * Q))) : option (Q * Q) :=
  match gs with
  | [] => None
  | (k', a) :: gs' => if key_eqb k k' then Some a else lookup_group k gs'
  end.

Definition qual_key (q : qual_row) (t : string) : key :=
  (q_linha q, q_maquina_id q, q_data_registro q, t).

Definition prod_key (p : prod_row) : key :=
  (p_linha p, p_maquina_id p, p_data_registro p, p_turno p).

(** The left merge of one production row with the grouped quality table,
    [fillna(0)], and the reconciliation of [QualProd]. *)
Definition merge_row (gs : list (key * (Q * Q))) (p : prod_row) : joined :=
  let vr := match lookup_group (prod_key p) gs with Some a => a | None => (0, 0) end in
  {| j_key := prod_key p;
     j_out := QualProd.reconcile
                {| QualProd.total_ciclos := p_total_ciclos p;
                   QualProd.total_produzido_sensor := p_total_produzido_sensor p;
                   QualProd.bdj_vazias := fst vr;
                   QualProd.bdj_retrabalho := snd vr |} |}.

(** [x.hour] on the result of [clean_hora_registro]. *)
Definition hour_of (t : option time) : result nat :=
  match t with
  | Some (h, _, _) => Ok h
  | None => Err (PyExc "AttributeError" ["hour"])
  end.

Section Parse.

(** What [pd.to_datetime] gives for the texts "now" and "today": the clock
    at the call. *)
Variable today_now : string -> option time.

(** What [pd.to_datetime] gives for a parsed second of 60 or 61, which the
    [%S] pattern accepts. *)
Variable leap : nat -> nat -> nat -> option time.

(** [pd.to_datetime(s, format="%H:%M:%S").time()], [None] when a
    [ValueError] is raised: the pattern does not match, text is left after
    the match ("unconverted data remains"), or the value is [NaT], whose
    [.time()] raises [ValueError]. *)
Definition to_time (s : string) : option time :=
  if String.eqb s "" || existsb (String.eqb s) nat_strings then None
  else if String.eqb s "now" || String.eqb s "today" then today_now s
  else
    match re_match hms_pattern (list_ascii_of_string s) with
    | Some ([mh; mm; ms], []) =>
        let h := digits_value mh in
        let m := digits_value mm in
        let sec := digits_value ms in
        if (sec <? 60)%nat then Some (h, m, sec) else leap h m sec
    | _ => None
    end.

(** [clean_hora_registro]: the text before the first '.', then [to_time];
    [pd.to_datetime(None)] is [None], whose [.time()] raises
    [AttributeError], which the function does not catch. *)
Definition clean_hora_registro (x : option string) : result (option time) :=
  match x with
  | None => Err (PyExc "AttributeError" ["time"])
  | Some s => Ok (to_time (before_dot s))
  end.

(** [join_qual_prod], row order apart: the three [sort_values] calls only
    reorder rows (the first two with numpy's unstable quicksort), so the
    rows are given here in the order of [prod]. *)
Definition join_qual_prod (prod : list prod_row) (qual : list qual_row) : result (list joined) :=
  times <- all_ok (map (fun q => clean_hora_registro (q_hora_registro q)) qual) ;;
  hours <- all_ok (map hour_of times) ;;
  let keyed := flat_map (fun qh => match turno_of (snd qh) with
                                   | Some t => [(qual_key (fst qh) t,
                                                 (opt0 (q_bdj_vazias (fst qh)),
                                                  opt0 (q_bdj_retrabalho (fst qh))))]
                                   | None => []
                                   end) (combine qual hours) in
  let gs := map (fun g => (fst g, (round3 (fst (snd g)), round3 (snd (snd g)))))
                (groupby_sum keyed) in
  Ok (map (merge_row gs) prod).

(** The shift [join_qual_prod] gives a quality row. *)
Definition qual_shift (q : qual_row) : option string :=
  match clean_hora_registro (q_hora_registro q) with
  | Ok (Some (h, _, _)) => turno_of h
  | _ => None
  end.

(** A quality row whose time does not give a [datetime.time]. *)
Definition bad_time (q : qual_row) : bool :=
  match clean_hora_registro (q_hora_registro q) with
  | Ok (Some _) => false
  | _ => true
  end.

End Parse.

Definition sumQ (l : list Q) : Q := fold_left Qplus l 0.

(** The quality total of a production row read directly off the quality
    rows: the rounded sum over the rows of its four keys, 0 when there are
    none. *)
Definition group_total (shift : qual_row -> option string) (f : qual_row -> option Q)
  (qual : list qual_row) (p : prod_row) : Q :=
  let ms := filter (fun q => match shift q with
                             | Some t => key_eqb (qual_key q t) (prod_key p)
                             | None => false
                             end) qual in
  match ms with
  | [] => 0
  | _ => round3 (sumQ (map (fun q => opt0 (f q)) ms))
  end.

Definition two_digits (n : nat) : string :=
  String (digit_of (n / 10)) (String (digit_of (n mod 10)) EmptyString).

(** A field of a time written [%H]/[%M]/[%S] style: two digits, or one digit
    for a value below 10 when [pad] is false. *)
Definition time_field (pad : bool) (n : nat) : string :=
  if pad || (10 <=? n)%nat then two_digits n else String (digit_of n) EmptyString.

Definition time_text (ph pm ps : bool) (h m s : nat) : string :=
  String.append (time_field ph h)
    (String ":" (String.append (time_field pm m) (String ":" (time_field ps s)))).

(** Sample quality and production rows. *)
Definition sample_qual : list qual_row :=
  [{| q_linha := 1; q_maquina_id := "TMF001"; q_data_registro := "2024-05-10";
      q_hora_registro := Some "08:15:00.250"; q_bdj_vazias := Some 2; q_bdj_retrabalho := Some 1 |};
   {| q_linha := 1; q_maquina_id := "TMF001"; q_data_registro := "2024-05-10";
      q_hora_registro := Some "09:30:00"; q_bdj_vazias := Some (3 # 2); q_bdj_retrabalho := None |};
   {| q_linha := 1; q_maquina_id := "TMF001"; q_data_registro := "2024-05-10";
      q_hora_registro := Some "17:00:00"; q_bdj_vazias := Some 5; q_bdj_retrabalho := Some 5 |}].

Definition sample_prod : list prod_row :=
  [{| p_linha := 1; p_maquina_id := "TMF001"; p_data_registro := "2024-05-10"; p_turno := "MAT";
      p_total_ciclos := 100; p_total_produzido_sensor := 98 |};
   {| p_linha := 1; p_maquina_id := "TMF001"; p_data_registro := "2024-05-10"; p_turno := "NOT";
      p_total_ciclos := 50; p_total_produzido_sensor := 40 |}].

End QualJoin.

(** ** Line and factory of the machines: [InfoIHMJoin.__line_adjust] *)

Module LineAdjust.

Import Cleaning.

(** [df[c]]: a [KeyError] naming the column when it is absent. *)
Definition column (df : frame) (c : string) : result (list cell) :=
  if mem c (columns df) then Ok (map (get df c) (rows df))
  else Err (PyExc "KeyError" [c]).

(** A Python dict as an association list in insertion order: setting a
    key already present replaces its value in place. *)
Fixpoint dict_set (k v : cell) (d : list (cell * cell)) : list (cell * cell) :=
  match d with
  | [] => [(k, v)]
  | (k', v') :: d' => if cell_eqb k k' then (k', v) :: d' else (k', v') :: dict_set k v d'
  end.

(** [dict(zip(ks, vs))]. Machine ids are compared as values; the missing
    ids of the annotation table, which [clean_data] has dropped, are not
    given pandas' treatment of NaN keys. *)
Definition dict_zip (ks vs : list cell) : list (cell * cell) :=
  fold_left (fun d kv => dict_set (fst kv) (snd kv) d) (combine ks vs) [].

(** One value of [Series.map(d)]: NaN for a key absent from [d]. *)
Fixpoint dict_get (k : cell) (d : list (cell * cell)) : cell :=
  match d with
  | [] => CNull
  | (k', v) :: d' => if cell_eqb k k' then v else dict_get k d'
  end.

(** [s.fillna(other)] for two series on the same index. *)
Definition fillna (s other : list cell) : list cell :=
  map (fun p => match fst p with CNull => snd p | x => x end) (combine s other).

(** [df[c] = vals] for a column [c] of [df]. *)
Definition set_column (df : frame) (c : string) (vals : list cell) : frame :=
  {| columns := columns df;
     rows := map (fun p => set_nth (index_of c (columns df)) (fst p) (snd p))
                 (combine vals (rows df)) |}.

(** [InfoIHMJoin.__line_adjust]: the expressions are evaluated in Python's
    order, the right-hand side of each assignment first. *)
Definition line_adjust (df_ihm df : frame) : result frame :=
  ks <- column df_ihm "maquina_id" ;;
  ls <- column df_ihm "linha" ;;
  let maq_line_dict := dict_zip ks ls in
  ks' <- column df_ihm "maquina_id" ;;
  fs <- column df_ihm "fabrica" ;;
  let maq_fab_dict := dict_zip ks' fs in
  lin <- column df "linha" ;;
  maq <- column df "maquina_id" ;;
  let df := set_column df "linha" (fillna lin (map (fun m => dict_get m maq_line_dict) maq)) in
  fab <- column df "fabrica" ;;
  maq2 <- column df "maquina_id" ;;
  Ok (set_column df "fabrica" (fillna fab (map (fun m => dict_get m maq_fab_dict) maq2))).

(** An annotation table where machine M1 appears on two lines, the later
    one last. *)
Definition sample_ihm_lines : frame :=
  {| columns := ["maquina_id"; "linha"; "fabrica"];
     rows := [[CStr "M1"; CInt 3; CInt 1]; [CStr "M2"; CInt 12; CInt 2];
              [CStr "M1"; CInt 5; CInt 1]] |}.

(** A production table with a missing line and factory. *)
Definition sample_info_lines : frame :=
  {| columns := ["maquina_id"; "linha"; "fabrica"; "ciclos"];
     rows := [[CStr "M1"; CNull; CNull; CInt 10]; [CStr "M2"; CInt 14; CNull; CInt 7];
              [CStr "M9"; CNull; CNull; CInt 1]] |}.

End LineAdjust.

(** ** General lemmas on the numeric helpers *)

Lemma trunc_inject_Z (z : Z) : trunc (inject_Z z) = z.
Proof.
  unfold trunc. destruct (Qle_bool 0 (inject_Z z)).
  - apply Qfloor_Z.
  - rewrite <- inject_Z_opp, Qfloor_Z. apply Z.opp_involutive.
Qed.

Lemma inject_Z_sub (a b : Z) : inject_Z a - inject_Z b = inject_Z (a - b).
Proof. unfold Qminus. rewrite <- inject_Z_opp, <- inject_Z_plus. reflexivity. Qed.

Lemma fdiv_nonzero (a b : Q) : ~ b == 0 -> fdiv a b = Fin (a / b).
Proof.
  intro H. unfold fdiv. destruct (Qeq_bool b 0) eqn:E; [|reflexivity].
  apply Qeq_bool_iff in E. contradiction.
Qed.

Lemma flt_ltb_Fin (q c : Q) : flt_ltb (Fin q) c = if Qlt_le_dec q c then true else false.
Proof.
  simpl. destruct (Qlt_le_dec q c) as [H|H].
  - destruct (Qle_bool c q) eqn:E; [|reflexivity].
    apply Qle_bool_iff in E. exfalso. apply (Qlt_not_le q c); auto.
  - apply Qle_bool_iff in H. rewrite H. reflexivity.
Qed.

Lemma Qeq_bool_inject_Z_0 (z : Z) : Qeq_bool (inject_Z z) 0 = (z =? 0)%Z.
Proof. unfold Qeq_bool. simpl. rewrite Z.mul_1_r. destruct z; reflexivity. Qed.

Lemma fdiv_by_zero (z : Z) :
  fdiv (inject_Z z) (inject_Z 0) =
  if (z =? 0)%Z then NaN else if (0 <? z)%Z then PInf else NInf.
Proof.
  unfold fdiv. rewrite Qeq_bool_inject_Z_0. simpl.
  rewrite Qeq_bool_inject_Z_0. destruct (z =? 0)%Z; [reflexivity|].
  destruct (Qlt_le_dec 0 (inject_Z z)) as [H|H].
  - change 0 with (inject_Z 0) in H. rewrite <- Zlt_Qlt in H.
    apply Z.ltb_lt in H. rewrite H. reflexivity.
  - change 0 with (inject_Z 0) in H. rewrite <- Zle_Qle in H.
    destruct (Z.ltb_spec 0 z); [lia|reflexivity].
Qed.

(** ** Facts about [join_qual_prod] *)
Module QualProdFacts.
Import QualProd.

Lemma reconcile_total_ciclos_pos (tc s v rw : Z) :
  (0 < tc)%Z ->
  o_total_produzido (reconcile (int_row tc s v rw)) =
  if Qlt_le_dec (inject_Z (tc - s) / inject_Z tc) (5 # 100) then (s - rw)%Z else (tc - v - rw)%Z.
Proof.
  intro Htc. unfold reconcile, sensor_mask, int_row; cbn [o_total_produzido total_ciclos
    total_produzido_sensor bdj_vazias bdj_retrabalho].
  rewrite fdiv_nonzero.
  2:{ intro H. unfold Qeq in H. simpl in H. lia. }
  rewrite flt_ltb_Fin, !inject_Z_sub.
  destruct (Qlt_le_dec _ _); rewrite ?inject_Z_sub; apply trunc_inject_Z.
Qed.

(** C1: with [total_ciclos > 0] the 5% rule decides between the sensor
    count minus rework trays and the cycle count minus empty and rework
    trays; on the two documented rows it yields 95. *)
Theorem join_qual_prod_reconciliation (tc s v rw : Z) (Htc : (0 < tc)%Z) :
  o_total_produzido (reconcile (int_row tc s v rw)) =
    (if Qlt_le_dec (inject_Z (tc - s) / inject_Z tc) (5 # 100)
     then s - rw else tc - v - rw)%Z
  /\ (forall v', o_total_produzido (reconcile (int_row 100 98 v' 3)) = 95%Z)
  /\ o_total_produzido (reconcile (int_row 100 80 2 3)) = 95%Z.
Proof.
  split; [apply reconcile_total_ciclos_pos; exact Htc|].
  split.
  - intro v'. rewrite reconcile_total_ciclos_pos by lia.
    destruct (Qlt_le_dec _ _) as [H|H]; [reflexivity|].
    exfalso. apply (Qle_not_lt _ _ H). reflexivity.
  - rewrite reconcile_total_ciclos_pos by lia.
    destruct (Qlt_le_dec _ _) as [H|H]; [|reflexivity].
    exfalso. apply (Qlt_not_le _ _ H). discriminate.
Qed.

Lemma join_qual_prod_reconciliation_witness :
  (0 < 100)%Z /\
  o_total_produzido (reconcile (int_row 100 98 0 3)) = 95%Z.
Proof.
  split; [lia|].
  destruct (join_qual_prod_reconciliation 100 98 0 3 ltac:(lia)) as [H _].
  rewrite H. reflexivity.
Defined.

(** C7 (counterexample): with [total_ciclos = 0] and a positive sensor
    count, the quotient is [-inf], the [< 0.05] test holds and the sensor
    formula is used, not the cycle formula. *)
Lemma join_qual_prod_zero_cycles_counterexample :
  sensor_mask (int_row 0 5 2 3) = true /\
  o_total_produzido (reconcile (int_row 0 5 2 3)) <> (0 - 2 - 3)%Z.
Proof. split; [reflexivity|]. vm_compute. discriminate. Qed.

Lemma reconcile_zero_cycles (s v rw : Z) :
  fdiv (total_ciclos (int_row 0 s v rw) - total_produzido_sensor (int_row 0 s v rw))
       (total_ciclos (int_row 0 s v rw)) =
    (if (0 <? s)%Z then NInf else if (s =? 0)%Z then NaN else PInf)
  /\ sensor_mask (int_row 0 s v rw) = (0 <? s)%Z
  /\ o_total_produzido (reconcile (int_row 0 s v rw)) =
       (if (0 <? s)%Z then s - rw else 0 - v - rw)%Z.
Proof.
  assert (Hq : fdiv (total_ciclos (int_row 0 s v rw) - total_produzido_sensor (int_row 0 s v rw))
                    (total_ciclos (int_row 0 s v rw)) =
               (if (0 <? s)%Z then NInf else if (s =? 0)%Z then NaN else PInf)).
  { unfold int_row; cbn [total_ciclos total_produzido_sensor].
    rewrite inject_Z_sub, fdiv_by_zero.
    destruct (Z.ltb_spec 0 s), (Z.eqb_spec s 0), (Z.eqb_spec (0 - s) 0), (Z.ltb_spec 0 (0 - s));
      first [reflexivity | lia]. }
  assert (Hm : sensor_mask (int_row 0 s v rw) = (0 <? s)%Z).
  { unfold sensor_mask. rewrite Hq.
    destruct (0 <? s)%Z; [reflexivity|]. destruct (s =? 0)%Z; reflexivity. }
  split; [exact Hq|]. split; [exact Hm|].
  unfold reconcile. cbn [o_total_produzido]. rewrite Hm.
  unfold int_row; cbn [total_ciclos total_produzido_sensor bdj_vazias bdj_retrabalho].
  destruct (0 <? s)%Z; cbv beta iota; rewrite !inject_Z_sub; apply trunc_inject_Z.
Qed.

(** C7 (as amended): the division by [total_ciclos] is not guarded; with
    [total_ciclos = 0] it follows float64 semantics and never fails: the
    quotient is [-inf] for a positive sensor count (the sensor formula is
    used), [NaN] for a zero sensor count and [+inf] for a negative one (the
    cycle formula is used). *)
Theorem join_qual_prod_zero_cycles (s v rw : Z) :
  fdiv (total_ciclos (int_row 0 s v rw) - total_produzido_sensor (int_row 0 s v rw))
       (total_ciclos (int_row 0 s v rw)) =
    (if (0 <? s)%Z then NInf else if (s =? 0)%Z then NaN else PInf)
  /\ sensor_mask (int_row 0 s v rw) = (0 <? s)%Z
  /\ o_total_produzido (reconcile (int_row 0 s v rw)) =
       (if (0 <? s)%Z then s - rw else 0 - v - rw)%Z.
Proof. apply reconcile_zero_cycles. Qed.

(** C10: no clamp to non-negative values: a row with no cycles, no sensor
    count and some empty or rework trays gets a negative [total_produzido]. *)
Theorem join_qual_prod_negative_production (v rw : Z) (H : (0 < v + rw)%Z) :
  o_total_produzido (reconcile (int_row 0 0 v rw)) = (- (v + rw))%Z
  /\ (o_total_produzido (reconcile (int_row 0 0 v rw)) < 0)%Z.
Proof.
  destruct (reconcile_zero_cycles 0 v rw) as [_ [_ Hp]].
  rewrite Hp. simpl. split; lia.
Qed.

Lemma join_qual_prod_negative_production_witness :
  (0 < 2 + 3)%Z /\ o_total_produzido (reconcile (int_row 0 0 2 3)) = (-5)%Z.
Proof.
  split; [lia|].
  destruct (join_qual_prod_negative_production 2 3 ltac:(lia)) as [Hp _].
  exact Hp.
Defined.

End QualProdFacts.

(** ** Facts about [InfoIHMJoin.join_data] *)
Module TimelineFacts.
Import Timeline.
Local Open Scope list_scope.

(** *** Durations *)

Lemma clip_tempo_range (raw : Z) :
  (0 <= clip_tempo raw <= 480)%Z /\ clip_tempo raw <> 478%Z.
Proof.
  unfold clip_tempo.
  destruct (Z.eqb_spec (Z.max 0 (Z.min raw 480)) 478) as [E|E]; lia.
Qed.

Lemma with_final_in (now : Z) (xs : list arow) (t : trow) :
  In t (with_final now xs) ->
  In (t_row t) xs /\ tempo t = clip_tempo (raw_tempo (a_data_hora (t_row t)) (data_hora_final t)).
Proof.
  induction xs as [|a xs IH]; simpl; [tauto|].
  intros [H|H].
  - subst t. simpl. auto.
  - destruct (IH H) as [H1 H2]. auto.
Qed.

Lemma join_data_in (now : Z) (rows : list mrow) (u : urow) :
  In u (join_data now rows) ->
  exists t, u = post_row t /\
    In t (calculate_time_difference now
            (motivo_change_step (fill_occ (status_change_step rows)))).
Proof.
  unfold join_data. intro H. apply filter_In in H as [H _].
  apply in_map_iff in H as [t [Ht Hin]]. eauto.
Qed.

(** C2: every interval returned by [join_data] lasts between 0 and 480
    minutes and never 478; a raw duration of 478 minutes becomes 480. *)
Theorem join_data_tempo_bounds (now : Z) (rows : list mrow) (u : urow) :
  In u (join_data now rows) ->
  (0 <= u_tempo u <= 480)%Z /\ u_tempo u <> 478%Z /\ clip_tempo 478 = 480%Z.
Proof.
  intro H. apply join_data_in in H as [t [-> Ht]].
  unfold calculate_time_difference in Ht.
  apply with_final_in in Ht as [_ Ht].
  simpl. rewrite Ht. destruct (clip_tempo_range (raw_tempo (a_data_hora (t_row t)) (data_hora_final t))).
  auto.
Qed.

Lemma join_data_tempo_bounds_witness :
  In (hd urow_default (join_data sample_now sample_rows)) (join_data sample_now sample_rows)
  /\ u_tempo (hd urow_default (join_data sample_now sample_rows)) = 480%Z.
Proof.
  split.
  - vm_compute. left. reflexivity.
  - destruct (join_data_tempo_bounds sample_now sample_rows
                (hd urow_default (join_data sample_now sample_rows))) as [_ [_ _]].
    + vm_compute. left. reflexivity.
    + vm_compute. reflexivity.
Defined.

(** *** Running intervals carry no annotation *)

Lemma status_change_chain (rows : list mrow) (prev : option mrow) :
  chainK (option_map status prev) (map keyp (status_change_aux prev rows)).
Proof.
  revert prev. induction rows as [|r rows IH]; intro prev; simpl; [exact I|].
  split; [|apply (IH (Some r))].
  intro Hc. apply orb_false_iff in Hc as [Hc _]. apply orb_false_iff in Hc as [Hc _].
  destruct prev as [p|]; simpl in *.
  - destruct (status r) as [x|], (status p) as [y|]; simpl in Hc; try discriminate.
    apply negb_false_iff, String.eqb_eq in Hc. subst. reflexivity.
  - destruct (status r); discriminate.
Qed.

Lemma concat_split_aux (xs cur : list prow) :
  List.concat (split_aux cur xs) = rev cur ++ xs.
Proof.
  revert cur. induction xs as [|a xs IH]; intro cur; simpl.
  - destruct cur; simpl; [reflexivity|]. rewrite !app_nil_r. reflexivity.
  - destruct (change (fst a)).
    + rewrite List.concat_app, IH. destruct cur; simpl; [reflexivity|].
      rewrite app_nil_r. reflexivity.
    + rewrite IH. simpl. rewrite <- app_assoc. reflexivity.
Qed.

Lemma in_split_groups (xs : list prow) (g : list prow) (x : prow) :
  In g (split_groups xs) -> In x g -> In x xs.
Proof.
  intros Hg Hx. unfold split_groups in Hg.
  rewrite <- (app_nil_l xs). change (@nil prow) with (rev (@nil prow)).
  rewrite <- concat_split_aux. apply in_concat. eauto.
Qed.

Lemma map_keyp_ffill (g : list prow) (o : occ) : map keyp (ffill o g) = map keyp g.
Proof.
  revert o. induction g as [|[f r] g IH]; intro o; simpl; [reflexivity|].
  rewrite IH. reflexivity.
Qed.

Lemma map_keyp_bfill (g : list prow) : map keyp (bfill g) = map keyp g.
Proof.
  unfold bfill. rewrite map_rev, map_keyp_ffill, map_rev, rev_involutive. reflexivity.
Qed.

Lemma map_keyp_fill_occ (xs : list prow) :
  map keyp (fill_occ xs) = map (fun k => (fst k, repl (snd k))) (map keyp xs).
Proof.
  unfold fill_occ. rewrite map_map.
  transitivity (map (fun k => (fst k, repl (snd k)))
                  (map keyp (List.concat (map (fun g => bfill (ffill occ_none g))
                                                (split_groups xs))))).
  { rewrite map_map. apply map_ext. intros [f r]. reflexivity. }
  f_equal. rewrite concat_map, map_map.
  rewrite (map_ext _ (map keyp)) by (intro g; rewrite map_keyp_bfill; apply map_keyp_ffill).
  rewrite <- concat_map. unfold split_groups. rewrite concat_split_aux. reflexivity.
Qed.

Lemma chainK_repl (ks : list (bool * option string)) (prev : option (option string)) :
  chainK prev ks -> chainK (option_map repl prev) (map (fun k => (fst k, repl (snd k))) ks).
Proof.
  revert prev. induction ks as [|[c st] ks IH]; intros prev; simpl; [auto|].
  intros [H1 H2]. split.
  - intro Hc. rewrite (H1 Hc). reflexivity.
  - apply (IH (Some st)). exact H2.
Qed.

Lemma chainK_weaken (ks ks' : list (bool * option string)) (prev : option (option string)) :
  Forall2 (fun k k' => snd k' = snd k /\ (fst k' = false -> fst k = false)) ks ks' ->
  chainK prev ks -> chainK prev ks'.
Proof.
  intro HF. revert prev. induction HF as [|[c st] [c' st'] ks ks' [E Hf] HF IH];
    intro prev; simpl; [auto|].
  simpl in E, Hf. subst st'. intros [H1 H2]. split; auto.
Qed.

Lemma motivo_change_weaker (xs : list prow) (prev : option prow) :
  Forall2 (fun k k' => snd k' = snd k /\ (fst k' = false -> fst k = false))
    (map keyp xs) (map keyp (motivo_change_aux prev xs)).
Proof.
  revert prev. induction xs as [|[f r] xs IH]; intro prev; simpl; constructor; auto.
  simpl. split; [reflexivity|]. intro H. apply orb_false_iff in H. tauto.
Qed.

Lemma motivo_change_snd (xs : list prow) (prev : option prow) :
  map snd (motivo_change_aux prev xs) = map snd xs.
Proof.
  revert prev. induction xs as [|[f r] xs IH]; intro prev; simpl; [reflexivity|].
  rewrite IH. reflexivity.
Qed.

Lemma split_aux_homog (xs cur : list prow) :
  (forall x y, In x cur -> In y cur -> status (snd x) = status (snd y)) ->
  chainK (option_map (fun x => status (snd x)) (hd_error cur)) (map keyp xs) ->
  forall g, In g (split_aux cur xs) ->
  forall x y, In x g -> In y g -> status (snd x) = status (snd y).
Proof.
  revert cur. induction xs as [|a xs IH]; intros cur Hc Hch g Hg.
  - simpl in Hg. destruct cur as [|h cur]; [contradiction|].
    destruct Hg as [<-|[]]. intros x y Hx Hy.
    apply in_rev in Hx, Hy. auto.
  - simpl in Hch. destruct Hch as [H1 H2]. simpl in Hg.
    destruct (change (fst a)) eqn:Ec.
    + apply in_app_or in Hg as [Hg|Hg].
      * destruct cur as [|h cur]; [contradiction|].
        destruct Hg as [<-|[]]. intros x y Hx Hy.
        apply in_rev in Hx, Hy. auto.
      * apply (IH [a]); auto.
        intros x y [<-|[]] [<-|[]]. reflexivity.
    + specialize (H1 eq_refl). destruct cur as [|h cur]; simpl in H1; [discriminate|].
      injection H1 as H1.
      assert (Hz : forall z, In z (a :: h :: cur) -> status (snd z) = status (snd h)).
      { intros z [<-|Hz]; [symmetry; exact H1|]. apply Hc; auto. left. reflexivity. }
      apply (IH (a :: h :: cur)); auto.
      intros x y Hx Hy. rewrite (Hz x Hx), (Hz y Hy). reflexivity.
Qed.

Lemma fill_occ_running (xs : list prow) (x : prow) :
  In x (fill_occ xs) -> status (snd x) = Some "rodando" -> no_annotation (occ_of (snd x)).
Proof.
  unfold fill_occ. intros H Hs. apply in_map_iff in H as [[f r] [<- _]].
  revert Hs. unfold fill_post. cbn. unfold is_rodando. cbn. intro Hs. rewrite Hs.
  cbn. unfold no_annotation. cbn. repeat split.
Qed.

Lemma first_nonnull_some {A} (l : list (option A)) (v : A) :
  first_nonnull l = Some v -> In (Some v) l.
Proof.
  induction l as [|x l IH]; simpl; [discriminate|].
  destruct x as [w|]; simpl; intro H; [left; exact H | right; auto].
Qed.

Lemma first_nonnull_none {A} (l : list (option A)) :
  (forall x, In x l -> x = None) -> first_nonnull l = None.
Proof.
  induction l as [|x l IH]; simpl; intro H; [reflexivity|].
  rewrite (H x (or_introl eq_refl)). simpl. apply IH. auto.
Qed.

Lemma agg_in (G : list (list prow)) (a : arow) :
  In a (List.concat (map agg_group G)) ->
  exists g, In g G /\ a_status a = first_nonnull (map status (map snd g))
            /\ a_occ a = first_occ (map snd g).
Proof.
  intro H. apply in_concat in H as [l [Hl Ha]].
  apply in_map_iff in Hl as [g [<- Hg]].
  destruct g as [|[f r] g']; simpl in Ha; [contradiction|].
  destruct Ha as [<-|[]]. exists ((f, r) :: g'). auto.
Qed.

(** C3: every running interval returned by [join_data], after the
    "Saída para Backup" correction, has no reason, equipment, problem,
    cause, work order, operator or backup machine. *)
Theorem join_data_running_no_annotation (now : Z) (rows : list mrow) (u : urow) :
  In u (join_data now rows) -> u_status u = Some "rodando" ->
  u_motivo u = None /\ u_equipamento u = None /\ u_problema u = None /\
  u_causa u = None /\ u_os_numero u = None /\ u_operador_id u = None /\
  u_s_backup u = None.
Proof.
  intros H Hs. apply join_data_in in H as [t [-> Ht]].
  unfold calculate_time_difference in Ht. apply with_final_in in Ht as [Ha _].
  set (L := motivo_change_step (fill_occ (status_change_step rows))) in *.
  apply agg_in in Ha as [g [Hg [Hst Hocc]]].
  assert (Hchain : chainK None (map keyp L)).
  { unfold L, motivo_change_step. eapply chainK_weaken; [apply motivo_change_weaker|].
    change (@None (option string)) with (option_map repl (option_map status (@None mrow))).
    rewrite map_keyp_fill_occ. apply chainK_repl. apply status_change_chain. }
  assert (Hhom := split_aux_homog L [] (fun x y Hx => match Hx with end) Hchain g Hg).
  cbn in Hs. rewrite Hst in Hs.
  apply first_nonnull_some, in_map_iff in Hs as [r [Hr Hin]].
  apply in_map_iff in Hin as [x0 [Hx0 Hx0g]]. subst r.
  assert (Hann : forall y, In y g -> no_annotation (occ_of (snd y))).
  { intros y Hy. assert (HyL : In y L) by (eapply in_split_groups; eauto).
    assert (Hsnd : In (snd y) (map snd (fill_occ (status_change_step rows)))).
    { unfold L, motivo_change_step in HyL. rewrite <- (motivo_change_snd _ None).
      apply in_map. exact HyL. }
    apply in_map_iff in Hsnd as [z [Hz HzF]].
    rewrite <- Hz. apply (fill_occ_running _ _ HzF). rewrite Hz.
    rewrite (Hhom y x0 Hy Hx0g). exact Hr. }
  assert (Hnone : forall (B : Type) (get : occ -> option B),
            (forall o, no_annotation o -> get o = None) ->
            first_nonnull (map (fun r => get (occ_of r)) (map snd g)) = None).
  { intros B get Hget. apply first_nonnull_none. intros w Hw.
    rewrite map_map in Hw. apply in_map_iff in Hw as [y [<- Hy]]. apply Hget, Hann, Hy. }
  unfold no_annotation in Hnone.
  assert (Hm : motivo (a_occ (t_row t)) = None)
    by (rewrite Hocc; apply (Hnone _ motivo); tauto).
  unfold post_row. cbn [u_motivo u_equipamento u_problema u_causa u_os_numero
                        u_operador_id u_s_backup].
  rewrite Hm. cbn. rewrite Hocc. cbn.
  repeat split; apply Hnone; tauto.
Qed.

Lemma join_data_running_no_annotation_witness :
  In (nth 1 (join_data sample_now sample_rows) urow_default) (join_data sample_now sample_rows)
  /\ u_status (nth 1 (join_data sample_now sample_rows) urow_default) = Some "rodando"
  /\ u_operador_id (nth 1 (join_data sample_now sample_rows) urow_default) = None.
Proof.
  assert (Hin : In (nth 1 (join_data sample_now sample_rows) urow_default)
                   (join_data sample_now sample_rows))
    by (vm_compute; right; left; reflexivity).
  assert (Hst : u_status (nth 1 (join_data sample_now sample_rows) urow_default) = Some "rodando")
    by (vm_compute; reflexivity).
  split; [exact Hin|]. split; [exact Hst|].
  apply (join_data_running_no_annotation sample_now sample_rows _ Hin Hst).
Defined.

(** *** Dependence on the clock *)

Lemma post_row_times (a : arow) (f1 t1 f2 t2 : Z) :
  fabrica_ok (post_row {| t_row := a; data_hora_final := f1; tempo := t1 |})
  = fabrica_ok (post_row {| t_row := a; data_hora_final := f2; tempo := t2 |})
  /\ erase_times (post_row {| t_row := a; data_hora_final := f1; tempo := t1 |})
     = erase_times (post_row {| t_row := a; data_hora_final := f2; tempo := t2 |}).
Proof. split; reflexivity. Qed.

Lemma with_final_erase (now : Z) (xs : list arow) :
  map erase_times (filter fabrica_ok (map post_row (with_final now xs))) =
  map erase_times (filter fabrica_ok
    (map (fun a => post_row {| t_row := a; data_hora_final := 0; tempo := 0 |}) xs)).
Proof.
  induction xs as [|a xs IH]; [reflexivity|].
  cbn [with_final map filter].
  destruct (post_row_times a
              (match xs with
               | [] => now
               | b :: _ => if a_maquina_id_change b then now else a_data_hora b
               end)
              (clip_tempo (raw_tempo (a_data_hora a)
                 (match xs with
                  | [] => now
                  | b :: _ => if a_maquina_id_change b then now else a_data_hora b
                  end))) 0 0) as [Hf He].
  rewrite Hf. destruct (fabrica_ok _); cbn [map]; rewrite ?He, IH; reflexivity.
Qed.

Lemma with_final_clock (now1 now2 : Z) (xs : list arow) :
  Forall2 (fun u1 u2 => u_data_hora_final u1 = u_data_hora_final u2 \/
                        (u_data_hora_final u1 = now1 /\ u_data_hora_final u2 = now2))
    (filter fabrica_ok (map post_row (with_final now1 xs)))
    (filter fabrica_ok (map post_row (with_final now2 xs))).
Proof.
  induction xs as [|a xs IH]; [constructor|].
  cbn [with_final map filter].
  match goal with
  | |- Forall2 _ (if fabrica_ok ?x then _ else _) (if fabrica_ok ?y then _ else _) =>
      replace (fabrica_ok y) with (fabrica_ok x) by reflexivity; destruct (fabrica_ok x)
  end; [|exact IH].
  constructor; [|exact IH].
  unfold post_row. cbn [u_data_hora_final data_hora_final].
  destruct xs as [|b xs']; [right; split; reflexivity|].
  destruct (a_maquina_id_change b); [right; split; reflexivity|left; reflexivity].
Qed.

Lemma with_final_tempo (now : Z) (xs : list arow) :
  Forall (fun u => u_tempo u = clip_tempo (raw_tempo (u_data_hora u) (u_data_hora_final u)))
    (filter fabrica_ok (map post_row (with_final now xs))).
Proof.
  apply Forall_forall. intros u Hu. apply filter_In in Hu as [Hu _].
  revert Hu. induction xs as [|a xs IH]; [intros []|].
  cbn [with_final map]. intros [<-|Hu]; [reflexivity|exact (IH Hu)].
Qed.

(** C8 (counterexample): an interval with no following interval ends at the
    clock reading, so two runs of [join_data] on the same frame one minute
    apart differ. *)
Lemma join_data_clock_counterexample :
  join_data sample_now sample_rows <> join_data (sample_now + 60) sample_rows.
Proof.
  intro H. apply (f_equal (map u_data_hora_final)) in H.
  vm_compute in H. discriminate.
Qed.

(** C8 (as amended): two runs of [join_data] on the same frame, with clock
    readings [now1] and [now2], return the same rows in the same order,
    equal in every column but [data_hora_final] and [tempo]; in each row
    [data_hora_final] is either the same in both runs or the clock reading
    of each run, and [tempo] is computed from [data_hora] and
    [data_hora_final]. *)
Theorem join_data_deterministic_but_clock (now1 now2 : Z) (rows : list mrow) :
  map erase_times (join_data now1 rows) = map erase_times (join_data now2 rows) /\
  Forall2 (fun u1 u2 => u_data_hora_final u1 = u_data_hora_final u2 \/
                        (u_data_hora_final u1 = now1 /\ u_data_hora_final u2 = now2))
    (join_data now1 rows) (join_data now2 rows) /\
  Forall (fun u => u_tempo u = clip_tempo (raw_tempo (u_data_hora u) (u_data_hora_final u)))
    (join_data now1 rows).
Proof.
  unfold join_data, calculate_time_difference. split; [|split].
  - rewrite !with_final_erase. reflexivity.
  - apply with_final_clock.
  - apply with_final_tempo.
Qed.

End TimelineFacts.

(** ** Facts about [ProductionIndicators] *)
Module IndicatorsFacts.
Import Indicators.
Local Open Scope list_scope.

Lemma clipQ_bounds (lo hi x : Q) : lo <= hi -> lo <= clipQ lo hi x <= hi.
Proof.
  intro H. unfold clipQ.
  destruct (Qlt_le_dec x lo) as [H1|H1]; [split; [apply Qle_refl|exact H]|].
  destruct (Qlt_le_dec hi x) as [H2|H2]; [split; [exact H|apply Qle_refl]|].
  split; assumption.
Qed.

Lemma eff_adjust_bounds (m : merged) : 0 <= value (eff_adjust m) <= 3 # 2.
Proof.
  unfold eff_adjust. cbv zeta.
  repeat match goal with
         | |- context [match ?x with pair _ _ => _ end] =>
             destruct x as [[? ?] ?] eqn:?
         end.
  cbn [value].
  match goal with
  | |- context [if ?c then 1 # 100 else _] => destruct c
  end.
  - split; discriminate.
  - apply clipQ_bounds. discriminate.
Qed.

Lemma adjust_in (paradas : list pkey) (ms : list merged) (o : ind_out) :
  In o (adjust paradas ms) ->
  exists m, In m ms /\ o_data_registro o = p_data_registro (m_prod m)
    /\ o_turno o = p_turno (m_prod m) /\ o_linha o = p_linha (m_prod m)
    /\ exists v, value o = clipQ 0 1 v
    /\ (List.length (filter (fun k : pkey => pkey_eqb k (m_prod m)) paradas) <> 0%nat ->
        value o = clipQ 0 1 0 /\ o_tempo_esperado o = trunc 0).
Proof.
  unfold adjust. intro H. apply in_flat_map in H as [m [Hm Ho]].
  cbv beta zeta in Ho. exists m. split; [exact Hm|].
  match type of Ho with
  | context [if (?n =? 0)%nat then _ else _] => destruct (n =? 0)%nat eqn:E
  end.
  - simpl in Ho. destruct Ho as [<-|[]]. cbn.
    repeat split; try reflexivity. eexists. split; [reflexivity|].
    intro C. apply Nat.eqb_eq in E. contradiction.
  - apply in_map_iff in Ho as [x [<- Hx]]. apply repeat_spec in Hx. subst x. cbn.
    repeat split; try reflexivity. exists 0. split; [reflexivity|]. intros _. split; reflexivity.
Qed.

(** C4: efficiency values lie in [0, 1.5] (the 0.01 floor included),
    performance and repair values in [0, 1]. *)
Theorem create_indicators_value_bounds (today now_sec : Z) (info : list info_row)
    (prod : list prod_row) (ind : IndicatorType) (o : ind_out) :
  In o (create_indicators today now_sec info prod ind) ->
  (ind = EFFICIENCY -> 0 <= value o <= 3 # 2) /\
  (ind <> EFFICIENCY -> 0 <= value o <= 1).
Proof.
  intro H. destruct ind; unfold create_indicators in H.
  - apply in_map_iff in H as [m [<- _]].
    split; [intros _; apply eff_adjust_bounds | intro C; contradiction].
  - apply adjust_in in H as [m [_ [_ [_ [_ [v [Hv _]]]]]]].
    split; [discriminate|]. intros _. rewrite Hv. apply clipQ_bounds. discriminate.
  - apply adjust_in in H as [m [_ [_ [_ [_ [v [Hv _]]]]]]].
    split; [discriminate|]. intros _. rewrite Hv. apply clipQ_bounds. discriminate.
Qed.

Lemma create_indicators_value_bounds_witness :
  In (hd ind_out_default (create_indicators 11 36000 sample_info sample_prod EFFICIENCY))
     (create_indicators 11 36000 sample_info sample_prod EFFICIENCY)
  /\ 0 <= value (hd ind_out_default (create_indicators 11 36000 sample_info sample_prod EFFICIENCY))
       <= 3 # 2.
Proof.
  assert (H : In (hd ind_out_default (create_indicators 11 36000 sample_info sample_prod EFFICIENCY))
                 (create_indicators 11 36000 sample_info sample_prod EFFICIENCY))
    by (vm_compute; left; reflexivity).
  split; [exact H|].
  destruct (create_indicators_value_bounds 11 36000 sample_info sample_prod EFFICIENCY _ H)
    as [He _].
  apply He. reflexivity.
Defined.

Lemma filter_length_nonzero {A} (f : A -> bool) (l : list A) (x : A) :
  In x l -> f x = true -> List.length (filter f l) <> 0%nat.
Proof.
  intros Hx Hf. assert (H : In x (filter f l)) by (apply filter_In; auto).
  destruct (filter f l); [contradiction|]. discriminate.
Qed.

(** C5: for performance and repair, a stopped interval with cause
    "Sem Produção" or "Backup" lasting at least 478 minutes marks its
    (date, shift, line), and every output row of a marked (date, shift,
    line) has value 0 and expected time 0; the efficiency indicator has no
    such rule: on the sample data, machine M2 of the marked line 3 keeps a
    non-zero efficiency and expected time. *)
Theorem create_indicators_planned_stop (today now_sec : Z) (info : list info_row)
    (prod : list prod_row) (ind : IndicatorType) (s : info_row) (o : ind_out)
    (Hind : ind <> EFFICIENCY) (Hs : In s info) (Hst : i_status s = Some "parada")
    (Hc : i_causa s = Some "Sem Produção" \/ i_causa s = Some "Backup")
    (Ht : (478 <= i_tempo s)%Z)
    (Ho : In o (create_indicators today now_sec info prod ind))
    (Hk : o_data_registro o = i_data_registro s /\ o_turno o = i_turno s
          /\ o_linha o = i_linha s) :
  (value o = 0 /\ o_tempo_esperado o = 0%Z) /\
  (In (nth 1 (create_indicators 11 36000 sample_info sample_prod EFFICIENCY) ind_out_default)
      (create_indicators 11 36000 sample_info sample_prod EFFICIENCY)
   /\ planned (hd (sample_stop "" None None 0 0) sample_info) = true
   /\ o_data_registro (nth 1 (create_indicators 11 36000 sample_info sample_prod EFFICIENCY)
                         ind_out_default) = i_data_registro (hd (sample_stop "" None None 0 0) sample_info)
   /\ o_turno (nth 1 (create_indicators 11 36000 sample_info sample_prod EFFICIENCY)
                ind_out_default) = i_turno (hd (sample_stop "" None None 0 0) sample_info)
   /\ o_linha (nth 1 (create_indicators 11 36000 sample_info sample_prod EFFICIENCY)
                ind_out_default) = i_linha (hd (sample_stop "" None None 0 0) sample_info)
   /\ value (nth 1 (create_indicators 11 36000 sample_info sample_prod EFFICIENCY)
               ind_out_default) = 833 # 1000
   /\ o_tempo_esperado (nth 1 (create_indicators 11 36000 sample_info sample_prod EFFICIENCY)
                          ind_out_default) = 470%Z).
Proof.
  split; [|vm_compute; repeat split; auto].
  destruct Hk as [Hd [Htu Hl]].
  assert (Hpl : planned s = true).
  { unfold planned. apply andb_true_intro. split.
    - destruct Hc as [-> | ->]; reflexivity.
    - apply Z.leb_le. exact Ht. }
  assert (Hmk : forall m : merged, o_data_registro o = p_data_registro (m_prod m) ->
                  o_turno o = p_turno (m_prod m) -> o_linha o = p_linha (m_prod m) ->
                  In (i_data_registro s, i_turno s, i_linha s)
                     (map (fun r => (i_data_registro r, i_turno r, i_linha r))
                          (filter planned (filter is_parada info)))
                  /\ pkey_eqb (i_data_registro s, i_turno s, i_linha s) (m_prod m) = true).
  { intros m E1 E2 E3. split.
    - apply (in_map (fun r => (i_data_registro r, i_turno r, i_linha r))).
      apply filter_In. split; [|exact Hpl].
      apply filter_In. split; [exact Hs|]. unfold is_parada. rewrite Hst. reflexivity.
    - unfold pkey_eqb. rewrite <- E1, <- E2, <- E3, Hd, Htu, Hl.
      rewrite Z.eqb_refl, String.eqb_refl, Z.eqb_refl. reflexivity. }
  destruct ind; [contradiction| |]; unfold create_indicators in Ho;
    apply adjust_in in Ho as [m [_ [E1 [E2 [E3 [v [_ Hz]]]]]]];
    destruct (Hmk m E1 E2 E3) as [Hin Heq];
    apply Hz; eapply filter_length_nonzero; eauto.
Qed.

Lemma create_indicators_planned_stop_witness :
  value (hd ind_out_default (create_indicators 11 36000 sample_info sample_prod PERFORMANCE)) = 0
  /\ o_tempo_esperado (hd ind_out_default
                         (create_indicators 11 36000 sample_info sample_prod PERFORMANCE)) = 0%Z.
Proof.
  apply (create_indicators_planned_stop 11 36000 sample_info sample_prod PERFORMANCE
           (hd (sample_stop "" None None 0 0) sample_info)
           (hd ind_out_default (create_indicators 11 36000 sample_info sample_prod PERFORMANCE))).
  - discriminate.
  - left. reflexivity.
  - reflexivity.
  - right. reflexivity.
  - vm_compute. discriminate.
  - vm_compute. left. reflexivity.
  - vm_compute. repeat split.
Defined.

(** C6: the stored discount of every stop never exceeds the stop's
    duration, equals it when [afeta_eff = 1], and the excess is
    [max(duration - discount, 0)]; a 10-minute product change, whose table
    entry is 35 minutes, stores discount 10 and excess 0. *)
Theorem calculate_discount_time_capped (rows : list info_row) (desc : list (string * Z))
    (skip : list string) (ind : IndicatorType) (d : disc_row)
    (Hd : In d (calculate_discount_time rows desc skip ind)) :
  (desconto d <= i_tempo (d_info d))%Z
  /\ (i_afeta_eff (d_info d) = 1%Z -> desconto d = i_tempo (d_info d))
  /\ excedente d = Z.max (i_tempo (d_info d) - desconto d) 0
  /\ desconto (apply_desc DESC_EFF {| d_info := sample_stop "M2" (Some "Troca de Produto") None 10 0;
                                      desconto := 0; excedente := 0 |}) = 35%Z
  /\ map (fun x => (desconto x, excedente x))
       (calculate_discount_time [sample_stop "M2" (Some "Troca de Produto") None 10 0]
          DESC_EFF NOT_EFF EFFICIENCY) = [(10%Z, 0%Z)].
Proof.
  split; [|split; [|split; [|split; reflexivity]]].
  all: unfold calculate_discount_time in Hd; apply in_map_iff in Hd as [x [<- _]].
  all: unfold finish_discount; cbn [desconto excedente d_info].
  - destruct (i_afeta_eff _ =? 1)%Z; lia.
  - intro E. rewrite E. reflexivity.
  - reflexivity.
Qed.

Lemma calculate_discount_time_capped_witness :
  (desconto (hd {| d_info := sample_stop "" None None 0 0; desconto := 0; excedente := 0 |}
      (calculate_discount_time sample_info DESC_EFF NOT_EFF EFFICIENCY))
   <= i_tempo (d_info (hd {| d_info := sample_stop "" None None 0 0; desconto := 0; excedente := 0 |}
      (calculate_discount_time sample_info DESC_EFF NOT_EFF EFFICIENCY))))%Z.
Proof.
  apply (calculate_discount_time_capped sample_info DESC_EFF NOT_EFF EFFICIENCY).
  vm_compute. left. reflexivity.
Defined.

End IndicatorsFacts.


Module CleaningFacts.
Import Cleaning.
Local Open Scope list_scope.

Lemma drop_duplicates_columns (df : frame) :
  columns (drop_duplicates df) = columns df.
Proof. reflexivity. Qed.

Lemma in_filter_absent (c : string) (cols req : list string) :
  In c req -> mem c cols = false ->
  In c (filter (fun c' => negb (mem c' cols)) req).
Proof. intros Hin Hm. apply filter_In. split; [exact Hin|]. rewrite Hm. reflexivity. Qed.

(** C9 (counterexample): on a table without its [hora_registro] column,
    [clean_data] fails with the [KeyError] of [dropna], whose class is not
    [ValidationError]. *)
Lemma clean_data_missing_column_counterexample :
  clean_data sample_no_time = Err (PyExc "KeyError" ["hora_registro"]) /\
  exc_class (PyExc "KeyError" ["hora_registro"]) <> "ValidationError".
Proof. split; [vm_compute; reflexivity | discriminate]. Qed.

Lemma all_ok_Err_in {A : Type} (xs : list (result A)) (e : py_error) :
  all_ok xs = Err e -> In (Err e) xs.
Proof.
  induction xs as [|x xs IH]; simpl; [discriminate|].
  destruct x as [a|e']; simpl.
  - destruct (all_ok xs) as [l|e']; simpl; [discriminate|].
    intro H. injection H as ->. right. apply IH. reflexivity.
  - intro H. injection H as ->. left. reflexivity.
Qed.

Lemma col_to_int_err (df : frame) (c : string) (e : py_error) :
  col_to_int df c = Err e -> exc_class e = "ValueError".
Proof.
  unfold col_to_int.
  destruct (all_ok (map (fun row => cell_to_int (get df c row)) (rows df))) eqn:E;
    simpl; [discriminate|].
  intro H. injection H as <-. apply all_ok_Err_in in E.
  apply in_map_iff in E as [row [Ec _]]. unfold cell_to_int in Ec.
  destruct (get df c row) as [|z|t]; [discriminate|discriminate|].
  destruct (parse_int t); [discriminate|]. injection Ec as <-. reflexivity.
Qed.

Lemma linha_step_err (df : frame) (e : py_error) :
  linha_step df = Err e -> exc_class e = "ValueError".
Proof.
  unfold linha_step. destruct (mem "linha" (columns df)); [|discriminate].
  destruct (col_to_int df "linha") eqn:E; simpl; [discriminate|].
  intro H. injection H as <-. exact (col_to_int_err _ _ _ E).
Qed.

Lemma operador_step_err (df : frame) (e : py_error) :
  operador_step df = Err e ->
  exc_class e = "ValueError" \/ e = PyExc "AttributeError" ["os_numero"].
Proof.
  unfold operador_step. destruct (mem "operador_id" (columns df)); [|discriminate].
  destruct (col_to_int df "operador_id") eqn:E; simpl.
  - destruct (mem "os_numero" _); [discriminate|]. intro H. injection H as <-. right. reflexivity.
  - intro H. injection H as <-. left. exact (col_to_int_err _ _ _ E).
Qed.

(** The errors [clean_data] can raise: the [KeyError] of [dropna] listing
    the absent required columns, a [ValueError] of [astype(int)], or the
    [AttributeError] of [df.os_numero]. *)
Lemma clean_data_err_cases (df : frame) (e : py_error) :
  clean_data df = Err e ->
  (e = PyExc "KeyError" (filter (fun c' => negb (mem c' (columns df)))
                                ["maquina_id"; "data_registro"; "hora_registro"]) /\
   filter (fun c' => negb (mem c' (columns df)))
          ["maquina_id"; "data_registro"; "hora_registro"] <> []) \/
  exc_class e = "ValueError" \/ e = PyExc "AttributeError" ["os_numero"].
Proof.
  unfold clean_data, dropna. rewrite drop_duplicates_columns.
  destruct (filter (fun c' => negb (mem c' (columns df)))
                   ["maquina_id"; "data_registro"; "hora_registro"]) as [|c l] eqn:E.
  - cbn [bind].
    match goal with |- context [linha_step ?d] => destruct (linha_step d) as [d3|e3] eqn:El end;
      cbn [bind].
    + intro H. right. exact (operador_step_err _ _ H).
    + intro H. injection H as <-. right. left. exact (linha_step_err _ _ El).
  - intro H. injection H as <-. left. split; [reflexivity|discriminate].
Qed.

(** C9 (amended): [clean_data] raises no [ValidationError]. Whenever one
    of the required columns [maquina_id], [data_registro], [hora_registro]
    is absent from the input table, it fails with the [KeyError] of
    [dropna], whose argument lists exactly the absent required columns;
    and it raises a [KeyError] only then. *)
Theorem clean_data_missing_column_keyerror (df : frame) :
  (forall c, In c ["maquina_id"; "data_registro"; "hora_registro"] ->
     mem c (columns df) = false ->
     clean_data df =
       Err (PyExc "KeyError"
              (filter (fun c' => negb (mem c' (columns df)))
                      ["maquina_id"; "data_registro"; "hora_registro"]))) /\
  (forall e, clean_data df = Err e -> exc_class e <> "ValidationError") /\
  (forall e, clean_data df = Err e -> exc_class e = "KeyError" ->
     e = PyExc "KeyError" (filter (fun c' => negb (mem c' (columns df)))
                                  ["maquina_id"; "data_registro"; "hora_registro"]) /\
     exists c, In c ["maquina_id"; "data_registro"; "hora_registro"] /\
               mem c (columns df) = false).
Proof.
  split; [|split].
  - intros c Hreq Habs. unfold clean_data, dropna. rewrite drop_duplicates_columns.
    pose proof (in_filter_absent c (columns df) _ Hreq Habs) as Hin.
    destruct (filter (fun c' => negb (mem c' (columns df)))
                     ["maquina_id"; "data_registro"; "hora_registro"]) eqn:E.
    + destruct Hin.
    + reflexivity.
  - intros e H. destruct (clean_data_err_cases df e H) as [[-> _]|[Hc| ->]];
      [discriminate| rewrite Hc; discriminate|discriminate].
  - intros e H Hk. destruct (clean_data_err_cases df e H) as [[He Hne]|[Hc| ->]];
      [|rewrite Hc in Hk; discriminate|discriminate].
    split; [exact He|].
    destruct (filter (fun c' => negb (mem c' (columns df)))
                     ["maquina_id"; "data_registro"; "hora_registro"]) as [|c l] eqn:E;
      [contradiction|].
    assert (Hin : In c (filter (fun c' => negb (mem c' (columns df)))
                               ["maquina_id"; "data_registro"; "hora_registro"]))
      by (rewrite E; left; reflexivity).
    apply filter_In in Hin as [Hin Hm]. exists c. split; [exact Hin|].
    destruct (mem c (columns df)); [discriminate|reflexivity].
Qed.

Lemma clean_data_missing_column_keyerror_witness :
  clean_data sample_no_time = Err (PyExc "KeyError" ["hora_registro"]) /\
  exists c, In c ["maquina_id"; "data_registro"; "hora_registro"] /\
            mem c (columns sample_no_time) = false.
Proof.
  assert (H : clean_data sample_no_time = Err (PyExc "KeyError" ["hora_registro"]))
    by (vm_compute; reflexivity).
  split; [exact H|].
  exact (proj2 (proj2 (proj2 (clean_data_missing_column_keyerror sample_no_time))
                 _ H eq_refl)).
Defined.

End CleaningFacts.


(** * Further properties of the code *)

(** ** [ProductionIndicators]: discounts, expected time, row counts *)
Module IndicatorsExtra.
Import Indicators.
Local Open Scope list_scope.

Lemma apply_desc_info (desc : list (string * Z)) (r : disc_row) :
  d_info (apply_desc desc r) = d_info r.
Proof.
  unfold apply_desc. revert r. induction desc as [|kv desc IH]; intro r; simpl; [reflexivity|].
  rewrite IH. destruct (_ || _ || _); reflexivity.
Qed.

Lemma apply_desc_cons (kv : string * Z) (desc : list (string * Z)) (r : disc_row) :
  apply_desc (kv :: desc) r =
  apply_desc desc (if desc_hit (fst kv) (d_info r) then set_desconto r (snd kv) else r).
Proof. reflexivity. Qed.

Lemma apply_desc_app (d1 d2 : list (string * Z)) (r : disc_row) :
  apply_desc (d1 ++ d2) r = apply_desc d2 (apply_desc d1 r).
Proof. unfold apply_desc. apply fold_left_app. Qed.

Lemma apply_desc_nohit (desc : list (string * Z)) (r : disc_row) :
  Forall (fun kv => desc_hit (fst kv) (d_info r) = false) desc ->
  apply_desc desc r = r.
Proof.
  intro H. revert r H. induction desc as [|kv desc IH]; intros r H; [reflexivity|].
  inversion H as [|? ? H1 H2]; subst. rewrite apply_desc_cons, H1. apply IH, H2.
Qed.

Lemma apply_desc_values (desc : list (string * Z)) (r : disc_row) :
  desconto (apply_desc desc r) = desconto r \/ In (desconto (apply_desc desc r)) (map snd desc).
Proof.
  revert r. induction desc as [|kv desc IH]; intro r; [left; reflexivity|].
  rewrite apply_desc_cons.
  destruct (desc_hit (fst kv) (d_info r)).
  - destruct (IH (set_desconto r (snd kv))) as [E|E].
    + right. rewrite E. left. reflexivity.
    + right. right. exact E.
  - destruct (IH r) as [E|E]; [left; exact E|right; right; exact E].
Qed.

Lemma finish_apply_info (desc : list (string * Z)) (d : disc_row) :
  d_info (finish_discount (apply_desc desc d)) = d_info d.
Proof. unfold finish_discount. cbn [d_info]. apply apply_desc_info. Qed.

Lemma get_elapsed_time_bounds (now_sec : Z) (turno : string) :
  0 <= get_elapsed_time now_sec turno <= 480.
Proof.
  unfold get_elapsed_time.
  assert (Hq : forall a : Z, (0 <= a <= 28800)%Z -> 0 <= inject_Z a / 60 <= 480).
  { intros a Ha. unfold Qdiv, Qle, Qmult, Qinv. simpl. split; lia. }
  destruct (String.eqb turno "MAT" && (8 <=? now_sec / 3600)%Z && (now_sec / 3600 <? 16)%Z) eqn:E1.
  { apply andb_true_iff in E1 as [E1 E3]. apply andb_true_iff in E1 as [_ E2].
    apply Z.leb_le in E2. apply Z.ltb_lt in E3. apply Hq.
    assert (0 < 3600)%Z as Hp by lia. pose proof (Z.div_mod now_sec 3600 ltac:(lia)).
    pose proof (Z.mod_pos_bound now_sec 3600 Hp). lia. }
  destruct (String.eqb turno "VES" && (16 <=? now_sec / 3600)%Z && (now_sec / 3600 <? 24)%Z) eqn:E4.
  { apply andb_true_iff in E4 as [E4 E6]. apply andb_true_iff in E4 as [_ E5].
    apply Z.leb_le in E5. apply Z.ltb_lt in E6. apply Hq.
    assert (0 < 3600)%Z as Hp by lia. pose proof (Z.div_mod now_sec 3600 ltac:(lia)).
    pose proof (Z.mod_pos_bound now_sec 3600 Hp). lia. }
  destruct (String.eqb turno "NOT" && (0 <=? now_sec / 3600)%Z && (now_sec / 3600 <? 8)%Z) eqn:E7.
  { apply andb_true_iff in E7 as [E7 E9]. apply andb_true_iff in E7 as [_ E8].
    apply Z.leb_le in E8. apply Z.ltb_lt in E9. apply Hq.
    assert (0 < 3600)%Z as Hp by lia. pose proof (Z.div_mod now_sec 3600 ltac:(lia)).
    pose proof (Z.mod_pos_bound now_sec 3600 Hp). lia. }
  split; discriminate.
Qed.

Lemma sub_desconto (rows : list info_row) (skip : list string) (ind : IndicatorType)
    (d : disc_row) :
  In d (match ind with
        | EFFICIENCY => map (fun r => {| d_info := r;
              desconto := if skip_mask skip r then (match ind with REPAIR => 0 | _ => i_tempo r end) else 0;
              excedente := 0 |}) rows
        | PERFORMANCE => filter (fun d => negb (skip_mask skip (d_info d)))
            (map (fun r => {| d_info := r;
              desconto := if skip_mask skip r then (match ind with REPAIR => 0 | _ => i_tempo r end) else 0;
              excedente := 0 |}) rows)
        | REPAIR => filter (fun d => skip_mask skip (d_info d))
            (map (fun r => {| d_info := r;
              desconto := if skip_mask skip r then (match ind with REPAIR => 0 | _ => i_tempo r end) else 0;
              excedente := 0 |}) rows)
        end) ->
  desconto d = 0%Z \/ desconto d = i_tempo (d_info d).
Proof.
  intro H.
  assert (H' : In d (map (fun r => {| d_info := r;
              desconto := if skip_mask skip r then (match ind with REPAIR => 0 | _ => i_tempo r end) else 0;
              excedente := 0 |}) rows)).
  { destruct ind; [exact H | apply filter_In in H; tauto | apply filter_In in H; tauto]. }
  apply in_map_iff in H' as [r [<- _]]. cbn.
  destruct (skip_mask skip r), ind; auto.
Qed.

(** For every stop of non-negative duration, [__calculate_discount_time]
    splits the duration into the discount and the excess: both are
    non-negative and they add up to the duration (the discount tables
    holding non-negative minutes). *)
Theorem calculate_discount_time_split (rows : list info_row) (desc : list (string * Z))
    (skip : list string) (ind : IndicatorType) (d : disc_row)
    (Hdesc : Forall (fun kv => (0 <= snd kv)%Z) desc)
    (Hin : In d (calculate_discount_time rows desc skip ind))
    (Ht : (0 <= i_tempo (d_info d))%Z) :
  (0 <= desconto d <= i_tempo (d_info d))%Z /\
  (desconto d + excedente d = i_tempo (d_info d))%Z.
Proof.
  unfold calculate_discount_time in Hin.
  apply in_map_iff in Hin as [d0 [<- Hd0]].
  apply sub_desconto in Hd0.
  rewrite finish_apply_info in Ht |- *.
  assert (Hx : (0 <= desconto (apply_desc desc d0))%Z).
  { destruct (apply_desc_values desc d0) as [E|E].
    - rewrite E. lia.
    - rewrite Forall_forall in Hdesc. apply in_map_iff in E as [kv [<- Hkv]].
      apply Hdesc, Hkv. }
  unfold finish_discount. cbn [desconto excedente d_info].
  rewrite apply_desc_info.
  destruct (i_afeta_eff (d_info d0) =? 1)%Z; lia.
Qed.

Lemma calculate_discount_time_split_witness :
  Forall (fun kv => (0 <= snd kv)%Z) DESC_EFF /\
  In (hd (Build_disc_row (hd (sample_stop "" None None 0 0) sample_info) 0 0)
         (calculate_discount_time sample_info DESC_EFF NOT_EFF EFFICIENCY))
     (calculate_discount_time sample_info DESC_EFF NOT_EFF EFFICIENCY) /\
  (desconto (hd (Build_disc_row (hd (sample_stop "" None None 0 0) sample_info) 0 0)
         (calculate_discount_time sample_info DESC_EFF NOT_EFF EFFICIENCY))
   + excedente (hd (Build_disc_row (hd (sample_stop "" None None 0 0) sample_info) 0 0)
         (calculate_discount_time sample_info DESC_EFF NOT_EFF EFFICIENCY)) = 480)%Z.
Proof.
  assert (Hd : Forall (fun kv => (0 <= snd kv)%Z) DESC_EFF)
    by (repeat constructor; cbn; lia).
  assert (Hin : In (hd (Build_disc_row (hd (sample_stop "" None None 0 0) sample_info) 0 0)
         (calculate_discount_time sample_info DESC_EFF NOT_EFF EFFICIENCY))
     (calculate_discount_time sample_info DESC_EFF NOT_EFF EFFICIENCY))
    by (vm_compute; left; reflexivity).
  split; [exact Hd|]. split; [exact Hin|].
  destruct (calculate_discount_time_split sample_info DESC_EFF NOT_EFF EFFICIENCY _ Hd Hin)
    as [_ E]; [vm_compute; discriminate|].
  rewrite E. vm_compute. reflexivity.
Defined.

(** In the table loop of [__calculate_discount_time] the last matching
    entry of the dictionary wins: when the entry [(k, v)] matches the
    stop and no later entry does, the discount is [v], whatever the
    earlier entries. *)
Theorem apply_desc_last_match (pre post : list (string * Z)) (k : string) (v : Z)
    (r : disc_row)
    (Hk : desc_hit k (d_info r) = true)
    (Hpost : Forall (fun kv => desc_hit (fst kv) (d_info r) = false) post) :
  desconto (apply_desc (pre ++ (k, v) :: post) r) = v.
Proof.
  rewrite apply_desc_app, apply_desc_cons, apply_desc_info. cbn [fst snd]. rewrite Hk.
  rewrite apply_desc_nohit; [reflexivity|].
  cbn. rewrite apply_desc_info. exact Hpost.
Qed.

Lemma apply_desc_last_match_witness :
  desconto (apply_desc DESC_EFF lunch_change) = 65%Z.
Proof.
  change DESC_EFF with ([("Troca de Sabor", 15); ("Troca de Produto", 35)]
                        ++ ("Refeição", 65) :: [("Café e Ginástica Laboral", 10); ("Treinamento", 60)])%Z.
  apply apply_desc_last_match.
  - vm_compute. reflexivity.
  - repeat constructor.
Defined.

Lemma length_flat_map {A B} (f : A -> list B) (l : list A) :
  List.length (flat_map f l) = list_sum (map (fun x => List.length (f x)) l).
Proof.
  induction l as [|x l IH]; simpl; [reflexivity|]. rewrite length_app, IH. reflexivity.
Qed.

Lemma length_filter_map {A B} (f : B -> bool) (g : A -> B) (l : list A) :
  List.length (filter f (map g l)) = List.length (filter (fun x => f (g x)) l).
Proof.
  induction l as [|x l IH]; simpl; [reflexivity|]. destruct (f (g x)); simpl; rewrite IH; reflexivity.
Qed.

(** The number of rows [create_indicators] returns: one per production
    row for efficiency; for performance and repair, as many copies of a
    production row as there are planned stops, of any machine, on its
    date, shift and line (the left merge with [paradas_programadas]), and
    one copy when there is none. *)
Theorem create_indicators_row_count (today now_sec : Z) (info : list info_row)
    (prod : list prod_row) (ind : IndicatorType) :
  List.length (create_indicators today now_sec info prod ind) =
  match ind with
  | EFFICIENCY => List.length prod
  | _ => list_sum (map (fun p =>
           Nat.max 1 (List.length
             (filter (fun r => pkey_eqb (i_data_registro r, i_turno r, i_linha r) p)
                     (filter planned (filter is_parada info))))) prod)
  end.
Proof.
  unfold create_indicators.
  destruct ind; [rewrite !length_map; reflexivity| |];
  unfold adjust; rewrite length_flat_map, map_map; f_equal; apply map_ext; intro p;
  rewrite length_map, length_filter_map; unfold merge_stops; cbn [m_prod];
  match goal with
  | |- context [if (List.length ?l =? 0)%nat then _ else _] =>
      destruct (Nat.eqb_spec (List.length l) 0) as [E|E]
  end;
  solve [rewrite E; reflexivity | rewrite repeat_length; lia].
Qed.

(** [__eff_adjust] on a row whose expected time is at most 10 minutes or
    whose discount is the whole shift (480 minutes): the expected time
    and the expected production are set to 0 and the efficiency is 0,
    except for the 0.01 floor when the discount is under 5 minutes and
    the production under 20 units. *)
Theorem eff_adjust_no_expected_time (m : merged)
    (H : Qle_bool (tempo_esperado m) 10 = true \/ m_desconto m = 480%Z) :
  o_tempo_esperado (eff_adjust m) = 0%Z /\ o_producao_esperada (eff_adjust m) = Some 0%Z /\
  value (eff_adjust m) =
    (if (m_desconto m <? 5)%Z && (p_total_produzido (m_prod m) <? 20)%Z then 1 # 100 else 0).
Proof.
  unfold eff_adjust. cbv zeta.
  destruct H as [H|H].
  - rewrite H. cbn. destruct (m_desconto m =? 480)%Z; cbn;
      rewrite andb_true_r; repeat split.
  - rewrite H. cbn. destruct (Qle_bool (tempo_esperado m) 10); cbn; repeat split.
Qed.

Lemma eff_adjust_no_expected_time_witness :
  (Qle_bool (tempo_esperado (merge_stops 11 0 (calculate_discount_time
      (filter is_parada sample_info) DESC_EFF NOT_EFF EFFICIENCY) (sample_prod_row "M1" 0))) 10 = true
   \/ m_desconto (merge_stops 11 0 (calculate_discount_time
      (filter is_parada sample_info) DESC_EFF NOT_EFF EFFICIENCY) (sample_prod_row "M1" 0)) = 480%Z)
  /\ value (eff_adjust (merge_stops 11 0 (calculate_discount_time
      (filter is_parada sample_info) DESC_EFF NOT_EFF EFFICIENCY) (sample_prod_row "M1" 0))) = 0.
Proof.
  assert (H : Qle_bool (tempo_esperado (merge_stops 11 0 (calculate_discount_time
      (filter is_parada sample_info) DESC_EFF NOT_EFF EFFICIENCY) (sample_prod_row "M1" 0))) 10 = true
   \/ m_desconto (merge_stops 11 0 (calculate_discount_time
      (filter is_parada sample_info) DESC_EFF NOT_EFF EFFICIENCY) (sample_prod_row "M1" 0)) = 480%Z)
    by (right; vm_compute; reflexivity).
  split; [exact H|].
  destruct (eff_adjust_no_expected_time _ H) as [_ [_ E]]. rewrite E. vm_compute. reflexivity.
Defined.

(** [__get_expected_production_time]: the expected production time is at
    least 1 minute and, unless it is that 1-minute floor, at most the
    480-minute shift minus the discount, whatever the clock reads (the
    elapsed part of the current shift never exceeds 480 minutes). *)
Theorem expected_time_bounds (today now_sec : Z) (p : prod_row) (desc : Z) :
  1 <= expected_time today now_sec p desc /\
  (expected_time today now_sec p desc == 1 \/
   expected_time today now_sec p desc <= inject_Z (480 - desc)).
Proof.
  unfold expected_time.
  assert (Hv : (if (p_data_registro p =? today)%Z
                then inject_Z (Qfloor (get_elapsed_time now_sec (p_turno p) - inject_Z desc))
                else 480 - inject_Z desc) <= inject_Z (480 - desc)).
  { rewrite <- inject_Z_sub.
    destruct (p_data_registro p =? today)%Z; [|apply Qle_refl].
    eapply Qle_trans; [apply Qfloor_le|].
    apply Qplus_le_compat; [apply get_elapsed_time_bounds | apply Qle_refl]. }
  destruct (Qlt_le_dec 1 _) as [L|L].
  - split; [apply Qlt_le_weak, L | right; exact Hv].
  - split; [apply Qle_refl | left; reflexivity].
Qed.

End IndicatorsExtra.

(** ** [InfoIHMJoin.join_data]: grouping and row count *)
Module TimelineExtra.
Import Timeline TimelineFacts.
Local Open Scope list_scope.

Section Proj.

(** One of the columns [__status_change] compares with the previous row. *)
Variable pr : mrow -> option string.
Hypothesis Hset : forall r o, pr (set_occ r o) = pr r.
Hypothesis Hrepl : forall r, pr (repl_row r) = repl (pr r).

Lemma map_keyf_ffill (g : list prow) (o : occ) :
  map (fun x => (change (fst x), pr (snd x))) (ffill o g) =
  map (fun x => (change (fst x), pr (snd x))) g.
Proof.
  revert o. induction g as [|[f r] g IH]; intro o; simpl; [reflexivity|].
  rewrite IH, Hset. reflexivity.
Qed.

Lemma map_keyf_bfill (g : list prow) :
  map (fun x => (change (fst x), pr (snd x))) (bfill g) =
  map (fun x => (change (fst x), pr (snd x))) g.
Proof.
  unfold bfill. rewrite map_rev, map_keyf_ffill, map_rev, rev_involutive. reflexivity.
Qed.

Lemma map_keyf_fill_occ (xs : list prow) :
  map (fun x => (change (fst x), pr (snd x))) (fill_occ xs) =
  map (fun k => (fst k, repl (snd k))) (map (fun x => (change (fst x), pr (snd x))) xs).
Proof.
  unfold fill_occ. rewrite map_map.
  transitivity (map (fun k => (fst k, repl (snd k)))
                  (map (fun x => (change (fst x), pr (snd x)))
                     (List.concat (map (fun g => bfill (ffill occ_none g)) (split_groups xs))))).
  { rewrite map_map. apply map_ext. intros [f r]. unfold fill_post. cbn.
    rewrite Hset, Hrepl. reflexivity. }
  f_equal. rewrite concat_map, map_map.
  rewrite (map_ext _ (map (fun x => (change (fst x), pr (snd x)))))
    by (intro g; rewrite map_keyf_bfill; apply map_keyf_ffill).
  rewrite <- concat_map. unfold split_groups. rewrite concat_split_aux. reflexivity.
Qed.

Lemma motivo_change_weaker_f (xs : list prow) (prev : option prow) :
  Forall2 (fun k k' => snd k' = snd k /\ (fst k' = false -> fst k = false))
    (map (fun x => (change (fst x), pr (snd x))) xs)
    (map (fun x => (change (fst x), pr (snd x))) (motivo_change_aux prev xs)).
Proof.
  revert prev. induction xs as [|[f r] xs IH]; intro prev; simpl; constructor; auto.
  simpl. split; [reflexivity|]. intro H. apply orb_false_iff in H. tauto.
Qed.

Lemma split_aux_homog_f (xs cur : list prow) :
  (forall x y, In x cur -> In y cur -> pr (snd x) = pr (snd y)) ->
  chainK (option_map (fun x => pr (snd x)) (hd_error cur))
         (map (fun x => (change (fst x), pr (snd x))) xs) ->
  forall g, In g (split_aux cur xs) ->
  forall x y, In x g -> In y g -> pr (snd x) = pr (snd y).
Proof.
  revert cur. induction xs as [|a xs IH]; intros cur Hc Hch g Hg.
  - simpl in Hg. destruct cur as [|h cur]; [contradiction|].
    destruct Hg as [<-|[]]. intros x y Hx Hy.
    apply in_rev in Hx, Hy. auto.
  - simpl in Hch. destruct Hch as [H1 H2]. simpl in Hg.
    destruct (change (fst a)) eqn:Ec.
    + apply in_app_or in Hg as [Hg|Hg].
      * destruct cur as [|h cur]; [contradiction|].
        destruct Hg as [<-|[]]. intros x y Hx Hy.
        apply in_rev in Hx, Hy. auto.
      * apply (IH [a]); auto.
        intros x y [<-|[]] [<-|[]]. reflexivity.
    + specialize (H1 eq_refl). destruct cur as [|h cur]; simpl in H1; [discriminate|].
      injection H1 as H1.
      assert (Hz : forall z, In z (a :: h :: cur) -> pr (snd z) = pr (snd h)).
      { intros z [<-|Hz]; [symmetry; exact H1|]. apply Hc; auto. left. reflexivity. }
      apply (IH (a :: h :: cur)); auto.
      intros x y Hx Hy. rewrite (Hz x Hx), (Hz y Hy). reflexivity.
Qed.

Lemma groups_homog_f (rows : list mrow) :
  chainK None (map (fun x => (change (fst x), pr (snd x))) (status_change_step rows)) ->
  forall g, In g (split_groups (motivo_change_step (fill_occ (status_change_step rows)))) ->
  forall x y, In x g -> In y g -> pr (snd x) = pr (snd y).
Proof.
  intros H0 g Hg.
  apply (split_aux_homog_f (motivo_change_step (fill_occ (status_change_step rows))) []);
    [intros x y []| |exact Hg].
  simpl. unfold motivo_change_step.
  eapply chainK_weaken; [apply motivo_change_weaker_f|].
  change (@None (option string)) with (option_map repl (@None (option string))).
  rewrite map_keyf_fill_occ. apply chainK_repl. exact H0.
Qed.

End Proj.

Lemma status_change_chain_maquina (rows : list mrow) (prev : option mrow) :
  chainK (option_map maquina_id prev)
    (map (fun x => (change (fst x), maquina_id (snd x))) (status_change_aux prev rows)).
Proof.
  revert prev. induction rows as [|r rows IH]; intro prev; simpl; [exact I|].
  split; [|apply (IH (Some r))].
  intro Hc. apply orb_false_iff in Hc as [Hc _]. apply orb_false_iff in Hc as [_ Hc].
  destruct prev as [p|]; simpl in *.
  - destruct (maquina_id r) as [x|], (maquina_id p) as [y|]; simpl in Hc; try discriminate.
    apply negb_false_iff, String.eqb_eq in Hc. subst. reflexivity.
  - destruct (maquina_id r); discriminate.
Qed.

Lemma status_change_chain_turno (rows : list mrow) (prev : option mrow) :
  chainK (option_map turno prev)
    (map (fun x => (change (fst x), turno (snd x))) (status_change_aux prev rows)).
Proof.
  revert prev. induction rows as [|r rows IH]; intro prev; simpl; [exact I|].
  split; [|apply (IH (Some r))].
  intro Hc. apply orb_false_iff in Hc as [_ Hc].
  destruct prev as [p|]; simpl in *.
  - destruct (turno r) as [x|], (turno p) as [y|]; simpl in Hc; try discriminate.
    apply negb_false_iff, String.eqb_eq in Hc. subst. reflexivity.
  - destruct (turno r); discriminate.
Qed.

(** The groups [__calculate_time_difference] aggregates into intervals
    (the runs of [change.cumsum()] after [__motivo_change]) never mix
    machines, shifts or statuses: any two rows of a group have the same
    [maquina_id], [turno] and [status]. *)
Theorem interval_groups_homogeneous (rows : list mrow) (g : list prow) (x y : prow)
    (Hg : In g (split_groups (motivo_change_step (fill_occ (status_change_step rows)))))
    (Hx : In x g) (Hy : In y g) :
  maquina_id (snd x) = maquina_id (snd y) /\ turno (snd x) = turno (snd y) /\
  status (snd x) = status (snd y).
Proof.
  split; [|split].
  - apply (groups_homog_f maquina_id (fun _ _ => eq_refl) (fun _ => eq_refl) rows
             (status_change_chain_maquina rows None) g Hg x y Hx Hy).
  - apply (groups_homog_f turno (fun _ _ => eq_refl) (fun _ => eq_refl) rows
             (status_change_chain_turno rows None) g Hg x y Hx Hy).
  - apply (groups_homog_f status (fun _ _ => eq_refl) (fun _ => eq_refl) rows
             (status_change_chain rows None) g Hg x y Hx Hy).
Qed.

Lemma interval_groups_homogeneous_witness :
  maquina_id (snd (nth 0 (hd [] (split_groups (motivo_change_step (fill_occ (status_change_step sample_rows)))))
                        (Build_flags false false false false false, sample_row "" 0 occ_none)))
  = Some "M1".
Proof.
  set (G := split_groups (motivo_change_step (fill_occ (status_change_step sample_rows)))).
  set (d := (Build_flags false false false false false, sample_row "" 0 occ_none)).
  assert (Hg : In (hd [] G) G) by (vm_compute; left; reflexivity).
  assert (Hx : In (nth 0 (hd [] G) d) (hd [] G)) by (vm_compute; left; reflexivity).
  assert (Hy : In (nth 1 (hd [] G) d) (hd [] G)) by (vm_compute; right; left; reflexivity).
  destruct (interval_groups_homogeneous sample_rows (hd [] G) _ _ Hg Hx Hy) as [E _].
  rewrite E. vm_compute. reflexivity.
Defined.

Lemma length_status_change_aux (prev : option mrow) (rows : list mrow) :
  List.length (status_change_aux prev rows) = List.length rows.
Proof. revert prev. induction rows as [|r rows IH]; intro prev; simpl; [|rewrite IH]; reflexivity. Qed.

Lemma length_ffill (o : occ) (g : list prow) : List.length (ffill o g) = List.length g.
Proof. revert o. induction g as [|[f r] g IH]; intro o; simpl; [|rewrite IH]; reflexivity. Qed.

Lemma length_concat_map {A B} (f : A -> list B) (G : list A) (h : A -> nat) :
  (forall g, In g G -> (List.length (f g) <= h g)%nat) ->
  (List.length (List.concat (map f G)) <= list_sum (map h G))%nat.
Proof.
  induction G as [|g G IH]; simpl; intro H; [lia|].
  rewrite length_app.
  assert (List.length (List.concat (map f G)) <= list_sum (map h G))%nat by (apply IH; auto).
  specialize (H g (or_introl eq_refl)). lia.
Qed.

Lemma length_concat_eq {A} (G : list (list A)) :
  List.length (List.concat G) = list_sum (map (@List.length A) G).
Proof. induction G as [|g G IH]; simpl; [|rewrite length_app, IH]; reflexivity. Qed.

Lemma length_fill_occ (xs : list prow) : List.length (fill_occ xs) = List.length xs.
Proof.
  unfold fill_occ. rewrite length_map.
  transitivity (List.length (List.concat (split_groups xs))).
  - rewrite !length_concat_eq, map_map. f_equal. apply map_ext. intro g.
    unfold bfill. rewrite length_rev, length_ffill, length_rev, length_ffill. reflexivity.
  - unfold split_groups. rewrite concat_split_aux. reflexivity.
Qed.

Lemma length_motivo_change_aux (prev : option prow) (xs : list prow) :
  List.length (motivo_change_aux prev xs) = List.length xs.
Proof. revert prev. induction xs as [|[f r] xs IH]; intro prev; simpl; [|rewrite IH]; reflexivity. Qed.

Lemma length_with_final (now : Z) (xs : list arow) : List.length (with_final now xs) = List.length xs.
Proof. induction xs as [|a xs IH]; simpl; [|rewrite IH]; reflexivity. Qed.

(** [join_data] never returns more intervals than the merged frame has
    rows: each interval aggregates a non-empty run of rows, and the
    factory filter only removes intervals. *)
Theorem join_data_length (now : Z) (rows : list mrow) :
  (List.length (join_data now rows) <= List.length rows)%nat.
Proof.
  unfold join_data. eapply Nat.le_trans; [apply filter_length_le|].
  rewrite length_map. unfold calculate_time_difference. rewrite length_with_final.
  set (L := motivo_change_step (fill_occ (status_change_step rows))).
  assert (HL : List.length L = List.length rows).
  { unfold L, motivo_change_step. rewrite length_motivo_change_aux, length_fill_occ.
    apply length_status_change_aux. }
  rewrite <- HL. eapply Nat.le_trans.
  - apply (length_concat_map agg_group (split_groups L) (@List.length prow)).
    intros [|x g] _; simpl; [lia|]. destruct x. simpl. lia.
  - rewrite <- length_concat_eq. unfold split_groups. rewrite concat_split_aux. simpl. lia.
Qed.

Lemma fill_occ_running_defaults (xs : list prow) (x : prow) :
  In x (fill_occ xs) -> status (snd x) = Some "rodando" ->
  data_registro_ihm (occ_of (snd x)) = None /\ hora_registro_ihm (occ_of (snd x)) = None /\
  afeta_eff (occ_of (snd x)) = Some 0%Z.
Proof.
  unfold fill_occ. intros H Hs. apply in_map_iff in H as [[f r] [<- _]].
  revert Hs. unfold fill_post. cbn. unfold is_rodando. cbn. intro Hs. rewrite Hs.
  cbn. repeat split.
Qed.

(** Every running interval returned by [join_data] has [afeta_eff = 0],
    and its annotation date and time fall back to its own date and time
    ([data_registro_ihm], [hora_registro_ihm] filled from
    [data_registro], [hora_registro]). *)
Theorem join_data_running_defaults (now : Z) (rows : list mrow) (u : urow)
    (H : In u (join_data now rows)) (Hs : u_status u = Some "rodando") :
  u_afeta_eff u = 0%Z /\ u_data_registro_ihm u = u_data_registro u /\
  u_hora_registro_ihm u = u_hora_registro u.
Proof.
  apply join_data_in in H as [t [-> Ht]].
  unfold calculate_time_difference in Ht. apply with_final_in in Ht as [Ha _].
  set (L := motivo_change_step (fill_occ (status_change_step rows))) in *.
  apply agg_in in Ha as [g [Hg [Hst Hocc]]].
  assert (Hhom := groups_homog_f status (fun _ _ => eq_refl) (fun _ => eq_refl) rows
                    (status_change_chain rows None) g Hg).
  cbn in Hs. rewrite Hst in Hs.
  destruct g as [|x0 g'] eqn:Eg; [discriminate|].
  rewrite <- Eg in *.
  assert (Hx0 : In x0 g) by (rewrite Eg; left; reflexivity).
  apply first_nonnull_some, in_map_iff in Hs as [r [Hr Hin]].
  apply in_map_iff in Hin as [x1 [Hx1 Hx1g]]. subst r.
  assert (Hdef : forall y, In y g ->
            data_registro_ihm (occ_of (snd y)) = None /\ hora_registro_ihm (occ_of (snd y)) = None /\
            afeta_eff (occ_of (snd y)) = Some 0%Z).
  { intros y Hy. assert (HyL : In y L) by (eapply in_split_groups; eauto).
    assert (Hsnd : In (snd y) (map snd (fill_occ (status_change_step rows)))).
    { unfold L, motivo_change_step in HyL. rewrite <- (motivo_change_snd _ None).
      apply in_map. exact HyL. }
    apply in_map_iff in Hsnd as [z [Hz HzF]].
    rewrite <- Hz. apply (fill_occ_running_defaults _ _ HzF). rewrite Hz.
    rewrite (Hhom y x1 Hy Hx1g). exact Hr. }
  destruct (Hdef x0 Hx0) as [D1 [D2 D3]].
  assert (Hn : forall (B : Type) (get : occ -> option B),
            (forall y, In y g -> get (occ_of (snd y)) = None) ->
            first_nonnull (map (fun r => get (occ_of r)) (map snd g)) = None).
  { intros B get Hget. apply first_nonnull_none. intros w Hw.
    rewrite map_map in Hw. apply in_map_iff in Hw as [y [<- Hy]]. apply Hget, Hy. }
  assert (Ea : afeta_eff (a_occ (t_row t)) = Some 0%Z).
  { rewrite Hocc. cbn. rewrite Eg. cbn. rewrite D3. reflexivity. }
  assert (Ed : data_registro_ihm (a_occ (t_row t)) = None).
  { rewrite Hocc. cbn. apply (Hn _ data_registro_ihm). intros y Hy. apply Hdef, Hy. }
  assert (Eh : hora_registro_ihm (a_occ (t_row t)) = None).
  { rewrite Hocc. cbn. apply (Hn _ hora_registro_ihm). intros y Hy. apply Hdef, Hy. }
  unfold post_row. cbn [u_afeta_eff u_data_registro_ihm u_hora_registro_ihm
                        u_data_registro u_hora_registro].
  rewrite Ea, Ed, Eh. repeat split.
Qed.

Lemma join_data_running_defaults_witness :
  In (nth 1 (join_data sample_now sample_rows) urow_default) (join_data sample_now sample_rows)
  /\ u_status (nth 1 (join_data sample_now sample_rows) urow_default) = Some "rodando"
  /\ u_afeta_eff (nth 1 (join_data sample_now sample_rows) urow_default) = 0%Z.
Proof.
  assert (Hin : In (nth 1 (join_data sample_now sample_rows) urow_default)
                   (join_data sample_now sample_rows))
    by (vm_compute; right; left; reflexivity).
  assert (Hst : u_status (nth 1 (join_data sample_now sample_rows) urow_default) = Some "rodando")
    by (vm_compute; reflexivity).
  split; [exact Hin|]. split; [exact Hst|].
  apply (join_data_running_defaults sample_now sample_rows _ Hin Hst).
Defined.

End TimelineExtra.

(** ** [CleanData.clean_data]: what the cleaned table guarantees *)
Module CleaningExtra.
Import Cleaning.
Local Open Scope list_scope.

(** *** Column positions *)

Lemma mem_cons (c c' : string) (cols : list string) :
  mem c (c' :: cols) = String.eqb c c' || mem c cols.
Proof. reflexivity. Qed.

Lemma index_of_lt (c : string) (cols : list string) :
  mem c cols = true -> (index_of c cols < List.length cols)%nat.
Proof.
  induction cols as [|c' cols IH]; [discriminate|]. rewrite mem_cons. simpl.
  destruct (String.eqb c c'); simpl; intro H; [lia|]. specialize (IH H). lia.
Qed.

Lemma index_of_not_mem (c : string) (cols : list string) :
  mem c cols = false -> index_of c cols = List.length cols.
Proof.
  induction cols as [|c' cols IH]; [reflexivity|]. rewrite mem_cons. simpl.
  destruct (String.eqb c c'); simpl; intro H; [discriminate|]. rewrite IH; auto.
Qed.

Lemma index_of_inj (c c' : string) (cols : list string) :
  mem c cols = true -> c <> c' -> index_of c cols <> index_of c' cols.
Proof.
  induction cols as [|a cols IH]; [discriminate|]. rewrite mem_cons. simpl.
  destruct (String.eqb_spec c a) as [E|E], (String.eqb_spec c' a) as [E'|E']; simpl;
    intros H Hne; try congruence.
  intro Hs. injection Hs. apply IH; auto.
Qed.

Lemma index_of_app (c : string) (cols l : list string) :
  mem c cols = true -> index_of c (cols ++ l) = index_of c cols.
Proof.
  induction cols as [|a cols IH]; [discriminate|]. rewrite mem_cons. simpl.
  destruct (String.eqb c a); simpl; intro H; [reflexivity|]. rewrite IH; auto.
Qed.

Lemma index_of_app_new (c : string) (cols : list string) :
  mem c cols = false -> index_of c (cols ++ [c]) = List.length cols.
Proof.
  induction cols as [|a cols IH].
  - intros _. simpl. rewrite String.eqb_refl. reflexivity.
  - rewrite mem_cons. simpl. destruct (String.eqb c a); simpl; intro H; [discriminate|].
    rewrite IH; auto.
Qed.

Lemma mem_app_l (c : string) (cols l : list string) :
  mem c cols = true -> mem c (cols ++ l) = true.
Proof. unfold mem. rewrite existsb_app. intros ->. reflexivity. Qed.


Lemma nth_set_nth_other (i j : nat) (v : cell) (row : list cell) (d : cell) :
  i <> j -> nth i (set_nth j v row) d = nth i row d.
Proof.
  revert i j. induction row as [|x row IH]; intros [|i] [|j] H; simpl; auto; try congruence.
Qed.

Lemma nth_set_nth_same (i : nat) (v : cell) (row : list cell) (d : cell) :
  (i < List.length row)%nat -> nth i (set_nth i v row) d = v.
Proof.
  revert i. induction row as [|x row IH]; intros [|i] H; simpl in *; try lia; auto.
  apply IH. lia.
Qed.

Lemma length_set_nth (j : nat) (v : cell) (row : list cell) :
  List.length (set_nth j v row) = List.length row.
Proof. revert j. induction row as [|x row IH]; intros [|j]; simpl; auto. Qed.

Lemma get_lt (df : frame) (c : string) (row : list cell) :
  get df c row <> CNull -> (index_of c (columns df) < List.length row)%nat.
Proof.
  unfold get. intro H. destruct (Nat.lt_ge_cases (index_of c (columns df)) (List.length row));
    [assumption|]. rewrite nth_overflow in H by assumption. congruence.
Qed.

Lemma rect_lt (df : frame) (c : string) (row : list cell) :
  rectangular df -> In row (rows df) -> mem c (columns df) = true ->
  (index_of c (columns df) < List.length row)%nat.
Proof.
  intros Hr Hin Hm. unfold rectangular in Hr. rewrite Forall_forall in Hr.
  rewrite (Hr row Hin). apply index_of_lt, Hm.
Qed.

(** *** The table operations, row by row *)

Lemma dedup_incl (seen rs : list (list cell)) (r : list cell) :
  In r (dedup seen rs) -> In r rs.
Proof.
  revert seen. induction rs as [|x rs IH]; intro seen; simpl; [tauto|].
  destruct (existsb _ seen).
  - intro H. right. eapply IH; eauto.
  - intros [H|H]; [left; exact H|right; eapply IH; eauto].
Qed.

Lemma dropna_ok (df df' : frame) (sub : list string) :
  dropna df sub = Ok df' ->
  columns df' = columns df /\ (forall c, In c sub -> mem c (columns df) = true) /\
  forall row, In row (rows df') -> In row (rows df) /\ forall c, In c sub -> get df c row <> CNull.
Proof.
  unfold dropna. destruct (filter _ sub) eqn:Em; [|discriminate].
  intro H. injection H as <-. cbn. split; [reflexivity|]. split.
  - intros c Hc. destruct (mem c (columns df)) eqn:E; [reflexivity|].
    assert (In c (filter (fun c => negb (mem c (columns df))) sub))
      by (apply filter_In; rewrite E; auto).
    rewrite Em in H. destruct H.
  - intros row Hr. apply filter_In in Hr as [Hr Hf]. split; [exact Hr|].
    intros c Hc. rewrite forallb_forall in Hf. specialize (Hf c Hc).
    destruct (get df c row); congruence.
Qed.

Lemma map_col_step (df : frame) (c' : string) (f : cell -> cell) (row' : list cell) :
  In row' (rows (map_col df c' f)) ->
  exists row, In row (rows df) /\
    row' = set_nth (index_of c' (columns df)) (f (get df c' row)) row.
Proof. unfold map_col. cbn. intro H. apply in_map_iff in H as [row [<- Hr]]. eauto. Qed.

Lemma all_ok_forall2 {A} (xs : list (result A)) (l : list A) :
  all_ok xs = Ok l -> Forall2 (fun x a => x = Ok a) xs l.
Proof.
  revert l. induction xs as [|x xs IH]; intros l; simpl.
  - intro H. injection H as <-. constructor.
  - destruct x as [a|e]; simpl; [|discriminate].
    destruct (all_ok xs) as [l'|e] eqn:E; simpl; [|discriminate].
    intro H. injection H as <-. constructor; auto.
Qed.

Lemma in_combine_forall2 {A B} (f : B -> result A) (vs : list A) (rs : list B) (p : A * B) :
  Forall2 (fun x a => x = Ok a) (map f rs) vs -> In p (combine vs rs) ->
  In (snd p) rs /\ f (snd p) = Ok (fst p).
Proof.
  revert vs. induction rs as [|r rs IH]; intros vs H Hp; inversion H as [|x a xs l Hx Hl]; subst.
  - simpl in Hp. contradiction.
  - simpl in Hp. destruct Hp as [<-|Hp]; simpl.
    + auto.
    + destruct (IH l Hl Hp). auto.
Qed.

Lemma col_to_int_step (df df' : frame) (c' : string) :
  col_to_int df c' = Ok df' -> columns df' = columns df /\
  forall row', In row' (rows df') -> exists row z, In row (rows df) /\
    cell_to_int (get df c' row) = Ok z /\
    row' = set_nth (index_of c' (columns df)) (CInt z) row.
Proof.
  unfold col_to_int. destruct (all_ok _) as [vals|e] eqn:E; simpl; [|discriminate].
  intro H. injection H as <-. cbn. split; [reflexivity|].
  intros row' Hr. apply in_map_iff in Hr as [[z row] [<- Hp]].
  apply all_ok_forall2 in E.
  destruct (in_combine_forall2 (fun row => cell_to_int (get df c' row)) _ _ _ E Hp) as [H1 H2].
  cbn in *. exists row, z. auto.
Qed.

Lemma assign_col_columns (df : frame) (c' : string) (f : list cell -> cell) :
  columns (assign_col df c' f) =
  if mem c' (columns df) then columns df else columns df ++ [c'].
Proof. unfold assign_col. destruct (mem c' (columns df)); reflexivity. Qed.

Lemma assign_col_step (df : frame) (c' : string) (f : list cell -> cell) (row' : list cell) :
  In row' (rows (assign_col df c' f)) ->
  exists row, In row (rows df) /\
    row' = (if mem c' (columns df) then set_nth (index_of c' (columns df)) (f row) row
            else row ++ [f row]).
Proof.
  unfold assign_col. destruct (mem c' (columns df)); cbn; intro H;
    apply in_map_iff in H as [row [<- Hr]]; eauto.
Qed.

Lemma assign_col_get_other (df : frame) (c c' : string) (f : list cell -> cell) (row : list cell) :
  mem c (columns df) = true -> c <> c' -> (index_of c (columns df) < List.length row)%nat ->
  get (assign_col df c' f) c
      (if mem c' (columns df) then set_nth (index_of c' (columns df)) (f row) row
       else row ++ [f row]) = get df c row.
Proof.
  intros Hm Hne Hl. unfold get. rewrite assign_col_columns.
  destruct (mem c' (columns df)).
  - apply nth_set_nth_other, index_of_inj; auto.
  - rewrite index_of_app by exact Hm. apply app_nth1, Hl.
Qed.

Lemma assign_col_get_same (df : frame) (c' : string) (f : list cell -> cell) (row : list cell) :
  List.length row = List.length (columns df) ->
  get (assign_col df c' f) c'
      (if mem c' (columns df) then set_nth (index_of c' (columns df)) (f row) row
       else row ++ [f row]) = f row.
Proof.
  intro Hl. unfold get. rewrite assign_col_columns.
  destruct (mem c' (columns df)) eqn:E.
  - apply nth_set_nth_same. rewrite Hl. apply index_of_lt, E.
  - rewrite index_of_app_new by exact E. rewrite <- Hl, app_nth2 by lia.
    rewrite Nat.sub_diag. reflexivity.
Qed.

Lemma assign_col_row (df : frame) (c' : string) (f : list cell -> cell) (row' : list cell) :
  In row' (rows (assign_col df c' f)) ->
  exists row, In row (rows df) /\
    List.length row' = (if mem c' (columns df) then List.length row else S (List.length row)) /\
    (forall c, mem c (columns df) = true -> c <> c' ->
       (index_of c (columns df) < List.length row)%nat ->
       get (assign_col df c' f) c row' = get df c row) /\
    (List.length row = List.length (columns df) -> get (assign_col df c' f) c' row' = f row).
Proof.
  intro Hr. apply assign_col_step in Hr as [row [Hr Heq]].
  exists row. split; [exact Hr|]. split; [|split].
  - rewrite Heq. destruct (mem c' (columns df)).
    + apply length_set_nth.
    + rewrite length_app. simpl. lia.
  - intros c Hc Hne Hlt. rewrite Heq. apply assign_col_get_other; auto.
  - intro Hl. rewrite Heq. apply assign_col_get_same, Hl.
Qed.

(** *** Rectangular tables stay rectangular *)

Lemma rect_iff (df : frame) :
  rectangular df <-> forall row, In row (rows df) -> List.length row = List.length (columns df).
Proof. unfold rectangular. apply Forall_forall. Qed.

Lemma rect_drop_dup (df : frame) : rectangular df -> rectangular (drop_duplicates df).
Proof.
  rewrite !rect_iff. intros H row Hr. apply H. eapply dedup_incl. exact Hr.
Qed.

Lemma rect_dropna (df df' : frame) (sub : list string) :
  rectangular df -> dropna df sub = Ok df' -> rectangular df'.
Proof.
  rewrite !rect_iff. intros H Hd. apply dropna_ok in Hd as [Ec [_ Hr]].
  intros row Hrow. rewrite Ec. apply H, Hr, Hrow.
Qed.

Lemma rect_map_col (df : frame) (c : string) (f : cell -> cell) :
  rectangular df -> rectangular (map_col df c f).
Proof.
  rewrite !rect_iff. intros H row' Hr. apply map_col_step in Hr as [row [Hr ->]].
  rewrite length_set_nth. apply H, Hr.
Qed.

Lemma rect_col_to_int (df df' : frame) (c : string) :
  rectangular df -> col_to_int df c = Ok df' -> rectangular df'.
Proof.
  rewrite !rect_iff. intros H Hc. apply col_to_int_step in Hc as [Ec Hr].
  intros row' Hrow. destruct (Hr row' Hrow) as [row [z [Hin [_ ->]]]].
  rewrite length_set_nth, Ec. apply H, Hin.
Qed.

Lemma rect_filter (df : frame) (P : list cell -> bool) :
  rectangular df -> rectangular {| columns := columns df; rows := filter P (rows df) |}.
Proof.
  rewrite !rect_iff. cbn. intros H row Hr. apply filter_In in Hr as [Hr _]. apply H, Hr.
Qed.

Lemma rect_assign (df : frame) (c : string) (f : list cell -> cell) :
  rectangular df -> rectangular (assign_col df c f).
Proof.
  rewrite !rect_iff. intros H row' Hr. rewrite assign_col_columns.
  apply assign_col_step in Hr as [row [Hr ->]].
  destruct (mem c (columns df)).
  - rewrite length_set_nth. apply H, Hr.
  - rewrite !length_app. rewrite (H row Hr). reflexivity.
Qed.

Lemma rect_linha_step (df df' : frame) :
  rectangular df -> linha_step df = Ok df' -> rectangular df'.
Proof.
  intro Hr. unfold linha_step. destruct (mem "linha" (columns df)).
  - destruct (col_to_int df "linha") as [d1|e] eqn:E1; simpl; [|discriminate].
    intro H. injection H as <-. apply rect_assign, rect_filter.
    eapply rect_col_to_int; eauto.
  - intro H. injection H as <-. exact Hr.
Qed.

Lemma linha_step_columns (df df' : frame) :
  linha_step df = Ok df' ->
  columns df' = columns df \/ columns df' = columns df ++ ["fabrica"].
Proof.
  unfold linha_step. destruct (mem "linha" (columns df)).
  - destruct (col_to_int df "linha") as [d1|e] eqn:E1; simpl; [|discriminate].
    intro H. injection H as <-. apply col_to_int_step in E1 as [Ec _].
    rewrite assign_col_columns. cbn [columns]. rewrite Ec.
    destruct (mem "fabrica" (columns df)); auto.
  - intro H. injection H as <-. auto.
Qed.

Lemma linha_step_step (df df' : frame) :
  linha_step df = Ok df' ->
  (forall c, mem c (columns df) = true -> mem c (columns df') = true) /\
  forall row', In row' (rows df') -> exists row, In row (rows df) /\
    forall c, mem c (columns df) = true -> c <> "linha" -> c <> "fabrica" ->
      (index_of c (columns df) < List.length row)%nat -> get df' c row' = get df c row.
Proof.
  intro Hs. split.
  - intros c Hc. destruct (linha_step_columns df df' Hs) as [E|E]; rewrite E;
      [exact Hc|apply mem_app_l, Hc].
  - revert Hs. unfold linha_step. destruct (mem "linha" (columns df)).
    + destruct (col_to_int df "linha") as [d1|e] eqn:E1; simpl; [|discriminate].
      intro H. injection H as <-.
      apply col_to_int_step in E1 as [Ec Hr1].
      intros row' Hr. apply assign_col_row in Hr as [row2 [Hr2 [_ [Hget _]]]].
      cbn [rows] in Hr2. apply filter_In in Hr2 as [Hr2 _].
      destruct (Hr1 row2 Hr2) as [row [z [Hin [_ Hrow2]]]].
      exists row. split; [exact Hin|]. intros c Hc Hl Hf Hlt.
      rewrite Hget.
      * unfold get. cbn [columns]. rewrite Ec, Hrow2.
        apply nth_set_nth_other, index_of_inj; auto.
      * cbn [columns]. rewrite Ec. exact Hc.
      * exact Hf.
      * cbn [columns]. rewrite Ec, Hrow2, length_set_nth. exact Hlt.
    + intro H. injection H as <-. intros row' Hr. exists row'. split; auto.
Qed.

(** The output of the [linha] step, when the column is there. *)
Lemma linha_step_out (df df' : frame) :
  rectangular df -> mem "linha" (columns df) = true -> linha_step df = Ok df' ->
  mem "fabrica" (columns df') = true /\
  forall row', In row' (rows df') -> exists l, get df' "linha" row' = CInt l /\ l <> 0%Z /\
    get df' "fabrica" row' = CInt (if (1 <=? l)%Z && (l <=? 9)%Z then 1 else 2).
Proof.
  intros Hrect Hl. unfold linha_step. rewrite Hl.
  destruct (col_to_int df "linha") as [d1|e] eqn:E1; simpl; [|discriminate].
  intro H. injection H as <-.
  pose proof (rect_col_to_int _ _ _ Hrect E1) as Hr1.
  apply col_to_int_step in E1 as [Ec Hs1]. split.
  - rewrite assign_col_columns. cbn [columns].
    destruct (mem "fabrica" (columns d1)) eqn:Ef; [exact Ef|].
    unfold mem. rewrite existsb_app. simpl. rewrite orb_true_r. reflexivity.
  - intros row' Hr. apply assign_col_row in Hr as [row2 [Hr2 [_ [Hoth Hsame]]]].
    cbn [rows] in Hr2. apply filter_In in Hr2 as [Hr2 Hkeep].
    assert (Hlen : List.length row2 = List.length (columns d1))
      by (apply (proj1 (rect_iff d1) Hr1), Hr2).
    destruct (Hs1 row2 Hr2) as [row [z [Hin [_ Hrow2]]]].
    assert (Hz : get d1 "linha" row2 = CInt z).
    { rewrite Hrow2. unfold get. rewrite Ec. apply nth_set_nth_same.
      apply (rect_lt df); auto. }
    exists z. split; [|split].
    + rewrite Hoth.
      * exact Hz.
      * cbn [columns]. rewrite Ec. exact Hl.
      * discriminate.
      * cbn [columns]. rewrite Hlen. apply index_of_lt. rewrite Ec. exact Hl.
    + rewrite Hz in Hkeep. cbn in Hkeep. intro E. rewrite E in Hkeep. discriminate.
    + rewrite Hsame by exact Hlen. unfold get in Hz |- *. cbn [columns].
      rewrite Hz. destruct ((1 <=? z)%Z && (z <=? 9)%Z); reflexivity.
Qed.

Lemma operador_step_step (df df' : frame) :
  operador_step df = Ok df' -> columns df' = columns df /\
  forall row', In row' (rows df') -> exists row, In row (rows df) /\
    forall c, mem c (columns df) = true -> c <> "operador_id" -> c <> "os_numero" ->
      get df' c row' = get df c row.
Proof.
  unfold operador_step. destruct (mem "operador_id" (columns df)) eqn:Eo.
  - destruct (col_to_int df "operador_id") as [d1|e] eqn:E1; simpl; [|discriminate].
    apply col_to_int_step in E1 as [Ec Hr1].
    destruct (mem "os_numero" _) eqn:Eos; [|discriminate].
    intro H. injection H as <-. split; [exact Ec|].
    intros row' Hr. apply map_col_step in Hr as [row3 [Hr3 ->]].
    apply map_col_step in Hr3 as [row2 [Hr2 ->]].
    apply map_col_step in Hr2 as [row1 [Hr1' ->]].
    destruct (Hr1 row1 Hr1') as [row [z [Hin [_ ->]]]].
    exists row. split; [exact Hin|]. intros c Hc H1 H2.
    unfold get at 1 4. cbn [columns map_col]. rewrite Ec.
    rewrite (nth_set_nth_other (index_of c (columns df)) (index_of "os_numero" (columns df)))
      by (apply index_of_inj; auto).
    rewrite !(nth_set_nth_other (index_of c (columns df)) (index_of "operador_id" (columns df)))
      by (apply index_of_inj; auto).
    reflexivity.
  - intro H. injection H as <-. split; [reflexivity|]. intros row' Hr.
    exists row'. split; auto.
Qed.

Lemma string_length_append (a b : string) :
  String.length (String.append a b) = (String.length a + String.length b)%nat.
Proof. induction a as [|x a IH]; simpl; auto. Qed.

Lemma repeat_string_zero_length (k : nat) :
  String.length (repeat_string k "0") = k.
Proof. induction k as [|k IH]; simpl; auto. Qed.

Lemma zfill_length (w : nat) (s : string) :
  (w <= String.length (zfill w s))%nat.
Proof.
  unfold zfill. destruct (Nat.leb_spec w (String.length s)) as [H|H]; [exact H|].
  destruct s as [|c s'].
  - rewrite repeat_string_zero_length. lia.
  - destruct (Ascii.eqb c "-" || Ascii.eqb c "+"); simpl in *;
      rewrite string_length_append, repeat_string_zero_length; simpl; lia.
Qed.

(** The output of the [operador_id] step, when the column is there. *)
Lemma operador_step_out (df df' : frame) :
  rectangular df -> mem "operador_id" (columns df) = true -> operador_step df = Ok df' ->
  forall row', In row' (rows df') ->
  get df' "operador_id" row' = CNull \/
  exists s, get df' "operador_id" row' = CStr s /\ s <> "000000" /\ (6 <= String.length s)%nat.
Proof.
  intros Hrect Ho. unfold operador_step. rewrite Ho.
  destruct (col_to_int df "operador_id") as [d1|e] eqn:E1; simpl; [|discriminate].
  pose proof (rect_col_to_int _ _ _ Hrect E1) as Hr1.
  apply col_to_int_step in E1 as [Ec _].
  destruct (mem "os_numero" _) eqn:Eos; [|discriminate].
  intro H. injection H as <-. intros row' Hr.
  apply map_col_step in Hr as [row3 [Hr3 ->]].
  apply map_col_step in Hr3 as [row2 [Hr2 ->]].
  apply map_col_step in Hr2 as [row1 [Hr1' ->]].
  assert (Hlt : (index_of "operador_id" (columns d1) < List.length row1)%nat)
    by (apply (rect_lt d1); auto; rewrite Ec; exact Ho).
  match goal with |- ?g = CNull \/ _ =>
    assert (Hg : g = replace_none "000000" (CStr (zfill 6 (cell_str (get d1 "operador_id" row1)))))
  end.
  { unfold get at 1. cbn [columns map_col].
    rewrite nth_set_nth_other.
    2:{ apply index_of_inj; [|discriminate]. rewrite Ec. exact Ho. }
    rewrite nth_set_nth_same by (rewrite !length_set_nth; exact Hlt).
    unfold get at 1. cbn [columns map_col].
    rewrite nth_set_nth_same by exact Hlt. reflexivity. }
  rewrite Hg. unfold replace_none.
  destruct (String.eqb_spec (zfill 6 (cell_str (get d1 "operador_id" row1))) "000000") as [E|E].
  - left. reflexivity.
  - right. eexists. split; [reflexivity|]. split; [exact E|]. apply zfill_length.
Qed.

Lemma before_dot_no_dot (s : string) : ~ In "."%char (list_ascii_of_string (before_dot s)).
Proof.
  induction s as [|a s IH]; simpl; [tauto|].
  destruct (Ascii.eqb_spec a "."); simpl; [tauto|].
  intros [E|E]; [congruence|exact (IH E)].
Qed.

(** The three required columns, traced from a row of [clean_data]'s result
    back to the row of the input it comes from. *)
Lemma clean_data_trace (df df' : frame) :
  clean_data df = Ok df' ->
  exists df2 df3,
    columns df2 = columns df /\
    (forall c, In c ["maquina_id"; "data_registro"; "hora_registro"] -> mem c (columns df) = true) /\
    (rectangular df -> rectangular df2) /\
    linha_step df2 = Ok df3 /\ operador_step df3 = Ok df' /\
    forall row2, In row2 (rows df2) -> exists row, In row (rows df) /\
      get df "maquina_id" row <> CNull /\ get df "data_registro" row <> CNull /\
      get df "hora_registro" row <> CNull /\
      get df2 "maquina_id" row2 = get df "maquina_id" row /\
      get df2 "data_registro" row2 = get df "data_registro" row /\
      get df2 "hora_registro" row2 = CStr (before_dot (cell_str (get df "hora_registro" row))).
Proof.
  unfold clean_data.
  destruct (dropna (drop_duplicates df) _) as [df1|e] eqn:Ed; simpl; [|discriminate].
  destruct (linha_step _) as [df3|e] eqn:El; simpl; [|discriminate].
  intro Ho.
  pose proof Ed as Ed'.
  apply dropna_ok in Ed as [Ec [Hm Hr]]. cbn in Ec.
  eexists _, df3. split; [|split; [|split; [|split; [exact El|split; [exact Ho|]]]]].
  - exact Ec.
  - exact Hm.
  - intro Hrect. apply rect_map_col. eapply rect_dropna; [apply rect_drop_dup, Hrect|exact Ed'].
  - intros row2 Hr2. apply map_col_step in Hr2 as [row1 [Hr1 ->]].
    destruct (Hr row1 Hr1) as [Hin Hnn]. exists row1.
    split; [eapply dedup_incl; exact Hin|].
    assert (Hg : forall c, get (drop_duplicates df) c row1 = get df c row1) by reflexivity.
    assert (Hmq := Hnn "maquina_id" ltac:(simpl; auto)).
    assert (Hdt := Hnn "data_registro" ltac:(simpl; auto)).
    assert (Hhr := Hnn "hora_registro" ltac:(simpl; auto)).
    rewrite Hg in Hmq, Hdt, Hhr.
    assert (Hmem : forall c, In c ["maquina_id"; "data_registro"; "hora_registro"] ->
                   mem c (columns df1) = true)
      by (intros c Hc; rewrite Ec; apply (Hm c Hc)).
    assert (Hlt : (index_of "hora_registro" (columns df1) < List.length row1)%nat).
    { apply get_lt. unfold get. rewrite Ec. exact Hhr. }
    split; [exact Hmq|split; [exact Hdt|split; [exact Hhr|]]].
    rewrite Ec in Hlt.
    split; [|split]; unfold get; cbn [columns map_col]; rewrite Ec.
    + apply nth_set_nth_other, index_of_inj; [apply Hm; simpl; auto|discriminate].
    + apply nth_set_nth_other, index_of_inj; [apply Hm; simpl; auto|discriminate].
    + apply nth_set_nth_same, Hlt.
Qed.

(** [CleanData.clean_data]: every row of the cleaned table comes from a row
    of the input whose [maquina_id], [data_registro] and [hora_registro] are
    all present; the machine and the date are carried over unchanged, and the
    time becomes the text before its first '.', which holds no '.'. *)
Theorem clean_data_rows_from_input (df df' : frame) (row' : list cell)
  (H : clean_data df = Ok df') (Hr : In row' (rows df')) :
  exists row, In row (rows df) /\
    get df "maquina_id" row <> CNull /\ get df "data_registro" row <> CNull /\
    get df "hora_registro" row <> CNull /\
    get df' "maquina_id" row' = get df "maquina_id" row /\
    get df' "data_registro" row' = get df "data_registro" row /\
    get df' "hora_registro" row' = CStr (before_dot (cell_str (get df "hora_registro" row))) /\
    ~ In "."%char (list_ascii_of_string (before_dot (cell_str (get df "hora_registro" row)))).
Proof.
  destruct (clean_data_trace _ _ H) as [df2 [df3 [Ec2 [Hm [_ [El [Ho Hrows]]]]]]].
  destruct (operador_step_step _ _ Ho) as [_ Hr3].
  destruct (Hr3 row' Hr) as [row3 [Hin3 Hg3]].
  destruct (linha_step_step _ _ El) as [Hmem2 Hr2].
  destruct (Hr2 row3 Hin3) as [row2 [Hin2 Hg2]].
  destruct (Hrows row2 Hin2) as [row [Hin [Hmq [Hdt [Hhr [Em [Ed Eh]]]]]]].
  assert (Hc : forall c, In c ["maquina_id"; "data_registro"; "hora_registro"] ->
               get df2 c row2 <> CNull -> get df' c row' = get df2 c row2).
  { intros c Hc Hnn.
    assert (Hmc : mem c (columns df2) = true) by (rewrite Ec2; apply Hm, Hc).
    simpl in Hc.
    rewrite Hg3; [|apply Hmem2, Hmc|intros ->; intuition discriminate
                  |intros ->; intuition discriminate].
    apply Hg2; [exact Hmc|intros ->; intuition discriminate
               |intros ->; intuition discriminate|apply get_lt, Hnn]. }
  exists row. split; [exact Hin|].
  split; [exact Hmq|]. split; [exact Hdt|]. split; [exact Hhr|].
  split; [|split; [|split]].
  - rewrite Hc, Em; [reflexivity|simpl; auto|rewrite Em; exact Hmq].
  - rewrite Hc, Ed; [reflexivity|simpl; auto|rewrite Ed; exact Hdt].
  - rewrite Hc, Eh; [reflexivity|simpl; auto|rewrite Eh; discriminate].
  - apply before_dot_no_dot.
Qed.

Lemma clean_data_rows_from_input_witness :
  clean_data sample_ihm = Ok cleaned_ihm /\
  In [CInt 3; CStr "TMF001"; CStr "2024-05-10"; CStr "08:00:00"; CStr "000123"; CNull; CInt 1]
     (rows cleaned_ihm) /\
  exists row, In row (rows sample_ihm) /\
    get cleaned_ihm "hora_registro"
        [CInt 3; CStr "TMF001"; CStr "2024-05-10"; CStr "08:00:00"; CStr "000123"; CNull; CInt 1]
    = CStr (before_dot (cell_str (get sample_ihm "hora_registro" row))).
Proof.
  assert (H1 : clean_data sample_ihm = Ok cleaned_ihm) by (vm_compute; reflexivity).
  assert (H2 : In [CInt 3; CStr "TMF001"; CStr "2024-05-10"; CStr "08:00:00"; CStr "000123";
                   CNull; CInt 1] (rows cleaned_ihm)) by (simpl; auto).
  split; [exact H1|]. split; [exact H2|].
  destruct (clean_data_rows_from_input _ _ _ H1 H2) as [row [Hin [_ [_ [_ [_ [_ [Eh _]]]]]]]].
  exists row. split; [exact Hin|exact Eh].
Defined.

(** [CleanData.clean_data] on a table with a [linha] column: in every
    cleaned row the line is an integer other than 0, and [fabrica] is 1 for
    the lines 1 to 9 and 2 for any other line. *)
Theorem clean_data_linha_fabrica (df df' : frame) (row' : list cell)
  (Hrect : rectangular df) (Hl : mem "linha" (columns df) = true)
  (H : clean_data df = Ok df') (Hr : In row' (rows df')) :
  exists l, get df' "linha" row' = CInt l /\ l <> 0%Z /\
    get df' "fabrica" row' = CInt (if (1 <=? l)%Z && (l <=? 9)%Z then 1 else 2).
Proof.
  destruct (clean_data_trace _ _ H) as [df2 [df3 [Ec2 [_ [Hrect2 [El [Ho _]]]]]]].
  assert (Hl2 : mem "linha" (columns df2) = true) by (rewrite Ec2; exact Hl).
  destruct (linha_step_out _ _ (Hrect2 Hrect) Hl2 El) as [Hfab Hout].
  destruct (linha_step_step _ _ El) as [Hmem2 _].
  destruct (operador_step_step _ _ Ho) as [_ Hr3].
  destruct (Hr3 row' Hr) as [row3 [Hin3 Hg3]].
  destruct (Hout row3 Hin3) as [l [E1 [E2 E3]]].
  exists l. rewrite !Hg3; try discriminate.
  - auto.
  - exact Hfab.
  - apply Hmem2, Hl2.
Qed.

Lemma clean_data_linha_fabrica_witness :
  rectangular sample_ihm /\ mem "linha" (columns sample_ihm) = true /\
  get cleaned_ihm "fabrica"
      [CInt 3; CStr "TMF001"; CStr "2024-05-10"; CStr "08:00:00"; CStr "000123"; CNull; CInt 1]
  = CInt 1.
Proof.
  assert (H0 : rectangular sample_ihm) by (repeat constructor).
  assert (H1 : clean_data sample_ihm = Ok cleaned_ihm) by (vm_compute; reflexivity).
  assert (H2 : In [CInt 3; CStr "TMF001"; CStr "2024-05-10"; CStr "08:00:00"; CStr "000123";
                   CNull; CInt 1] (rows cleaned_ihm)) by (simpl; auto).
  split; [exact H0|]. split; [reflexivity|].
  destruct (clean_data_linha_fabrica _ _ _ H0 eq_refl H1 H2) as [l [El [_ Ef]]].
  vm_compute in El. injection El as <-. exact Ef.
Defined.

(** [CleanData.clean_data] on a table with an [operador_id] column: every
    cleaned operator is missing or a text of at least six characters other
    than "000000" (a missing or zero operator becomes [None]). *)
Theorem clean_data_operador_id (df df' : frame) (row' : list cell)
  (Hrect : rectangular df) (Hop : mem "operador_id" (columns df) = true)
  (H : clean_data df = Ok df') (Hr : In row' (rows df')) :
  get df' "operador_id" row' = CNull \/
  exists s, get df' "operador_id" row' = CStr s /\ s <> "000000" /\ (6 <= String.length s)%nat.
Proof.
  destruct (clean_data_trace _ _ H) as [df2 [df3 [Ec2 [_ [Hrect2 [El [Ho _]]]]]]].
  destruct (linha_step_step _ _ El) as [Hmem2 _].
  apply (operador_step_out df3 df').
  - eapply rect_linha_step; [apply Hrect2, Hrect|exact El].
  - apply Hmem2. rewrite Ec2. exact Hop.
  - exact Ho.
  - exact Hr.
Qed.

Lemma clean_data_operador_id_witness :
  rectangular sample_ihm /\ mem "operador_id" (columns sample_ihm) = true /\
  exists s, get cleaned_ihm "operador_id"
      [CInt 3; CStr "TMF001"; CStr "2024-05-10"; CStr "08:00:00"; CStr "000123"; CNull; CInt 1]
    = CStr s /\ (6 <= String.length s)%nat.
Proof.
  assert (H0 : rectangular sample_ihm) by (repeat constructor).
  assert (H1 : clean_data sample_ihm = Ok cleaned_ihm) by (vm_compute; reflexivity).
  assert (H2 : In [CInt 3; CStr "TMF001"; CStr "2024-05-10"; CStr "08:00:00"; CStr "000123";
                   CNull; CInt 1] (rows cleaned_ihm)) by (simpl; auto).
  split; [exact H0|]. split; [reflexivity|].
  destruct (clean_data_operador_id _ _ _ H0 eq_refl H1 H2) as [E|[s [Es [_ Hs]]]].
  - vm_compute in E. discriminate.
  - exists s. split; [exact Es|exact Hs].
Defined.



End CleaningExtra.

(** ** Properties of [clean_hora_registro] and [join_qual_prod] *)
Module QualJoinExtra.
Import Cleaning QualJoin.
Local Open Scope list_scope.

Lemma list_ascii_append (a b : string) :
  list_ascii_of_string (String.append a b) = list_ascii_of_string a ++ list_ascii_of_string b.
Proof. induction a as [|c a IH]; simpl; [reflexivity|rewrite IH; reflexivity]. Qed.

Lemma string_append_empty (a : string) : String.append a EmptyString = a.
Proof. induction a as [|c a IH]; simpl; [reflexivity|rewrite IH; reflexivity]. Qed.

Lemma before_dot_append (a b : string) :
  ~ In "."%char (list_ascii_of_string a) ->
  before_dot (String.append a b) = String.append a (before_dot b).
Proof.
  induction a as [|c a IH]; simpl; intro H; [reflexivity|].
  destruct (Ascii.eqb_spec c "."); [exfalso; apply H; left; congruence|].
  rewrite IH; [reflexivity|]. intro E. apply H. right. exact E.
Qed.

(** The fields of a written time, checked value by value. *)
Tactic Notation "field_cases" ident(n) int_or_var(k) tactic3(tac) :=
  do k (destruct n as [|n]; [tac|]); lia.

Lemma H_field (pad : bool) (n : nat) (p : list item) (rest : list ascii) :
  (n < 24)%nat ->
  re_match (Group H_alts :: Lit ":" :: p) (list_ascii_of_string (time_field pad n) ++ ":"%char :: rest) =
  match re_match p rest with
  | Some (gs, r) => Some (list_ascii_of_string (time_field pad n) :: gs, r)
  | None => None
  end.
Proof.
  intro Hn.
  field_cases n 24 (destruct pad; simpl;
    destruct (re_match p rest) as [[gs r]|]; reflexivity).
Qed.

Lemma M_field (pad : bool) (n : nat) (p : list item) (rest : list ascii) :
  (n < 60)%nat ->
  re_match (Group M_alts :: Lit ":" :: p) (list_ascii_of_string (time_field pad n) ++ ":"%char :: rest) =
  match re_match p rest with
  | Some (gs, r) => Some (list_ascii_of_string (time_field pad n) :: gs, r)
  | None => None
  end.
Proof.
  intro Hn.
  field_cases n 60 (destruct pad; simpl;
    destruct (re_match p rest) as [[gs r]|]; reflexivity).
Qed.

Lemma S_field (pad : bool) (n : nat) :
  (n < 60)%nat ->
  re_match [Group S_alts] (list_ascii_of_string (time_field pad n)) =
  Some ([list_ascii_of_string (time_field pad n)], []).
Proof. intro Hn. field_cases n 60 (destruct pad; reflexivity). Qed.

Lemma field_value (pad : bool) (n : nat) :
  (n < 60)%nat -> digits_value (list_ascii_of_string (time_field pad n)) = n.
Proof. intro Hn. field_cases n 60 (destruct pad; reflexivity). Qed.

Lemma field_shape (pad : bool) (n : nat) :
  (n < 60)%nat ->
  (exists c r, time_field pad n = String c r /\ digit c = true) /\
  ~ In "."%char (list_ascii_of_string (time_field pad n)).
Proof.
  intro Hn.
  field_cases n 60 (destruct pad; (split;
    [eexists; eexists; split; reflexivity
    |vm_compute; intros H; repeat (destruct H as [H|H]; [discriminate H|]); exact H])).
Qed.

Lemma time_text_chars (ph pm ps : bool) (h m s : nat) :
  list_ascii_of_string (time_text ph pm ps h m s) =
  list_ascii_of_string (time_field ph h) ++ ":"%char ::
    list_ascii_of_string (time_field pm m) ++ ":"%char :: list_ascii_of_string (time_field ps s).
Proof.
  unfold time_text. rewrite list_ascii_append. cbn [list_ascii_of_string].
  rewrite list_ascii_append. reflexivity.
Qed.

Lemma guard_digit (c : ascii) (r : string) :
  digit c = true ->
  (String.eqb (String c r) "" || existsb (String.eqb (String c r)) nat_strings) = false /\
  (String.eqb (String c r) "now" || String.eqb (String c r) "today") = false.
Proof.
  intro Hd. cbn.
  repeat match goal with
         | |- context [Ascii.eqb c ?x] =>
             destruct (Ascii.eqb_spec c x) as [->|_]; [discriminate Hd|]
         end.
  split; reflexivity.
Qed.

Lemma first_some_in {A B : Type} (f : A -> option B) (l : list A) (b : B) :
  first_some f l = Some b -> exists x, In x l /\ f x = Some b.
Proof.
  induction l as [|x l IH]; simpl; [discriminate|].
  destruct (f x) eqn:E; intro H.
  - injection H as <-. eauto.
  - destruct (IH H) as [y [Hy Hf]]. eauto.
Qed.

Lemma match_alt_classes (a : alt) (s m r : list ascii) :
  match_alt a s = Some (m, r) -> Forall2 (fun p c => p c = true) a m.
Proof.
  revert s m r. induction a as [|p a IH]; intros s m r; simpl.
  - intro H. injection H as <- <-. constructor.
  - destruct s as [|c s]; [discriminate|]. destruct (p c) eqn:Ep; [|discriminate].
    destruct (match_alt a s) as [[m' r']|] eqn:E; [|discriminate].
    intro H. injection H as <- <-. constructor; eauto.
Qed.

Lemma re_match_group (alts : list alt) (p : list item) (s : list ascii)
  (gs : list (list ascii)) (r : list ascii) :
  re_match (Group alts :: p) s = Some (gs, r) ->
  exists a m s' gs', In a alts /\ Forall2 (fun p c => p c = true) a m /\
    re_match p s' = Some (gs', r) /\ gs = m :: gs'.
Proof.
  simpl. intro H. apply first_some_in in H as [a [Ha H]].
  destruct (match_alt a s) as [[m s']|] eqn:E; [|discriminate].
  destruct (re_match p s') as [[gs' r']|] eqn:E2; [|discriminate].
  injection H as <- <-. exists a, m, s', gs'.
  split; [exact Ha|]. split; [eapply match_alt_classes; eauto|]. auto.
Qed.

Lemma re_match_lit (c : ascii) (p : list item) (s : list ascii)
  (gs : list (list ascii)) (r : list ascii) :
  re_match (Lit c :: p) s = Some (gs, r) -> exists s', re_match p s' = Some (gs, r).
Proof.
  simpl. destruct s as [|c' s]; [discriminate|].
  destruct (Ascii.eqb c c'); [eauto|discriminate].
Qed.

Lemma in_range_le (lo hi c : ascii) :
  in_range lo hi c = true -> (nat_of_ascii lo <= nat_of_ascii c <= nat_of_ascii hi)%nat.
Proof.
  unfold in_range. intro H. apply andb_prop in H as [H1 H2].
  apply Nat.leb_le in H1, H2. lia.
Qed.

(** The code points of character constants are evaluated. *)
Ltac ascii_nums :=
  repeat match goal with
         | H : context [nat_of_ascii (Ascii ?b0 ?b1 ?b2 ?b3 ?b4 ?b5 ?b6 ?b7)] |- _ =>
             let x := constr:(Ascii b0 b1 b2 b3 b4 b5 b6 b7) in
             let v := eval vm_compute in (nat_of_ascii x) in
             change (nat_of_ascii x) with v in H
         | |- context [nat_of_ascii (Ascii ?b0 ?b1 ?b2 ?b3 ?b4 ?b5 ?b6 ?b7)] =>
             let x := constr:(Ascii b0 b1 b2 b3 b4 b5 b6 b7) in
             let v := eval vm_compute in (nat_of_ascii x) in
             change (nat_of_ascii x) with v
         end.

(** The classes matched by a group, turned into bounds on code points. *)
Ltac class_facts :=
  repeat match goal with
         | H : Forall2 _ [] _ |- _ => inversion H; subst; clear H
         | H : Forall2 _ (_ :: _) _ |- _ => inversion H; subst; clear H
         | H : is_char _ _ = true |- _ => unfold is_char in H; apply Ascii.eqb_eq in H; subst
         | H : digit _ = true |- _ => unfold digit in H
         | H : in_range _ _ _ = true |- _ => apply in_range_le in H
         end;
  unfold digits_value; simpl; ascii_nums.

Lemma H_value (a : alt) (m : list ascii) :
  In a H_alts -> Forall2 (fun p c => p c = true) a m -> (digits_value m < 24)%nat.
Proof. simpl. intros [<-|[<-|[<-|[]]]] Hf; class_facts; lia. Qed.

Lemma M_value (a : alt) (m : list ascii) :
  In a M_alts -> Forall2 (fun p c => p c = true) a m -> (digits_value m < 60)%nat.
Proof. simpl. intros [<-|[<-|[]]] Hf; class_facts; lia. Qed.

Lemma S_value (a : alt) (m : list ascii) :
  In a S_alts -> Forall2 (fun p c => p c = true) a m -> (digits_value m < 62)%nat.
Proof. simpl. intros [<-|[<-|[<-|[]]]] Hf; class_facts; lia. Qed.

Lemma re_match_hms_bounds (l : list ascii) (gs : list (list ascii)) (r : list ascii) :
  re_match hms_pattern l = Some (gs, r) ->
  exists mh mm ms, gs = [mh; mm; ms] /\ (digits_value mh < 24)%nat /\
    (digits_value mm < 60)%nat /\ (digits_value ms < 62)%nat.
Proof.
  unfold hms_pattern. intro H.
  apply re_match_group in H as [a1 [mh [s1 [gs1 [Ha1 [Hf1 [H ->]]]]]]].
  apply re_match_lit in H as [s2 H].
  apply re_match_group in H as [a2 [mm [s3 [gs2 [Ha2 [Hf2 [H ->]]]]]]].
  apply re_match_lit in H as [s4 H].
  apply re_match_group in H as [a3 [ms [s5 [gs3 [Ha3 [Hf3 [H ->]]]]]]].
  simpl in H. injection H as <- _.
  exists mh, mm, ms. split; [reflexivity|].
  split; [eapply H_value; eauto|]. split; [eapply M_value; eauto|eapply S_value; eauto].
Qed.

Section Params.

Variable today_now : string -> option time.
Variable leap : nat -> nat -> nat -> option time.

Lemma to_time_text (ph pm ps : bool) (h m s : nat) :
  (h < 24)%nat -> (m < 60)%nat -> (s < 60)%nat ->
  to_time today_now leap (time_text ph pm ps h m s) = Some (h, m, s).
Proof.
  intros Hh Hm Hs.
  destruct (field_shape ph h ltac:(lia)) as [[c [r [Ec Hc]]] _].
  assert (Et : time_text ph pm ps h m s =
               String c (String.append r (String ":" (String.append (time_field pm m)
                                                      (String ":" (time_field ps s))))))
    by (unfold time_text; rewrite Ec; reflexivity).
  destruct (guard_digit c (String.append r (String ":" (String.append (time_field pm m)
    (String ":" (time_field ps s))))) Hc) as [G1 G2].
  unfold to_time. rewrite Et, G1, G2, <- Et, time_text_chars.
  unfold hms_pattern.
  rewrite H_field by exact Hh. rewrite M_field by exact Hm. rewrite S_field by exact Hs.
  cbv beta iota zeta. rewrite !field_value by lia.
  destruct (Nat.ltb_spec s 60); [reflexivity|lia].
Qed.

(** [clean_hora_registro] reads back a time written "HH:MM:SS" (each field
    with two digits, or with one digit for a value below 10), with or
    without a fractional part after a '.': the result is that time. *)
Theorem clean_hora_registro_round_trip (ph pm ps : bool) (h m s : nat) (frac : option string)
  (Hh : (h < 24)%nat) (Hm : (m < 60)%nat) (Hs : (s < 60)%nat) :
  clean_hora_registro today_now leap
    (Some (String.append (time_text ph pm ps h m s)
             (match frac with None => EmptyString | Some f => String "." f end)))
  = Ok (Some (h, m, s)).
Proof.
  unfold clean_hora_registro. rewrite before_dot_append.
  - destruct frac as [f|]; simpl; rewrite string_append_empty, to_time_text; auto.
  - rewrite time_text_chars. intro H.
    apply in_app_iff in H as [H|[H|H]]; [|discriminate H|].
    + exact (proj2 (field_shape ph h ltac:(lia)) H).
    + apply in_app_iff in H as [H|[H|H]]; [|discriminate H|].
      * exact (proj2 (field_shape pm m Hm) H).
      * exact (proj2 (field_shape ps s Hs) H).
Qed.

(** A time [clean_hora_registro] reads off a text has an hour below 24, a
    minute below 60 and a second below 60, unless it comes from the texts
    "now" or "today", or from a parsed second of 60 or 61 (whose handling
    is left to pandas). *)
Theorem clean_hora_registro_range (x : string) (h m s : nat)
  (H : clean_hora_registro today_now leap (Some x) = Ok (Some (h, m, s))) :
  (h < 24 /\ m < 60 /\ s < 60)%nat \/
  (exists h' m' s', (h' < 24)%nat /\ (m' < 60)%nat /\ (s' = 60 \/ s' = 61)%nat /\
                    leap h' m' s' = Some (h, m, s)) \/
  ((before_dot x = "now" \/ before_dot x = "today") /\ today_now (before_dot x) = Some (h, m, s)).
Proof.
  unfold clean_hora_registro in H. injection H as H. unfold to_time in H.
  destruct (String.eqb (before_dot x) "" || existsb (String.eqb (before_dot x)) nat_strings);
    [discriminate|].
  destruct (String.eqb_spec (before_dot x) "now") as [En|_].
  { right. right. split; [left; exact En|exact H]. }
  destruct (String.eqb_spec (before_dot x) "today") as [Et|_].
  { right. right. split; [right; exact Et|exact H]. }
  cbn [orb] in H.
  destruct (re_match hms_pattern (list_ascii_of_string (before_dot x))) as [[gs r]|] eqn:E;
    [|discriminate].
  destruct (re_match_hms_bounds _ _ _ E) as [mh [mm [ms [-> [B1 [B2 B3]]]]]].
  destruct r; [|discriminate].
  destruct (Nat.ltb_spec (digits_value ms) 60) as [Hs|Hs].
  - injection H as <- <- <-. left. lia.
  - right. left. exists (digits_value mh), (digits_value mm), (digits_value ms).
    split; [exact B1|]. split; [exact B2|]. split; [lia|exact H].
Qed.

End Params.

Lemma clean_hora_registro_round_trip_witness :
  (8 < 24)%nat /\ (5 < 60)%nat /\ (30 < 60)%nat /\
  clean_hora_registro (fun _ => None) (fun _ _ _ => None)
    (Some (String.append (time_text true false true 8 5 30) (String "." "250")))
  = Ok (Some (8%nat, 5%nat, 30%nat)).
Proof.
  split; [lia|]. split; [lia|]. split; [lia|].
  exact (clean_hora_registro_round_trip (fun _ => None) (fun _ _ _ => None)
           true false true 8 5 30 (Some "250") ltac:(lia) ltac:(lia) ltac:(lia)).
Defined.

Lemma clean_hora_registro_range_witness :
  clean_hora_registro (fun _ => None) (fun _ _ _ => None) (Some "23:59:59.900")
    = Ok (Some (23%nat, 59%nat, 59%nat)) /\
  ((23 < 24 /\ 59 < 60 /\ 59 < 60)%nat \/
   (exists h' m' s', (h' < 24)%nat /\ (m' < 60)%nat /\ (s' = 60 \/ s' = 61)%nat /\
                     (fun _ _ _ => None) h' m' s' = Some (23%nat, 59%nat, 59%nat)) \/
   ((before_dot "23:59:59.900" = "now" \/ before_dot "23:59:59.900" = "today") /\
    (fun _ => None) (before_dot "23:59:59.900") = Some (23%nat, 59%nat, 59%nat))).
Proof.
  assert (H : clean_hora_registro (fun _ => None) (fun _ _ _ => None) (Some "23:59:59.900")
              = Ok (Some (23%nat, 59%nat, 59%nat))) by (vm_compute; reflexivity).
  split; [exact H|].
  exact (clean_hora_registro_range (fun _ => None) (fun _ _ _ => None) _ _ _ _ H).
Defined.

(** *** Errors and totals of [join_qual_prod] *)

Lemma all_ok_err {A : Type} (xs : list (result A)) (e : py_error) :
  all_ok xs = Err e -> In (Err e) xs.
Proof.
  induction xs as [|x xs IH]; simpl; [discriminate|].
  destruct x as [a|e']; simpl.
  - destruct (all_ok xs) as [l|e'] eqn:E; simpl; [discriminate|].
    intro H. injection H as ->. right. apply IH. reflexivity.
  - intro H. injection H as ->. left. reflexivity.
Qed.

Lemma all_ok_err_in {A : Type} (xs : list (result A)) (e : py_error) :
  In (Err e) xs -> exists e', all_ok xs = Err e'.
Proof.
  induction xs as [|x xs IH]; simpl; [tauto|].
  intros [->|Hin]; simpl; [eauto|].
  destruct x as [a|e']; simpl; [|eauto].
  destruct (IH Hin) as [e' ->]. simpl. eauto.
Qed.

Lemma forall2_in_r {A B : Type} (R : A -> B -> Prop) (l1 : list A) (l2 : list B) (y : B) :
  Forall2 R l1 l2 -> In y l2 -> exists x, In x l1 /\ R x y.
Proof.
  induction 1 as [|x y' l1 l2 Hr _ IH]; simpl; [tauto|].
  intros [->|Hin]; [eauto|]. destruct (IH Hin) as [x' [Hx Hr']]. eauto.
Qed.

Lemma forall2_in_l {A B : Type} (R : A -> B -> Prop) (l1 : list A) (l2 : list B) (x : A) :
  Forall2 R l1 l2 -> In x l1 -> exists y, In y l2 /\ R x y.
Proof.
  induction 1 as [|x' y l1 l2 Hr _ IH]; simpl; [tauto|].
  intros [->|Hin]; [eauto|]. destruct (IH Hin) as [y' [Hy Hr']]. eauto.
Qed.

Lemma forall2_map_l {A B C : Type} (R : B -> C -> Prop) (f : A -> B) (l1 : list A) (l2 : list C) :
  Forall2 R (map f l1) l2 -> Forall2 (fun x y => R (f x) y) l1 l2.
Proof.
  revert l2. induction l1 as [|x l1 IH]; intros l2 H; inversion H; subst; constructor; auto.
Qed.

Lemma forall2_compose {A B C : Type} (R : A -> B -> Prop) (S : B -> C -> Prop)
  (l1 : list A) (l2 : list B) (l3 : list C) :
  Forall2 R l1 l2 -> Forall2 S l2 l3 -> Forall2 (fun x z => exists y, R x y /\ S y z) l1 l3.
Proof.
  intro H. revert l3. induction H as [|x y l1 l2 Hr _ IH]; intros l3 H2;
    inversion H2; subst; constructor; eauto.
Qed.

Lemma forall2_map_r {A B : Type} (R : A -> B -> Prop) (f : A -> B) (l : list A) :
  Forall (fun x => R x (f x)) l -> Forall2 R l (map f l).
Proof. induction 1; simpl; constructor; auto. Qed.

Lemma key_eqb_spec (a b : key) : key_eqb a b = true <-> a = b.
Proof.
  destruct a as [[[l1 m1] d1] t1], b as [[[l2 m2] d2] t2]. simpl.
  rewrite !andb_true_iff, Z.eqb_eq, !String.eqb_eq. split.
  - intros [[[-> ->] ->] ->]. reflexivity.
  - intro H. injection H as -> -> -> ->. auto.
Qed.

Lemma key_eqb_sym (a b : key) : key_eqb a b = key_eqb b a.
Proof.
  destruct (key_eqb a b) eqn:E1, (key_eqb b a) eqn:E2; auto.
  - apply key_eqb_spec in E1. subst. rewrite (proj2 (key_eqb_spec b b) eq_refl) in E2. discriminate.
  - apply key_eqb_spec in E2. subst. rewrite (proj2 (key_eqb_spec a a) eq_refl) in E1. discriminate.
Qed.

Lemma lookup_add_to_groups (k k' : key) (v : Q * Q) (gs : list (key * (Q * Q))) :
  lookup_group k (add_to_groups k' v gs) =
  if key_eqb k k' then Some (match lookup_group k gs with
                             | None => v
                             | Some a => (fst a + fst v, snd a + snd v)
                             end)
  else lookup_group k gs.
Proof.
  induction gs as [|[kk a] gs IH]; simpl.
  - destruct (key_eqb k k'); reflexivity.
  - destruct (key_eqb k' kk) eqn:E1; simpl.
    + apply key_eqb_spec in E1. subst kk.
      destruct (key_eqb k k'); reflexivity.
    + destruct (key_eqb k kk) eqn:E2.
      * destruct (key_eqb k k') eqn:E3; [|reflexivity].
        apply key_eqb_spec in E2. apply key_eqb_spec in E3.
        assert (E4 : key_eqb k' kk = true) by (apply key_eqb_spec; congruence).
        congruence.
      * exact IH.
Qed.

(** The running group of a key, as the rows are added in order. *)
Lemma lookup_groupby_fold (k : key) (rows : list (key * (Q * Q))) (gs : list (key * (Q * Q))) :
  lookup_group k (fold_left (fun gs kv => add_to_groups (fst kv) (snd kv) gs) rows gs) =
  fold_left (fun o kv => if key_eqb k (fst kv)
                         then Some (match o with
                                    | None => snd kv
                                    | Some a => (fst a + fst (snd kv), snd a + snd (snd kv))
                                    end)
                         else o) rows (lookup_group k gs).
Proof.
  revert gs. induction rows as [|kv rows IH]; intro gs; simpl; [reflexivity|].
  rewrite IH, lookup_add_to_groups. reflexivity.
Qed.

Lemma sumQ_acc (l : list Q) (a : Q) : fold_left Qplus l a == a + sumQ l.
Proof.
  unfold sumQ. revert a. induction l as [|x l IH]; intro a; simpl; [ring|].
  rewrite (IH (a + x)), (IH (0 + x)). ring.
Qed.

Lemma sumQ_cons (x : Q) (l : list Q) : sumQ (x :: l) == x + sumQ l.
Proof. unfold sumQ at 1. simpl. rewrite sumQ_acc. ring. Qed.

Lemma groups_fold_some (k : key) (rows : list (key * (Q * Q))) (a0 b0 : Q) :
  exists a b,
    fold_left (fun o kv => if key_eqb k (fst kv)
                           then Some (match o with
                                      | None => snd kv
                                      | Some a => (fst a + fst (snd kv), snd a + snd (snd kv))
                                      end)
                           else o) rows (Some (a0, b0)) = Some (a, b) /\
    a == a0 + sumQ (map (fun kv => fst (snd kv)) (filter (fun kv => key_eqb k (fst kv)) rows)) /\
    b == b0 + sumQ (map (fun kv => snd (snd kv)) (filter (fun kv => key_eqb k (fst kv)) rows)).
Proof.
  revert a0 b0. induction rows as [|kv rows IH]; intros a0 b0; simpl.
  - exists a0, b0. split; [reflexivity|]. unfold sumQ. simpl. split; ring.
  - destruct (key_eqb k (fst kv)); simpl.
    + destruct (IH (a0 + fst (snd kv)) (b0 + snd (snd kv))) as [a [b [E [Ha Hb]]]].
      exists a, b. split; [exact E|]. rewrite !sumQ_cons, Ha, Hb. split; ring.
    + apply IH.
Qed.

Lemma groups_fold_none (k : key) (rows : list (key * (Q * Q))) :
  let vs := filter (fun kv => key_eqb k (fst kv)) rows in
  match fold_left (fun o kv => if key_eqb k (fst kv)
                               then Some (match o with
                                          | None => snd kv
                                          | Some a => (fst a + fst (snd kv), snd a + snd (snd kv))
                                          end)
                               else o) rows None with
  | None => vs = []
  | Some (a, b) => vs <> [] /\ a == sumQ (map (fun kv => fst (snd kv)) vs) /\
                   b == sumQ (map (fun kv => snd (snd kv)) vs)
  end.
Proof.
  induction rows as [|[k0 [a0 b0]] rows IH]; simpl; [reflexivity|].
  destruct (key_eqb k k0); simpl.
  - destruct (groups_fold_some k rows a0 b0) as [a [b [E [Ha Hb]]]]. rewrite E.
    split; [discriminate|]. rewrite !sumQ_cons, Ha, Hb. simpl. split; reflexivity.
  - exact IH.
Qed.

Lemma lookup_round_groups (k : key) (gs : list (key * (Q * Q))) :
  lookup_group k (map (fun g => (fst g, (round3 (fst (snd g)), round3 (snd (snd g))))) gs) =
  match lookup_group k gs with
  | Some a => Some (round3 (fst a), round3 (snd a))
  | None => None
  end.
Proof.
  induction gs as [|[kk a] gs IH]; simpl; [reflexivity|].
  destruct (key_eqb k kk); [reflexivity|exact IH].
Qed.

Lemma round_half_even_Qeq (q1 q2 : Q) : q1 == q2 -> round_half_even q1 = round_half_even q2.
Proof.
  intro E. unfold round_half_even. rewrite (Qfloor_comp _ _ E).
  set (f := Qfloor q2).
  assert (Er : q1 - inject_Z f == q2 - inject_Z f) by (rewrite E; reflexivity).
  destruct (Qlt_le_dec (q1 - inject_Z f) (1 # 2)) as [H1|H1],
           (Qlt_le_dec (q2 - inject_Z f) (1 # 2)) as [H2|H2].
  - reflexivity.
  - rewrite Er in H1. exfalso. apply (Qlt_not_le _ _ H1 H2).
  - rewrite Er in H1. exfalso. apply (Qlt_not_le _ _ H2 H1).
  - assert (Eb : Qeq_bool (q1 - inject_Z f) (1 # 2) = Qeq_bool (q2 - inject_Z f) (1 # 2)).
    { destruct (Qeq_bool (q2 - inject_Z f) (1 # 2)) eqn:Eq2.
      - apply Qeq_bool_iff. apply Qeq_bool_iff in Eq2. rewrite Er. exact Eq2.
      - apply not_true_iff_false. intro Eq1. apply Qeq_bool_iff in Eq1.
        rewrite Er in Eq1. apply Qeq_bool_iff in Eq1. congruence. }
    rewrite Eb. reflexivity.
Qed.

Lemma round3_Qeq (q1 q2 : Q) : q1 == q2 -> round3 q1 = round3 q2.
Proof.
  intro E. unfold round3. rewrite (round_half_even_Qeq (q1 * 1000) (q2 * 1000)); [reflexivity|].
  rewrite E. reflexivity.
Qed.

Section Params2.

Variable today_now : string -> option time.
Variable leap : nat -> nat -> nat -> option time.

Lemma keyed_filter (qual : list qual_row) (hours : list nat) (k : key) :
  Forall2 (fun q h => qual_shift today_now leap q = turno_of h) qual hours ->
  map snd (filter (fun kv => key_eqb k (fst kv))
    (flat_map (fun qh => match turno_of (snd qh) with
                         | Some t => [(qual_key (fst qh) t,
                                       (opt0 (q_bdj_vazias (fst qh)), opt0 (q_bdj_retrabalho (fst qh))))]
                         | None => []
                         end) (combine qual hours)))
  = map (fun q => (opt0 (q_bdj_vazias q), opt0 (q_bdj_retrabalho q)))
      (filter (fun q => match qual_shift today_now leap q with
                        | Some t => key_eqb (qual_key q t) k
                        | None => false
                        end) qual).
Proof.
  induction 1 as [|q h qual hours Hq _ IH]; [reflexivity|].
  cbn [combine flat_map fst snd filter]. rewrite Hq.
  destruct (turno_of h) as [t|]; cbn [app filter fst map snd]; [|exact IH].
  rewrite key_eqb_sym. destruct (key_eqb (qual_key q t) k); cbn [map]; [rewrite IH|]; exact IH || reflexivity.
Qed.

(** On tables with the columns it reads and dates [pd.to_datetime]
    parses, [join_qual_prod] fails exactly when the time of some quality
    row is missing or does not give a [datetime.time], and it then always
    fails with an [AttributeError]. *)
Theorem join_qual_prod_error (prod : list prod_row) (qual : list qual_row) :
  (forall e, join_qual_prod today_now leap prod qual = Err e -> exc_class e = "AttributeError") /\
  ((exists e, join_qual_prod today_now leap prod qual = Err e) <->
   Exists (fun q => bad_time today_now leap q = true) qual).
Proof.
  rewrite Exists_exists. unfold join_qual_prod.
  destruct (all_ok (map (fun q => clean_hora_registro today_now leap (q_hora_registro q)) qual))
    as [times|e] eqn:E1; simpl.
  - pose proof (forall2_map_l _ _ _ _ (CleaningExtra.all_ok_forall2 _ _ E1)) as F1.
    destruct (all_ok (map hour_of times)) as [hours|e] eqn:E2; simpl.
    + pose proof (forall2_map_l _ _ _ _ (CleaningExtra.all_ok_forall2 _ _ E2)) as F2.
      split; [intros e H; discriminate H|]. split; [intros [e H]; discriminate H|].
      intros [q [Hq Hb]]. exfalso.
      destruct (forall2_in_l _ _ _ _ F1 Hq) as [t [Ht Et]].
      destruct (forall2_in_l _ _ _ _ F2 Ht) as [h [_ Eh]].
      unfold bad_time in Hb. rewrite Et in Hb.
      destruct t as [[[h' m'] s']|]; [discriminate Hb|discriminate Eh].
    + apply all_ok_err in E2. apply in_map_iff in E2 as [t [Et Ht]].
      destruct t as [[[h' m'] s']|]; simpl in Et; [discriminate Et|].
      injection Et as <-. split; [intros e H; injection H as <-; reflexivity|].
      split; [intros _|intros _; eauto].
      destruct (forall2_in_r _ _ _ _ F1 Ht) as [q [Hq Eq]].
      exists q. split; [exact Hq|]. unfold bad_time. rewrite Eq. reflexivity.
  - apply all_ok_err in E1. apply in_map_iff in E1 as [q [Eq Hq]].
    assert (Hc : exc_class e = "AttributeError").
    { unfold clean_hora_registro in Eq. destruct (q_hora_registro q); [discriminate Eq|].
      injection Eq as <-. reflexivity. }
    split; [intros e' H; injection H as <-; exact Hc|].
    split; [intros _|intros _; eauto].
    exists q. split; [exact Hq|]. unfold bad_time. rewrite Eq. reflexivity.
Qed.

(** When [join_qual_prod] succeeds it gives one row per production row, with
    the production row's keys, and its [bdj_vazias] / [bdj_retrabalho] are
    the sums over the quality rows of the same line, machine, date and
    shift, rounded to 3 decimals, or 0 when there is no such quality row;
    the counts are then reconciled as in [QualProd.reconcile]. *)
Theorem join_qual_prod_totals (prod : list prod_row) (qual : list qual_row) (out : list joined)
  (H : join_qual_prod today_now leap prod qual = Ok out) :
  Forall2 (fun p o =>
    j_key o = prod_key p /\
    j_out o = QualProd.reconcile
      {| QualProd.total_ciclos := p_total_ciclos p;
         QualProd.total_produzido_sensor := p_total_produzido_sensor p;
         QualProd.bdj_vazias := group_total (qual_shift today_now leap) q_bdj_vazias qual p;
         QualProd.bdj_retrabalho := group_total (qual_shift today_now leap) q_bdj_retrabalho qual p |})
    prod out.
Proof.
  revert H. unfold join_qual_prod.
  destruct (all_ok (map (fun q => clean_hora_registro today_now leap (q_hora_registro q)) qual))
    as [times|e] eqn:E1; simpl; [|discriminate].
  destruct (all_ok (map hour_of times)) as [hours|e] eqn:E2; simpl; [|discriminate].
  intro H. injection H as <-.
  pose proof (forall2_map_l _ _ _ _ (CleaningExtra.all_ok_forall2 _ _ E1)) as F1.
  pose proof (forall2_map_l _ _ _ _ (CleaningExtra.all_ok_forall2 _ _ E2)) as F2.
  assert (F : Forall2 (fun q h => qual_shift today_now leap q = turno_of h) qual hours).
  { pose proof (forall2_compose _ _ _ _ _ F1 F2) as F3.
    clear -F3. induction F3 as [|q h qual hours [t [Et Eh]] _ IH]; constructor; [|exact IH].
    unfold qual_shift. rewrite Et. destruct t as [[[h' m'] s']|]; [|discriminate Eh].
    injection Eh as ->. reflexivity. }
  apply forall2_map_r. apply Forall_forall. intros p _.
  unfold merge_row. split; [reflexivity|].
  rewrite lookup_round_groups. unfold groupby_sum. rewrite lookup_groupby_fold. simpl lookup_group.
  pose proof (groups_fold_none (prod_key p)
    (flat_map (fun qh => match turno_of (snd qh) with
                         | Some t => [(qual_key (fst qh) t,
                                       (opt0 (q_bdj_vazias (fst qh)), opt0 (q_bdj_retrabalho (fst qh))))]
                         | None => []
                         end) (combine qual hours))) as G.
  cbv zeta in G.
  pose proof (keyed_filter qual hours (prod_key p) F) as K.
  unfold group_total.
  destruct (fold_left _ _ None) as [[a b]|].
  - destruct G as [Hne [Ha Hb]].
    rewrite <- (map_map snd fst), K, map_map in Ha.
    rewrite <- (map_map snd snd), K, map_map in Hb.
    cbn beta in Ha, Hb.
    destruct (filter _ qual) as [|q0 ms] eqn:Ems.
    + exfalso. apply Hne. apply map_eq_nil with (f := snd). rewrite K. reflexivity.
    + simpl. rewrite (round3_Qeq _ _ Ha), (round3_Qeq _ _ Hb). reflexivity.
  - apply (f_equal (map snd)) in G. rewrite K in G.
    destruct (filter _ qual) eqn:Ems; [reflexivity|discriminate G].
Qed.

End Params2.

Lemma join_qual_prod_totals_witness :
  let out := match join_qual_prod (fun _ => None) (fun _ _ _ => None) sample_prod sample_qual with
             | Ok o => o
             | Err _ => []
             end in
  join_qual_prod (fun _ => None) (fun _ _ _ => None) sample_prod sample_qual = Ok out /\
  Forall2 (fun p o =>
    j_key o = prod_key p /\
    j_out o = QualProd.reconcile
      {| QualProd.total_ciclos := p_total_ciclos p;
         QualProd.total_produzido_sensor := p_total_produzido_sensor p;
         QualProd.bdj_vazias := group_total (qual_shift (fun _ => None) (fun _ _ _ => None))
                                  q_bdj_vazias sample_qual p;
         QualProd.bdj_retrabalho := group_total (qual_shift (fun _ => None) (fun _ _ _ => None))
                                      q_bdj_retrabalho sample_qual p |})
    sample_prod out.
Proof.
  intro out.
  assert (H : join_qual_prod (fun _ => None) (fun _ _ _ => None) sample_prod sample_qual = Ok out)
    by (vm_compute; reflexivity).
  split; [exact H|].
  exact (join_qual_prod_totals _ _ _ _ _ H).
Defined.

End QualJoinExtra.

(** ** [InfoIHMJoin.__line_adjust] *)

Module LineAdjustExtra.

Import Cleaning LineAdjust.
Local Open Scope list_scope.

Lemma cell_eqb_spec (a b : cell) : cell_eqb a b = true <-> a = b.
Proof.
  destruct a, b; simpl; rewrite ?Z.eqb_eq, ?String.eqb_eq; split; intro H; congruence.
Qed.

Lemma dict_get_set (k k' v : cell) (d : list (cell * cell)) :
  dict_get k (dict_set k' v d) = if cell_eqb k k' then v else dict_get k d.
Proof.
  induction d as [|[kk vv] d IH]; simpl.
  - destruct (cell_eqb k k'); reflexivity.
  - destruct (cell_eqb k' kk) eqn:E1; simpl.
    + apply cell_eqb_spec in E1. subst kk. destruct (cell_eqb k k'); reflexivity.
    + destruct (cell_eqb k kk) eqn:E2; [|exact IH].
      destruct (cell_eqb k k') eqn:E3; [|reflexivity].
      apply cell_eqb_spec in E2. apply cell_eqb_spec in E3.
      assert (E4 : cell_eqb k' kk = true) by (apply cell_eqb_spec; congruence).
      congruence.
Qed.

Lemma dict_get_fold (k : cell) (pairs d : list (cell * cell)) :
  dict_get k (fold_left (fun d kv => dict_set (fst kv) (snd kv) d) pairs d) =
  fold_left (fun acc kv => if cell_eqb k (fst kv) then snd kv else acc) pairs (dict_get k d).
Proof.
  revert d. induction pairs as [|kv pairs IH]; intro d; simpl; [reflexivity|].
  rewrite IH, dict_get_set. reflexivity.
Qed.

Lemma combine_map_map {A B C : Type} (f : A -> B) (g : A -> C) (l : list A) :
  combine (map f l) (map g l) = map (fun x => (f x, g x)) l.
Proof. induction l as [|x l IH]; simpl; [reflexivity|]. rewrite IH. reflexivity. Qed.

Lemma last_value_none (k : cell) (f g : list cell -> cell) (rs : list (list cell)) (acc : cell) :
  Forall (fun r => f r <> k) rs ->
  fold_left (fun acc kv => if cell_eqb k (fst kv) then snd kv else acc)
            (map (fun r => (f r, g r)) rs) acc = acc.
Proof.
  induction 1 as [|r rs Hr _ IH]; simpl; [reflexivity|].
  destruct (cell_eqb k (f r)) eqn:E; [|exact IH].
  apply cell_eqb_spec in E. congruence.
Qed.

Lemma last_value_match (k : cell) (f g : list cell -> cell) (pre post : list (list cell))
  (r : list cell) (acc : cell) :
  f r = k -> Forall (fun r' => f r' <> k) post ->
  fold_left (fun acc kv => if cell_eqb k (fst kv) then snd kv else acc)
            (map (fun r => (f r, g r)) (pre ++ r :: post)) acc = g r.
Proof.
  intros Hk Hp. rewrite map_app, fold_left_app. simpl.
  rewrite (proj2 (cell_eqb_spec k (f r)) (eq_sym Hk)). apply last_value_none, Hp.
Qed.

Lemma dict_zip_get (k : cell) (f g : list cell -> cell) (rs : list (list cell)) :
  dict_get k (dict_zip (map f rs) (map g rs)) =
  fold_left (fun acc kv => if cell_eqb k (fst kv) then snd kv else acc)
            (map (fun r => (f r, g r)) rs) CNull.
Proof. unfold dict_zip. rewrite dict_get_fold, combine_map_map. reflexivity. Qed.

Lemma index_of_other (c c' : string) (cols : list string) :
  mem c' cols = true -> c <> c' -> index_of c cols <> index_of c' cols.
Proof.
  intros Hm Hne E. apply (CleaningExtra.index_of_inj c' c cols Hm); [congruence|]. congruence.
Qed.

Lemma get_columns (df : frame) (r : list (list cell)) (c : string) (row : list cell) :
  get {| columns := columns df; rows := r |} c row = get df c row.
Proof. reflexivity. Qed.

Lemma get_set_other (df : frame) (c c' : string) (v : cell) (row : list cell) :
  mem c' (columns df) = true -> c <> c' ->
  get df c (set_nth (index_of c' (columns df)) v row) = get df c row.
Proof.
  intros Hm Hne. unfold get. apply CleaningExtra.nth_set_nth_other, index_of_other; assumption.
Qed.

Lemma get_set_same (df : frame) (c : string) (v : cell) (row : list cell) :
  (index_of c (columns df) < List.length row)%nat ->
  get df c (set_nth (index_of c (columns df)) v row) = v.
Proof. intro H. unfold get. apply CleaningExtra.nth_set_nth_same, H. Qed.

(** The closed form of a successful [__line_adjust]. *)
Lemma line_adjust_form (df_ihm df : frame) :
  mem "maquina_id" (columns df_ihm) = true -> mem "linha" (columns df_ihm) = true ->
  mem "fabrica" (columns df_ihm) = true -> mem "linha" (columns df) = true ->
  mem "maquina_id" (columns df) = true -> mem "fabrica" (columns df) = true ->
  let d1 := dict_zip (map (get df_ihm "maquina_id") (rows df_ihm))
                     (map (get df_ihm "linha") (rows df_ihm)) in
  let d2 := dict_zip (map (get df_ihm "maquina_id") (rows df_ihm))
                     (map (get df_ihm "fabrica") (rows df_ihm)) in
  line_adjust df_ihm df =
  Ok {| columns := columns df;
        rows := map (fun row =>
                  let row1 := set_nth (index_of "linha" (columns df))
                                (match get df "linha" row with
                                 | CNull => dict_get (get df "maquina_id" row) d1
                                 | y => y
                                 end) row in
                  set_nth (index_of "fabrica" (columns df))
                    (match get df "fabrica" row1 with
                     | CNull => dict_get (get df "maquina_id" row1) d2
                     | y => y
                     end) row1) (rows df) |}.
Proof.
  intros M1 M2 M3 M4 M5 M6 d1 d2.
  unfold line_adjust, column. rewrite M1, M2, M3, M4, M5. cbn [bind].
  unfold set_column. cbn [columns rows]. rewrite M6, M5. cbn [bind].
  unfold fillna. f_equal. f_equal. fold d1 d2. unfold get. cbn [columns].
  induction (rows df) as [|row rs IH]; [reflexivity|].
  cbn [map combine fst snd]. rewrite IH. reflexivity.
Qed.

Ltac key_error :=
  let H := fresh in
  intro H; injection H as <-; eexists; split; [reflexivity|];
  first [left; split; [first [left; reflexivity | right; left; reflexivity
                             | right; right; reflexivity]|assumption]
        |right; split; [first [left; reflexivity | right; left; reflexivity
                              | right; right; reflexivity]|assumption]].

Lemma line_adjust_error_form (df_ihm df : frame) (e : py_error) :
  line_adjust df_ihm df = Err e ->
  exists c, e = PyExc "KeyError" [c] /\
    ((c = "maquina_id" \/ c = "linha" \/ c = "fabrica") /\ mem c (columns df_ihm) = false \/
     (c = "maquina_id" \/ c = "linha" \/ c = "fabrica") /\ mem c (columns df) = false).
Proof.
  unfold line_adjust, column.
  destruct (mem "maquina_id" (columns df_ihm)) eqn:M1; cbn [bind];
    [|key_error].
  destruct (mem "linha" (columns df_ihm)) eqn:M2; cbn [bind];
    [|key_error].
  destruct (mem "fabrica" (columns df_ihm)) eqn:M3; cbn [bind];
    [|key_error].
  destruct (mem "linha" (columns df)) eqn:M4; cbn [bind];
    [|key_error].
  destruct (mem "maquina_id" (columns df)) eqn:M5; cbn [bind];
    [|key_error].
  unfold set_column. cbn [columns].
  destruct (mem "fabrica" (columns df)) eqn:M6; cbn [bind];
    [rewrite M5; cbn [bind]; discriminate|key_error].
Qed.

Lemma line_adjust_ok_mems (df_ihm df df' : frame) :
  line_adjust df_ihm df = Ok df' ->
  mem "maquina_id" (columns df_ihm) = true /\ mem "linha" (columns df_ihm) = true /\
  mem "fabrica" (columns df_ihm) = true /\ mem "linha" (columns df) = true /\
  mem "maquina_id" (columns df) = true /\ mem "fabrica" (columns df) = true.
Proof.
  unfold line_adjust, column.
  destruct (mem "maquina_id" (columns df_ihm)); cbn [bind]; [|discriminate].
  destruct (mem "linha" (columns df_ihm)); cbn [bind]; [|discriminate].
  destruct (mem "fabrica" (columns df_ihm)); cbn [bind]; [|discriminate].
  destruct (mem "linha" (columns df)); cbn [bind]; [|discriminate].
  destruct (mem "maquina_id" (columns df)) eqn:M5; cbn [bind]; [|discriminate].
  unfold set_column. cbn [columns].
  destruct (mem "fabrica" (columns df)); cbn [bind]; [|discriminate].
  intros _. repeat split.
Qed.

(** [__line_adjust] keeps the rows and columns of the table, changes no
    column other than [linha] and [fabrica], keeps their present values, and
    fills a missing one from the last row of the annotation table with the
    same machine id, or leaves it missing when the machine id does not
    occur there. *)
Theorem line_adjust_fill (df_ihm df df' : frame)
  (Hkeys : Forall (fun r => get df_ihm "maquina_id" r <> CNull) (rows df_ihm))
  (Hrect : rectangular df) (H : line_adjust df_ihm df = Ok df') :
  columns df' = columns df /\
  Forall2 (fun row row' =>
    (forall c, c <> "linha" -> c <> "fabrica" -> get df' c row' = get df c row) /\
    (forall c, c = "linha" \/ c = "fabrica" ->
       (get df c row <> CNull -> get df' c row' = get df c row) /\
       (get df c row = CNull ->
          (Forall (fun r => get df_ihm "maquina_id" r <> get df "maquina_id" row) (rows df_ihm) ->
           get df' c row' = CNull) /\
          (forall pre r post, rows df_ihm = pre ++ r :: post ->
             get df_ihm "maquina_id" r = get df "maquina_id" row ->
             Forall (fun r' => get df_ihm "maquina_id" r' <> get df "maquina_id" row) post ->
             get df' c row' = get df_ihm c r))))
    (rows df) (rows df').
Proof.
  destruct (line_adjust_ok_mems df_ihm df df' H) as [M1 [M2 [M3 [M4 [M5 M6]]]]].
  rewrite (line_adjust_form df_ihm df M1 M2 M3 M4 M5 M6) in H.
  injection H as <-. cbn [columns rows]. split; [reflexivity|].
  apply QualJoinExtra.forall2_map_r. apply Forall_forall. intros row Hin.
  pose proof (proj1 (CleaningExtra.rect_iff df) Hrect row Hin) as Hlen.
  assert (Hil : (index_of "linha" (columns df) < List.length row)%nat)
    by (rewrite Hlen; apply CleaningExtra.index_of_lt, M4).
  assert (Hif : (index_of "fabrica" (columns df) < List.length row)%nat)
    by (rewrite Hlen; apply CleaningExtra.index_of_lt, M6).
  cbv beta zeta. split.
  - intros c H1 H2. rewrite !get_columns. rewrite (get_set_other df c "fabrica") by assumption.
    apply get_set_other; assumption.
  - intros c [-> | ->]; rewrite !get_columns.
    + rewrite (get_set_other df "linha" "fabrica") by (assumption || discriminate).
      rewrite get_set_same by exact Hil.
      destruct (get df "linha" row) eqn:E; [|split; [reflexivity|discriminate]..].
      split; [congruence|]. intros _. split.
      * intro Hnone. rewrite dict_zip_get. apply last_value_none. exact Hnone.
      * intros pre r post Hrows Hk Hpost. rewrite dict_zip_get, Hrows.
        apply last_value_match; assumption.
    + rewrite get_set_same by (rewrite CleaningExtra.length_set_nth; exact Hif).
      rewrite (get_set_other df "fabrica" "linha") by (assumption || discriminate).
      rewrite (get_set_other df "maquina_id" "linha") by (assumption || discriminate).
      destruct (get df "fabrica" row) eqn:E; [|split; [reflexivity|discriminate]..].
      split; [congruence|]. intros _. split.
      * intro Hnone. rewrite dict_zip_get. apply last_value_none. exact Hnone.
      * intros pre r post Hrows Hk Hpost. rewrite dict_zip_get, Hrows.
        apply last_value_match; assumption.
Qed.

(** [__line_adjust] fails exactly when [maquina_id], [linha] or [fabrica]
    is absent from one of the two tables, and then with a [KeyError]
    naming one such column. *)
Theorem line_adjust_key_error (df_ihm df : frame)
  (Hkeys : Forall (fun r => get df_ihm "maquina_id" r <> CNull) (rows df_ihm)) :
  (forall e, line_adjust df_ihm df = Err e ->
     exists c, e = PyExc "KeyError" [c] /\
       (c = "maquina_id" \/ c = "linha" \/ c = "fabrica") /\
       (mem c (columns df_ihm) = false \/ mem c (columns df) = false)) /\
  ((exists e, line_adjust df_ihm df = Err e) <->
   ~ (mem "maquina_id" (columns df_ihm) = true /\ mem "linha" (columns df_ihm) = true /\
      mem "fabrica" (columns df_ihm) = true /\ mem "linha" (columns df) = true /\
      mem "maquina_id" (columns df) = true /\ mem "fabrica" (columns df) = true)).
Proof.
  split; [|split].
  - intros e H. apply line_adjust_error_form in H as [c [-> [[Hc Hm]|[Hc Hm]]]];
      exists c; auto.
  - intros [e H] [M1 [M2 [M3 [M4 [M5 M6]]]]].
    rewrite (line_adjust_form df_ihm df M1 M2 M3 M4 M5 M6) in H. discriminate H.
  - intro Hn. destruct (line_adjust df_ihm df) as [df'|e] eqn:E; [|eauto].
    exfalso. apply Hn. exact (line_adjust_ok_mems df_ihm df df' E).
Qed.

Lemma line_adjust_fill_witness :
  let out := match line_adjust sample_ihm_lines sample_info_lines with
             | Ok o => o
             | Err _ => sample_info_lines
             end in
  Forall (fun r => get sample_ihm_lines "maquina_id" r <> CNull) (rows sample_ihm_lines) /\
  rectangular sample_info_lines /\
  line_adjust sample_ihm_lines sample_info_lines = Ok out /\
  columns out = columns sample_info_lines /\
  Forall2 (fun row row' =>
    (forall c, c <> "linha" -> c <> "fabrica" -> get out c row' = get sample_info_lines c row) /\
    (forall c, c = "linha" \/ c = "fabrica" ->
       (get sample_info_lines c row <> CNull -> get out c row' = get sample_info_lines c row) /\
       (get sample_info_lines c row = CNull ->
          (Forall (fun r => get sample_ihm_lines "maquina_id" r <>
                            get sample_info_lines "maquina_id" row) (rows sample_ihm_lines) ->
           get out c row' = CNull) /\
          (forall pre r post, rows sample_ihm_lines = pre ++ r :: post ->
             get sample_ihm_lines "maquina_id" r = get sample_info_lines "maquina_id" row ->
             Forall (fun r' => get sample_ihm_lines "maquina_id" r' <>
                               get sample_info_lines "maquina_id" row) post ->
             get out c row' = get sample_ihm_lines c r))))
    (rows sample_info_lines) (rows out).
Proof.
  intro out.
  assert (Hk : Forall (fun r => get sample_ihm_lines "maquina_id" r <> CNull)
                 (rows sample_ihm_lines))
    by (repeat constructor; vm_compute; discriminate).
  assert (Hr : rectangular sample_info_lines) by (repeat constructor).
  assert (H : line_adjust sample_ihm_lines sample_info_lines = Ok out)
    by (vm_compute; reflexivity).
  split; [exact Hk|]. split; [exact Hr|]. split; [exact H|].
  exact (line_adjust_fill _ _ _ Hk Hr H).
Defined.

Lemma line_adjust_key_error_witness :
  Forall (fun r => get sample_ihm_lines "maquina_id" r <> CNull) (rows sample_ihm_lines) /\
  (forall e, line_adjust sample_ihm_lines sample_info_lines = Err e ->
     exists c, e = PyExc "KeyError" [c] /\
       (c = "maquina_id" \/ c = "linha" \/ c = "fabrica") /\
       (mem c (columns sample_ihm_lines) = false \/ mem c (columns sample_info_lines) = false)) /\
  ((exists e, line_adjust sample_ihm_lines sample_info_lines = Err e) <->
   ~ (mem "maquina_id" (columns sample_ihm_lines) = true /\
      mem "linha" (columns sample_ihm_lines) = true /\
      mem "fabrica" (columns sample_ihm_lines) = true /\
      mem "linha" (columns sample_info_lines) = true /\
      mem "maquina_id" (columns sample_info_lines) = true /\
      mem "fabrica" (columns sample_info_lines) = true)).
Proof.
  assert (Hk : Forall (fun r => get sample_ihm_lines "maquina_id" r <> CNull)
                 (rows sample_ihm_lines))
    by (repeat constructor; vm_compute; discriminate).
  split; [exact Hk|].
  exact (line_adjust_key_error _ _ Hk).
Defined.

End LineAdjustExtra.
